(** * matrix-bot-lib: the sync engine of [MatrixBot], embedded in Rocq

    Sources: [src/matrix_bot_lib/__init__.py] (class [MatrixBot]) and
    [src/matrix_bot_lib/MatrixModels.py] ([TokenResponse], [EventMetadata],
    [RoomsResponse]).

    Conventions of the embedding.
    - Python values are the trees of [pyval].  What [r.json()] returns is a
      [pyval] without [PDatetime]; JSON numbers with a fraction or an
      exponent (Python [float]s) are not represented, so a statement about
      every [pyval] speaks of the documents whose numbers are integers.
    - The floats the source computes itself ([n / 1000] on an [int]) are
      IEEE binary64 numbers, modelled exactly; library calls behave as in
      CPython on Linux (glibc) with a 64-bit [time_t].
    - A [dict] is an association list in insertion order with distinct keys
      (keys of decoded JSON objects are strings).
    - Code that performs I/O, logs, or can raise runs in the monad [M]: it
      threads a [State] (the bot, the HTTP responses still to come, the
      chronological trace of effects) and ends in [Ret] or [Raise].
    - The module is modelled as it runs as a script ([__main__]), where
      [asyncio] is bound at module level. *)

From Stdlib Require Import ZArith List String Ascii Bool Lia DecimalString.
Import ListNotations.
Open Scope string_scope.
Open Scope Z_scope.

(** ** Python values *)

#[local] Unset Elimination Schemes.
Inductive pyval : Type :=
| PNone
| PBool (b : bool)
| PInt (n : Z)
| PStr (s : string)
| PList (l : list pyval)
| PDict (d : list (string * pyval))
| PDatetime (t : Z).
#[local] Set Elimination Schemes.

Definition pydict := list (string * pyval).

(** [bool(v)]. *)
Definition truthy (v : pyval) : bool :=
  match v with
  | PNone => false
  | PBool b => b
  | PInt n => negb (n =? 0)
  | PStr s => negb (s =? "")%string
  | PList l => match l with [] => false | _ => true end
  | PDict d => match d with [] => false | _ => true end
  | PDatetime _ => true
  end.

(** [d.get(k)] / [k in d]. *)
Fixpoint dict_get (d : pydict) (k : string) : option pyval :=
  match d with
  | [] => None
  | (k', v) :: d' => if (k' =? k)%string then Some v else dict_get d' k
  end.

Definition dict_mem (d : pydict) (k : string) : bool :=
  match dict_get d k with Some _ => true | None => false end.

(** [d[k] = v]: an existing key keeps its position. *)
Fixpoint dict_set (d : pydict) (k : string) (v : pyval) : pydict :=
  match d with
  | [] => [(k, v)]
  | (k', v') :: d' =>
      if (k' =? k)%string then (k, v) :: d' else (k', v') :: dict_set d' k v
  end.

(** [{k: v for k, v in d.items() if k in keys}]. *)
Definition dict_restrict (keys : list string) (d : pydict) : pydict :=
  filter (fun kv => existsb (String.eqb (fst kv)) keys) d.

(** The [**rest] of a mapping pattern: the items whose key the pattern does
    not name. *)
Definition dict_without (keys : list string) (d : pydict) : pydict :=
  filter (fun kv => negb (existsb (String.eqb (fst kv)) keys)) d.

Definition is_str (s : string) (v : pyval) : bool :=
  match v with PStr s' => (s' =? s)%string | _ => false end.

Definition substring_of (s t : string) : bool :=
  match String.index 0 s t with Some _ => true | None => false end.

(** ** Exceptions and the effect monad *)

Inductive exn : Type :=
| JSONDecodeError            (* r.json() on a body that is not JSON *)
| TypeError
| AttributeError
| OverflowError
| OSError                    (* localtime: value too large (EOVERFLOW) *)
| YearOutOfRange             (* ValueError("year ... is out of range") *)
| UnboundLocalError
| CouldNotFindHomeserver (server_name : string)
    (* ValueError(f"Could not find homeserver ({server_name=})") *)
| InvalidURL                 (* httpx.InvalidURL *)
| TransportError.            (* httpx: no response arrived *)

Inductive Outcome (A : Type) : Type :=
| Ret (a : A)
| Raise (e : exn).
Arguments Ret {A} a.
Arguments Raise {A} e.

(** *** datetime *)

(** A naive [datetime] is its number of microseconds since
    0001-01-01T00:00:00; [datetime.max] is the last microsecond of year
    9999. *)
Definition US_PER_DAY : Z := 86400000000.
Definition DATETIME_END : Z := 3652059 * US_PER_DAY.
Definition MAX_DELTA_DAYS : Z := 999999999.
(** 1970-01-01 has proleptic ordinal 719163. *)
Definition EPOCH_US : Z := 719162 * US_PER_DAY.

(** [timedelta(milliseconds=ms)] for an [int]. *)
Definition timedelta_ms (ms : Z) : Outcome Z :=
  let us := ms * 1000 in
  let days := us / US_PER_DAY in
  if (- MAX_DELTA_DAYS <=? days) && (days <=? MAX_DELTA_DAYS)
  then Ret us else Raise OverflowError.

(** [d + td]. *)
Definition datetime_add (d td : Z) : Outcome Z :=
  let r := d + td in
  if (0 <=? r) && (r <? DATETIME_END) then Ret r else Raise OverflowError.

(** *** float *)

(** A finite [float] is an IEEE 754 binary64 number, kept by its value
    [fm * 2^fe].  Every operation rounds to nearest, ties to even. *)
Record float : Type := mkFloat { fm : Z; fe : Z }.

(** The integer nearest to [num / den], ties to even ([den > 0]). *)
Definition round_half_even (num den : Z) : Z :=
  let q := num / den in
  let r := num mod den in
  if 2 * r <? den then q
  else if den <? 2 * r then q + 1
  else if Z.even q then q else q + 1.

(** [floor (log2 (num / den))] for positive [num] and [den]. *)
Definition log2_ratio (num den : Z) : Z :=
  let k := Z.log2 num - Z.log2 den in
  if (if 0 <=? k then den * 2 ^ k <=? num else den <=? num * 2 ^ (- k))
  then k else k - 1.

(** The double nearest to [num / den] ([den > 0]): 53 significant bits,
    fewer below [2^-1022]. *)
Definition float_round (num den : Z) : float :=
  if num =? 0 then mkFloat 0 0
  else
    let a := Z.abs num in
    let e := Z.max (log2_ratio a den - 52) (- 1074) in
    let m := if 0 <=? e then round_half_even a (den * 2 ^ e)
             else round_half_even (a * 2 ^ (- e)) den in
    mkFloat (Z.sgn num * m) e.

(** The least magnitude that rounds beyond the largest double
    [2^1024 - 2^971]: the midpoint between it and [2^1024]. *)
Definition FLOAT_OVERFLOW : Z := 2 ^ 1024 - 2 ^ 970.

(** [a / b] on two [int]s, [b > 0]: the correctly rounded quotient.
    [None] is [OverflowError] (integer division result too large for a
    float). *)
Definition int_truediv (a b : Z) : option float :=
  if FLOAT_OVERFLOW * b <=? Z.abs a then None else Some (float_round a b).

(** [modf(d)]: the integral part, towards zero, and the rest; both are
    exact. *)
Definition modf (d : float) : Z * float :=
  if 0 <=? fe d then (fm d * 2 ^ fe d, mkFloat 0 0)
  else (Z.quot (fm d) (2 ^ (- fe d)),
        mkFloat (Z.rem (fm d) (2 ^ (- fe d))) (fe d)).

(** [x * k] for an [int]-valued double [k]. *)
Definition float_mul (x : float) (k : Z) : float :=
  if 0 <=? fe x then float_round (fm x * k * 2 ^ fe x) 1
  else float_round (fm x * k) (2 ^ (- fe x)).

(** The integer nearest to [x], ties to even. *)
Definition float_rint (x : float) : Z :=
  if 0 <=? fe x then fm x * 2 ^ fe x
  else round_half_even (fm x) (2 ^ (- fe x)).

(** *** datetime.fromtimestamp *)

Definition TIME_T_MIN : Z := - 2 ^ 63.

(** The conversion of a timestamp to seconds and microseconds
    ([_PyTime_ObjectToTimeval], rounding half to even): the fraction is
    scaled by [1e6] and rounded, a carry moves into the seconds, and the
    seconds have to fit [time_t].  The upper bound is tested against the
    double nearest to the largest [time_t], which is [2^63] itself (as
    CPython 3.11.2 does; [localtime] refuses what slips through). *)
Definition to_timeval (d : float) : Outcome (Z * Z) :=
  let (intpart, floatpart) := modf d in
  let us := float_rint (float_mul floatpart 1000000) in
  let (sec, us) :=
    if 1000000 <=? us then (intpart + 1, us - 1000000)
    else if us <? 0 then (intpart - 1, us + 1000000)
    else (intpart, us) in
  if (TIME_T_MIN <=? sec) && (sec <=? - TIME_T_MIN)
  then Ret (sec, us) else Raise OverflowError.

(** Days from 0001-01-01 to the first day of the year [y] (proleptic
    Gregorian, year 0 and below included). *)
Definition days_before_year (y : Z) : Z :=
  365 * (y - 1) + (y - 1) / 4 - (y - 1) / 100 + (y - 1) / 400.

(** [localtime] succeeds while [tm_year], the year minus 1900, fits an
    [int]. *)
Definition LOCALTIME_BEGIN : Z := days_before_year (- 2 ^ 31 + 1900) * US_PER_DAY.
Definition LOCALTIME_END : Z := days_before_year (2 ^ 31 + 1900) * US_PER_DAY.

(** [datetime.fromtimestamp(d)] in a zone [utcoffset] microseconds east of
    UTC all year round (UTC itself, [Etc/GMT-5]).  The local year has to
    lie in 1..9999, and so has the local year one day earlier, which the
    fold detection looks up. *)
Definition fromtimestamp (utcoffset : Z) (d : float) : Outcome Z :=
  match to_timeval d with
  | Raise e => Raise e
  | Ret (sec, us) =>
      let local := EPOCH_US + sec * 1000000 + utcoffset in
      if (local <? LOCALTIME_BEGIN) || (LOCALTIME_END <=? local)
      then Raise OSError
      else if (local - US_PER_DAY <? 0) || (DATETIME_END <=? local)
      then Raise YearOutOfRange
      else Ret (local + us)
  end.

(** [datetime.fromtimestamp(ms / 1000)] for an [int] [ms]. *)
Definition fromtimestamp_ms (utcoffset ms : Z) : Outcome Z :=
  match int_truediv ms 1000 with
  | Some d => fromtimestamp utcoffset d
  | None => Raise OverflowError
  end.

(** Calendar date of a datetime (proleptic Gregorian), for reading results. *)
Definition date_of (t : Z) : Z * Z * Z :=
  let z := t / US_PER_DAY + 306 in       (* days since 0000-03-01 *)
  let era := z / 146097 in
  let doe := z mod 146097 in
  let yoe := (doe - doe / 1460 + doe / 36524 - doe / 146096) / 365 in
  let doy := doe - (365 * yoe + yoe / 4 - yoe / 100) in
  let mp := (5 * doy + 2) / 153 in
  let d := doy - (153 * mp + 2) / 5 + 1 in
  let m := if mp <? 10 then mp + 3 else mp - 9 in
  let y := yoe + era * 400 + (if m <=? 2 then 1 else 0) in
  (y, m, d).

(** ** MatrixModels.py *)

(** *** TokenResponse *)

Record TokenResponse : Type := mkTokenResponse {
  tr_refresh_token : option string;
  tr_access_token : option string;
  tr_expires_in_ms : option Z
}.

Definition str_truthy (o : option string) : bool :=
  match o with Some s => negb (s =? "")%string | None => false end.

Definition int_truthy (o : option Z) : bool :=
  match o with Some n => negb (n =? 0) | None => false end.

(** [TokenResponse.get_expiry]; [now] is what [datetime.now()] reads.
    Falling off the end returns [None]. *)
Definition get_expiry (now : Z) (t : TokenResponse) : Outcome (option Z) :=
  if str_truthy (tr_access_token t) && int_truthy (tr_expires_in_ms t) then
    match tr_expires_in_ms t with
    | Some ms =>
        match timedelta_ms ms with
        | Ret td =>
            match datetime_add now td with
            | Ret d => Ret (Some d)
            | Raise e => Raise e
            end
        | Raise e => Raise e
        end
    | None => Ret None
    end
  else Ret None.

Definition TOKEN_KEYS : list string :=
  ["refresh_token"; "access_token"; "expires_in_ms"].

(** [TokenResponse.from_dict].  The record is typed as the tuple is
    annotated ([Optional[str]], [Optional[int]]); a dict that holds a value
    of another type under one of the keys has no image here. *)
Definition TokenResponse_from_dict (d : pydict) : option TokenResponse :=
  let kw := dict_restrict TOKEN_KEYS d in
  let opt_str (k : string) : option (option string) :=
    match dict_get kw k with
    | None | Some PNone => Some None
    | Some (PStr s) => Some (Some s)
    | Some _ => None
    end in
  let opt_int (k : string) : option (option Z) :=
    match dict_get kw k with
    | None | Some PNone => Some None
    | Some (PInt n) => Some (Some n)
    | Some _ => None
    end in
  match opt_str "refresh_token", opt_str "access_token",
        opt_int "expires_in_ms" with
  | Some r, Some a, Some e =>
      Some {| tr_refresh_token := r; tr_access_token := a;
              tr_expires_in_ms := e |}
  | _, _, _ => None
  end.

(** *** EventMetadata *)

Record EventMetadata : Type := mkEventMetadata {
  room_id : pyval;
  sender : pyval;
  event_id : pyval;
  origin_server_ts : pyval;
  unsigned : pyval
}.

Definition EVENT_KEYS : list string :=
  ["room_id"; "sender"; "event_id"; "origin_server_ts"; "unsigned"].

(** [cls] called with the keywords [kw], for [EventMetadata]: [room_id] and [sender] are required,
    the others default to [None], [None] and [{}]. *)
Definition EventMetadata_new (kw : pydict) : Outcome EventMetadata :=
  match dict_get kw "room_id", dict_get kw "sender" with
  | Some r, Some s =>
      Ret {| room_id := r;
             sender := s;
             event_id := match dict_get kw "event_id" with
                         | Some v => v | None => PNone end;
             origin_server_ts := match dict_get kw "origin_server_ts" with
                                 | Some v => v | None => PNone end;
             unsigned := match dict_get kw "unsigned" with
                         | Some v => v | None => PDict [] end |}
  | _, _ => Raise TypeError
  end.

(** [dict['origin_server_ts'] / 1000] then [datetime.fromtimestamp]: of
    the values of [pyval], [int] and [bool] divide. *)
Definition ts_to_datetime (utcoffset : Z) (v : pyval) : Outcome pyval :=
  match v with
  | PInt n =>
      match fromtimestamp_ms utcoffset n with
      | Ret t => Ret (PDatetime t)
      | Raise e => Raise e
      end
  | PBool b =>
      match fromtimestamp_ms utcoffset (if b then 1 else 0) with
      | Ret t => Ret (PDatetime t)
      | Raise e => Raise e
      end
  | _ => Raise TypeError
  end.

(** *** RoomsResponse *)

Record RoomsResponse : Type := mkRoomsResponse {
  invite : pyval;
  join : pyval
}.

Definition ROOM_KEYS : list string := ["invite"; "join"].

(** [k in v] for the string [k]. *)
Definition py_contains (v : pyval) (k : string) : Outcome bool :=
  match v with
  | PDict d => Ret (dict_mem d k)
  | PList l => Ret (existsb (is_str k) l)
  | PStr s => Ret (substring_of k s)
  | _ => Raise TypeError
  end.

(** The loop [for missing in [k for k in KEYS if k not in dict]:
    dict[missing] = {}] on a [dict]. *)
Definition inject_missing (keys : list string) (d : pydict) : pydict :=
  fold_left (fun acc k => dict_set acc k (PDict []))
            (filter (fun k => negb (dict_mem d k)) keys) d.

(** [RoomsResponse.from_dict].  On a list or a string the membership tests
    succeed, then either an item assignment fails ([TypeError]) or, when
    nothing is missing, [.items()] does ([AttributeError]). *)
Definition RoomsResponse_from_dict (v : pyval) : Outcome RoomsResponse :=
  match v with
  | PDict d =>
      let d' := dict_restrict ROOM_KEYS (inject_missing ROOM_KEYS d) in
      match dict_get d' "invite", dict_get d' "join" with
      | Some i, Some j => Ret {| invite := i; join := j |}
      | _, _ => Raise TypeError
      end
  | PList l =>
      if forallb (fun k => existsb (is_str k) l) ROOM_KEYS
      then Raise AttributeError else Raise TypeError
  | PStr s =>
      if forallb (fun k => substring_of k s) ROOM_KEYS
      then Raise AttributeError else Raise TypeError
  | _ => Raise TypeError
  end.

(** ** The client: state, effects, monad *)

(** [str(n)] for an [int]. *)
Definition str_of_int (n : Z) : string := NilZero.string_of_int (Z.to_int n).

(** [f"Did not manage to make request after {n} retries"]. *)
Definition retries_message (n : Z) : string :=
  "Did not manage to make request after " ++ str_of_int n ++ " retries".

(** [Result[dict, str]] of the [result] package.  An [ErrMsg] is an error
    by the [return] that built it: [Err(errcode)] with whatever value the
    server sent, [Err(f"Unknown: {status_code=}: {result=}")], and
    [Err(retries_message n)].  The constructors tell the three statements
    apart, not the Python values: [ErrCode (PStr (retries_message n))] and
    [ErrRetries n] are the same [Err]. *)
Inductive ErrMsg : Type :=
| ErrCode (errcode : pyval)
| ErrUnknown (status_code : Z) (result : pyval)
| ErrRetries (n : Z).

Inductive Result : Type :=
| Ok (v : pyval)
| Err (e : ErrMsg).

(** What is printed or logged, by its parts. *)
Inductive Message : Type :=
| MsgUnauthorized (url : string) (error : pyval)
| MsgSkipNoListeners (evt_type : pyval)
| MsgSkipUnknown (wat : pyval)
| MsgSync (params : pyval)
| MsgSyncWat (wat : pyval)
| MsgErr (e : ErrMsg)
| MsgSyncing
| MsgEvtMeta (d : pydict)
| MsgUnknownScheme (url : string)
| MsgBadBaseUrl (url : string).

Inductive Effect : Type :=
| EHttp (method path : string) (payload : pyval)
        (headers : list (string * string))
| ESleep (ms : Z)       (* asyncio.sleep(ms / 1000), the quotient a float *)
| EWarning (m : Message)
| EInfo (m : Message)
| EPrint (m : Message)
| ECall (listener : string) (content : pyval) (metadata : EventMetadata).

(** An [httpx.Response]: [body = None] when [r.json()] raises. *)
Record Response : Type := mkResponse {
  status_code : Z;
  url : string;
  body : option pyval
}.

(** A listener is a callable; it returns or raises. *)
Record Listener : Type := mkListener {
  l_name : string;
  l_run : pyval -> EventMetadata -> option exn
}.

Definition registry := list (string * list Listener).

Record MatrixBot : Type := mkMatrixBot {
  user_id : string;
  access_token : option string;
  access_token_expire : Z;
  refresh_token : option string;
  listeners : registry
}.

Record State : Type := mkState {
  bot : MatrixBot;
  inbox : list Response;     (* what the next HTTP calls will receive *)
  utcoffset : Z;             (* local zone, microseconds east of UTC *)
  trace : list Effect        (* oldest first *)
}.

Definition M (A : Type) : Type := State -> Outcome A * State.

Definition ret {A} (a : A) : M A := fun s => (Ret a, s).
Definition raise {A} (e : exn) : M A := fun s => (Raise e, s).
Definition bind {A B} (m : M A) (k : A -> M B) : M B :=
  fun s => match m s with
           | (Ret a, s') => k a s'
           | (Raise e, s') => (Raise e, s')
           end.
Definition lift {A} (o : Outcome A) : M A := fun s => (o, s).

Declare Scope py_scope.
Delimit Scope py_scope with py.
Notation "x <- m ;; k" := (bind m (fun x => k))
  (at level 100, m at next level, right associativity) : py_scope.
Notation "m ;;; k" := (bind m (fun _ => k))
  (at level 100, right associativity) : py_scope.
Open Scope py_scope.

Definition emit (e : Effect) : M unit :=
  fun s => (Ret tt, {| bot := bot s; inbox := inbox s;
                       utcoffset := utcoffset s;
                       trace := trace s ++ [e] |}).

Definition get_bot : M MatrixBot := fun s => (Ret (bot s), s).

Definition set_listeners (r : registry) : M unit :=
  fun s => (Ret tt,
            {| bot := {| user_id := user_id (bot s);
                         access_token := access_token (bot s);
                         access_token_expire := access_token_expire (bot s);
                         refresh_token := refresh_token (bot s);
                         listeners := r |};
               inbox := inbox s; utcoffset := utcoffset s;
               trace := trace s |}).

(** ** MatrixBot: authorization header and token store *)

(** [get_auth]. *)
Definition get_auth (b : MatrixBot) : list (string * string) :=
  match access_token b with
  | Some t => if negb (t =? "")%string
              then [("Authorization", "Bearer " ++ t)] else []
  | None => []
  end.

Definition set_access_token (v : option string) (b : MatrixBot) : MatrixBot :=
  {| user_id := user_id b; access_token := v;
     access_token_expire := access_token_expire b;
     refresh_token := refresh_token b; listeners := listeners b |}.

Definition set_access_token_expire (d : Z) (b : MatrixBot) : MatrixBot :=
  {| user_id := user_id b; access_token := access_token b;
     access_token_expire := d;
     refresh_token := refresh_token b; listeners := listeners b |}.

Definition set_refresh_token (v : option string) (b : MatrixBot) : MatrixBot :=
  {| user_id := user_id b; access_token := access_token b;
     access_token_expire := access_token_expire b;
     refresh_token := v; listeners := listeners b |}.

(** [_save_tokens]; [now] is the clock reading of [get_expiry].  The bot
    is returned as the call leaves it, also when [get_expiry] raises (the
    access token is stored by then). *)
Definition _save_tokens (now : Z) (tokens : TokenResponse) (self : MatrixBot)
  : Outcome unit * MatrixBot :=
  let save_refresh (b : MatrixBot) :=
    if str_truthy (tr_refresh_token tokens)
    then set_refresh_token (tr_refresh_token tokens) b else b in
  if str_truthy (tr_access_token tokens) then
    let self1 := set_access_token (tr_access_token tokens) self in
    match get_expiry now tokens with
    | Ret (Some expires) =>
        (Ret tt, save_refresh (set_access_token_expire expires self1))
    | Ret None => (Ret tt, save_refresh self1)
    | Raise e => (Raise e, self1)
    end
  else (Ret tt, save_refresh self).

(** ** MatrixBot: the request executor *)

(** Max retries per request on "429: Too Many Requests". *)
Definition MAX_RETRIES : nat := 6.

(** [self.client.get/post(path, ..., headers=self.get_auth())]: the request
    is recorded, the next response of the inbox is received; with none left
    the transport raises. *)
Definition client_request (method path : string) (payload : pyval)
  : M Response :=
  fun s =>
    let s' := {| bot := bot s; inbox := tl (inbox s);
                 utcoffset := utcoffset s;
                 trace := trace s
                          ++ [EHttp method path payload (get_auth (bot s))] |} in
    match inbox s with
    | r :: _ => (Ret r, s')
    | [] => (Raise TransportError, s')
    end.

(** [r.json()]. *)
Definition response_json (r : Response) : M pyval :=
  match body r with
  | Some v => ret v
  | None => raise JSONDecodeError
  end.

(** [await asyncio.sleep(v / 1000)]: of the values of [pyval], [int] and
    [bool] divide, and the quotient has to be a float. *)
Definition sleep_ms (v : pyval) : M unit :=
  match v with
  | PInt n =>
      match int_truediv n 1000 with
      | Some _ => emit (ESleep n)
      | None => raise OverflowError
      end
  | PBool b => emit (ESleep (if b then 1 else 0))
  | _ => raise TypeError
  end.

(** [range(n)]. *)
Definition range (n : nat) : list Z := map Z.of_nat (seq 0 n).

(** The [for retry_cnt in idxs] loop of [process_body] and the statement
    after it; [last] is the value [retry_cnt] is bound to, if any. *)
Fixpoint process_body_from (func : M Response) (idxs : list Z)
         (last : option Z) : M Result :=
  match idxs with
  | [] =>
      match last with
      | Some retry_cnt => ret (Err (ErrRetries (retry_cnt + 1)))
      | None => raise UnboundLocalError
      end
  | retry_cnt :: idxs' =>
      r <- func ;;
      result <- response_json r ;;
      if status_code r =? 200 then ret (Ok result)
      else if status_code r =? 429 then
        (match result with
         | PDict d =>
             sleep_ms (match dict_get d "retry_after_ms" with
                       | Some v => v
                       | None => PInt (2 ^ retry_cnt)
                       end)
         | _ => raise AttributeError
         end) ;;;
        process_body_from func idxs' (Some retry_cnt)
      else
        match (status_code r =? 401) || (status_code r =? 403), result with
        | true, PDict d =>
            match dict_get d "errcode", dict_get d "error" with
            | Some errcode, Some error =>
                emit (EWarning (MsgUnauthorized (url r) error)) ;;;
                ret (Err (ErrCode errcode))
            | _, _ => ret (Err (ErrUnknown (status_code r) result))
            end
        | _, _ => ret (Err (ErrUnknown (status_code r) result))
        end
  end.

Definition process_body (func : M Response) : M Result :=
  process_body_from func (range MAX_RETRIES) None.

Definition _POST (path : string) (j : pyval) : M Result :=
  process_body (client_request "POST" path j).

Definition _GET (path : string) (params : pyval) : M Result :=
  process_body (client_request "GET" path params).

(** ** MatrixBot: listener registry *)

(** [self.listeners] is a [defaultdict(list)]. *)
Fixpoint registry_get (r : registry) (k : string) : option (list Listener) :=
  match r with
  | [] => None
  | (k', fs) :: r' => if (k' =? k)%string then Some fs else registry_get r' k
  end.

(** [self.listeners[k].append(f)]. *)
Fixpoint registry_append (r : registry) (k : string) (f : Listener)
  : registry :=
  match r with
  | [] => [(k, [f])]
  | (k', fs) :: r' =>
      if (k' =? k)%string then (k', (fs ++ [f])%list) :: r'
      else (k', fs) :: registry_append r' k f
  end.

(** Reading [self.listeners[k]] creates the missing key. *)
Definition registry_touch (r : registry) (k : string) : registry :=
  match registry_get r k with
  | Some _ => r
  | None => (r ++ [(k, [])])%list
  end.

Definition register (k : string) (func : Listener) (self : MatrixBot)
  : Listener * MatrixBot :=
  (func,
   {| user_id := user_id self; access_token := access_token self;
      access_token_expire := access_token_expire self;
      refresh_token := refresh_token self;
      listeners := registry_append (listeners self) k func |}).

Definition on_message := register "m.room.message".
Definition on_reaction := register "m.reaction".
Definition on_invite := register "???".

(** [evt_type in self.listeners]: lists and dicts do not hash. *)
Definition registry_contains (r : registry) (evt_type : pyval)
  : Outcome bool :=
  match evt_type with
  | PStr k => Ret (match registry_get r k with Some _ => true | None => false end)
  | PList _ | PDict _ => Raise TypeError
  | _ => Ret false
  end.

(** ** Decoding and dispatch *)

(** [EventMetadata.from_dict(dict)].  The conversion of [origin_server_ts]
    is stored back into the caller's dict, so the dict as the call leaves
    it is returned next to the tuple. *)
Definition EventMetadata_from_dict (dict : pydict)
  : M (EventMetadata * pydict) :=
  emit (EPrint (MsgEvtMeta dict)) ;;;
  dict' <- (match dict_get dict "origin_server_ts" with
            | Some v =>
                fun s =>
                  match ts_to_datetime (utcoffset s) v with
                  | Ret t => (Ret (dict_set dict "origin_server_ts" t), s)
                  | Raise e => (Raise e, s)
                  end
            | None => ret dict
            end) ;;
  md <- lift (EventMetadata_new (dict_restrict EVENT_KEYS dict')) ;;
  ret (md, dict').

(** [v.copy()]: dicts and lists have it. *)
Definition py_copy (v : pyval) : M pyval :=
  match v with
  | PDict d => ret (PDict d)
  | PList l => ret (PList l)
  | _ => raise AttributeError
  end.

(** The call [f(content, metadata=metadata)]. *)
Definition invoke (f : Listener) (content : pyval) (metadata : EventMetadata)
  : M unit :=
  emit (ECall (l_name f) content metadata) ;;;
  match l_run f content metadata with
  | None => ret tt
  | Some e => raise e
  end.

(** [for f in fs: f(evt_content.copy(),
    metadata=EventMetadata.from_dict(rest))], with the one dict [rest]
    passed to every call. *)
Fixpoint call_listeners (fs : list Listener) (evt_content : pyval)
         (rest : pydict) : M unit :=
  match fs with
  | [] => ret tt
  | f :: fs' =>
      c <- py_copy evt_content ;;
      mr <- EventMetadata_from_dict rest ;;
      invoke f c (fst mr) ;;;
      call_listeners fs' evt_content (snd mr)
  end.

Fixpoint for_each {A} (body : A -> M unit) (l : list A) : M unit :=
  match l with
  | [] => ret tt
  | x :: l' => body x ;;; for_each body l'
  end.

(** The body of the [for event in events] loop of [parse_room_join]. *)
Definition join_event (room_id : string) (event : pyval) : M unit :=
  match event with
  | PDict d =>
      match dict_get d "type", dict_get d "content" with
      | Some evt_type, Some evt_content =>
          let rest := dict_without ["type"; "content"] d in
          self <- get_bot ;;
          known <- lift (registry_contains (listeners self) evt_type) ;;
          if known : bool then
            let rest := dict_set rest "room_id" (PStr room_id) in
            call_listeners
              (match evt_type with
               | PStr k => match registry_get (listeners self) k with
                           | Some fs => fs | None => [] end
               | _ => []
               end) evt_content rest
          else emit (EInfo (MsgSkipNoListeners evt_type))
      | _, _ => emit (EWarning (MsgSkipUnknown event))
      end
  | _ => emit (EWarning (MsgSkipUnknown event))
  end.

(** The events of [{key: {"events": [*events]}}], if [room_dict] has that
    shape. *)
Definition events_under (key : string) (room_dict : pyval)
  : option (list pyval) :=
  match room_dict with
  | PDict d =>
      match dict_get d key with
      | Some (PDict t) =>
          match dict_get t "events" with
          | Some (PList events) => Some events
          | _ => None
          end
      | _ => None
      end
  | _ => None
  end.

Definition parse_room_join (room_id : string) (room_dict : pyval) : M unit :=
  match events_under "timeline" room_dict with
  | Some events => for_each (join_event room_id) events
  | None => ret tt
  end.

(** The body of the [for event in events] loop of [parse_room_invite]. *)
Definition invite_event (room_id : string) (event : pyval) : M unit :=
  match event with
  | PDict d =>
      match dict_get d "type", dict_get d "content" with
      | Some evt_type, Some evt_content =>
          if is_str "m.room.member" evt_type then
            let rest := dict_without ["type"; "content"] d in
            let rest := dict_set rest "room_id" (PStr room_id) in
            self <- get_bot ;;
            set_listeners (registry_touch (listeners self) "???") ;;;
            call_listeners
              (match registry_get (listeners self) "???" with
               | Some fs => fs | None => [] end) evt_content rest
          else ret tt
      | _, _ => ret tt
      end
  | _ => ret tt
  end.

Definition parse_room_invite (room_id : string) (room_dict : pyval)
  : M unit :=
  match events_under "invite_state" room_dict with
  | Some events => for_each (invite_event room_id) events
  | None => ret tt
  end.

(** ** The sync cycle and the loop *)

(** [v.items()]. *)
Definition py_items (v : pyval) : M pydict :=
  match v with
  | PDict d => ret d
  | _ => raise AttributeError
  end.

(** The first [case] body of [sync], up to its [return]. *)
Definition process_rooms (rooms_dict : pyval) : M unit :=
  rooms <- lift (RoomsResponse_from_dict rooms_dict) ;;
  joined <- py_items (join rooms) ;;
  for_each (fun kv => parse_room_join (fst kv) (snd kv)) joined ;;;
  invited <- py_items (invite rooms) ;;
  for_each (fun kv => parse_room_invite (fst kv) (snd kv)) invited.

(** [sync]; the result [None] is [PNone]. *)
Definition sync (params : pyval) : M pyval :=
  emit (EPrint (MsgSync params)) ;;;
  r <- _GET "client/v3/sync" params ;;
  match r with
  | Ok (PDict d) =>
      match dict_get d "next_batch", dict_get d "rooms" with
      | Some next_batch, Some rooms_dict =>
          process_rooms rooms_dict ;;; ret next_batch
      | Some next_batch, None => ret next_batch
      | None, _ => emit (EPrint (MsgSyncWat (PDict d))) ;;; ret PNone
      end
  | Ok wat => emit (EPrint (MsgSyncWat wat)) ;;; ret PNone
  | Err e => emit (EPrint (MsgErr e)) ;;; ret PNone
  end.

(** How an execution of the loop bounded by fuel ends. *)
Inductive LoopStatus : Type :=
| Returned        (* [run] returned to its caller *)
| StillSyncing.   (* the loop was about to start one more cycle *)

(** The [while (next_batch := await self.sync(...))] loop of [run], for at
    most [fuel] cycles. *)
Fixpoint run_loop (fuel : nat) (next_batch : pyval) : M LoopStatus :=
  match fuel with
  | O => ret StillSyncing
  | S fuel' =>
      nb <- sync (PDict [("since", next_batch); ("timeout", PInt 3000)]) ;;
      if truthy nb
      then emit (EPrint MsgSyncing) ;;; run_loop fuel' nb
      else ret Returned
  end.

Definition run (fuel : nat) (full_sync : bool) : M LoopStatus :=
  nb <- sync (PDict [("full_state", PBool full_sync);
                     ("timeout", PInt 5000)]) ;;
  if truthy nb then run_loop fuel nb else ret Returned.

(** ** Homeserver resolution *)

(** [httpx.URL] is not part of this repository: the resolver is written
    over the four operations it uses. *)
Section Resolver.

Variable URL : Type.
(** [httpx.URL(s)]; [None] when it raises [httpx.InvalidURL]. *)
Variable URL_new : string -> option URL.
(** [u.join(ref)], [u.scheme], [str(u)]. *)
Variable URL_join : URL -> string -> URL.
Variable URL_scheme : URL -> string.
Variable URL_str : URL -> string.

(** [httpx.get(u)]: no client, no authorization header. *)
Definition httpx_get (u : URL) : M Response :=
  fun s =>
    let s' := {| bot := bot s; inbox := tl (inbox s);
                 utcoffset := utcoffset s;
                 trace := trace s ++ [EHttp "GET" (URL_str u) PNone []] |} in
    match inbox s with
    | r :: _ => (Ret r, s')
    | [] => (Raise TransportError, s')
    end.

(** [httpx.URL(v)] for a decoded value: anything but a [str] is a
    [TypeError]. *)
Definition URL_of_value (v : pyval) : M URL :=
  match v with
  | PStr s => match URL_new s with
              | Some u => ret u
              | None => raise InvalidURL
              end
  | _ => raise TypeError
  end.

Definition _test_is_homeserver (homeserver : URL) : M bool :=
  if negb (URL_scheme homeserver =? "https")%string then
    emit (EWarning (MsgUnknownScheme (URL_str homeserver))) ;;;
    ret false
  else
    r <- httpx_get (URL_join homeserver "client/versions") ;;
    if status_code r =? 200
    then (j <- response_json r ;; lift (py_contains j "versions"))
    else ret false.

(** The [match r.json()] of [get_homeserver]: [Some u] when it returns
    [u], [None] when control falls through to the [raise]. *)
Definition from_well_known (j : pyval) : M (option URL) :=
  match j with
  | PDict d =>
      match dict_get d "m.homeserver" with
      | Some (PDict h) =>
          match dict_get h "base_url" with
          | Some base_url =>
              u <- URL_of_value base_url ;;
              let maybe_homeserver := URL_join u "/_matrix/" in
              ok <- _test_is_homeserver maybe_homeserver ;;
              if ok : bool then ret (Some maybe_homeserver)
              else emit (EWarning
                           (MsgBadBaseUrl (URL_str maybe_homeserver))) ;;;
                   ret None
          | None => ret None
          end
      | _ => ret None
      end
  | _ => ret None
  end.

Definition get_homeserver (server_name : string) : M URL :=
  maybe_homeserver <-
    URL_of_value (PStr ("https://" ++ server_name ++ "/_matrix/")) ;;
  ok <- _test_is_homeserver maybe_homeserver ;;
  if ok : bool then ret maybe_homeserver
  else
    wk <- URL_of_value
            (PStr ("https://" ++ server_name ++ "/.well-known/matrix/client")) ;;
    r <- httpx_get wk ;;
    found <- (if status_code r =? 200
              then (j <- response_json r ;; from_well_known j)
              else ret None) ;;
    match found with
    | Some u => ret u
    | None => raise (CouldNotFindHomeserver server_name)
    end.

End Resolver.

(** A small instance of the URL operations, [scheme://authority/path], to
    run the resolver on examples. *)
Module SimpleURL.

Record t : Type := mk { scheme : string; authority : string; path : string }.

Definition split_at (sep s : string) : option (string * string) :=
  match String.index 0 sep s with
  | Some i =>
      Some (String.substring 0 i s,
            String.substring (i + String.length sep)
                             (String.length s - i - String.length sep) s)
  | None => None
  end%nat.

Definition new (s : string) : option t :=
  match split_at "://" s with
  | Some (sch, rest) =>
      match split_at "/" rest with
      | Some (auth, p) =>
          Some {| scheme := sch; authority := auth; path := "/" ++ p |}
      | None => Some {| scheme := sch; authority := rest; path := "/" |}
      end
  | None => None
  end.

(** The part of a path up to its last slash. *)
Fixpoint dirname (p : string) : string :=
  match p with
  | EmptyString => EmptyString
  | String c p' =>
      if substring_of "/" p then String c (dirname p') else EmptyString
  end.

Definition join (u : t) (ref : string) : t :=
  {| scheme := scheme u; authority := authority u;
     path := if String.prefix "/" ref then ref
             else dirname (path u) ++ ref |}.

Definition str (u : t) : string :=
  scheme u ++ "://" ++ authority u ++ path u.

End SimpleURL.

(** ** MatrixBot: the remaining methods *)

(** [is_not_from_this_bot]; the assertion on [self.user_id] cannot fail for
    a bot whose [user_id] is a string. *)
Definition is_not_from_this_bot (self : MatrixBot) (metadata : EventMetadata)
  : bool :=
  negb (is_str (user_id self) (sender metadata)).

Definition set_bot (b : MatrixBot) : M unit :=
  fun s => (Ret tt, {| bot := b; inbox := inbox s; utcoffset := utcoffset s;
                       trace := trace s |}).

(** [login_token]; [now] is the clock reading of [get_expiry].  On a
    non-dict result [TokenResponse.from_dict] fails at [dict.items()].
    [None] stands for a result that holds, under one of the token keys, a
    value outside the annotated types (see [TokenResponse_from_dict]). *)
Definition login_token (now : Z) (refresh_token : string) : M (option bool) :=
  r <- _POST "client/v3/refresh"
             (PDict [("refresh_token", PStr refresh_token)]) ;;
  match r with
  | Ok (PDict d) =>
      match TokenResponse_from_dict d with
      | Some tokens =>
          self <- get_bot ;;
          set_bot (snd (_save_tokens now tokens self)) ;;;
          lift (fst (_save_tokens now tokens self)) ;;;
          ret (Some true)
      | None => ret None
      end
  | Ok _ => raise AttributeError
  | Err _ => ret (Some false)
  end.

(** How a constructor call ends when its assertions are taken into
    account: the [assert] fails with its message, or the body runs. *)
Inductive Asserted (A : Type) : Type :=
| AssertionError (msg : string)
| Passed (a : A).
Arguments AssertionError {A} msg.
Arguments Passed {A} a.

(** [s.split(":", 1)] on a string that contains a colon: what stands
    before the first colon and what stands after it. *)
Definition split_first_colon (s : string) : option (string * string) :=
  SimpleURL.split_at ":" s.

(** [timedelta(weeks=9999)]. *)
Definition WEEKS_9999 : Z := 9999 * 7 * US_PER_DAY.

Section Constructor.

Variable URL : Type.
Variable URL_new : string -> option URL.
Variable URL_join : URL -> string -> URL.
Variable URL_scheme : URL -> string.
Variable URL_str : URL -> string.

(** [MatrixBot.__init__]; [now] is what [datetime.now()] reads.  The
    result is the bot and the [base_url] handed to [httpx.AsyncClient]. *)
Definition MatrixBot_init (now : Z) (bot_user : string)
  : M (Asserted (MatrixBot * URL)) :=
  if negb (String.prefix "@" bot_user) then
    ret (AssertionError
           ("Invalid userid: " ++ bot_user ++ " should start with @"))
  else
    match split_first_colon bot_user with
    | None =>
        ret (AssertionError
               ("Invalid userid: " ++ bot_user ++ " should contain a :"))
    | Some (_, server_name) =>
        base_url <- get_homeserver URL URL_new URL_join URL_scheme URL_str
                                   server_name ;;
        expire <- lift (datetime_add now WEEKS_9999) ;;
        ret (Passed ({| user_id := bot_user;
                        access_token := None;
                        access_token_expire := expire;
                        refresh_token := None;
                        listeners := [] |}, base_url))
    end.

End Constructor.

(** * Vocabulary of the properties *)

(** ** Retry on 429 *)

(** A 429 response as the retry branch needs it: the body decodes to an
    object whose [retry_after_ms], when present, is an integer that
    divided by 1000 is a float, that is, of magnitude below
    [1000 * (2^1024 - 2^970)]. *)
Inductive rate_limited : Response -> Prop :=
| RL_default (u : string) (d : pydict) :
    dict_get d "retry_after_ms" = None ->
    rate_limited (mkResponse 429 u (Some (PDict d)))
| RL_hint (u : string) (d : pydict) (n : Z) :
    dict_get d "retry_after_ms" = Some (PInt n) ->
    Z.abs n < 1000 * FLOAT_OVERFLOW ->
    rate_limited (mkResponse 429 u (Some (PDict d))).

(** The delay in milliseconds: the response's [retry_after_ms] when that
    key is present, else [2^attempt]. *)
Definition backoff_ms (attempt : Z) (r : Response) : Z :=
  match body r with
  | Some (PDict d) =>
      match dict_get d "retry_after_ms" with
      | Some (PInt n) => n
      | _ => 2 ^ attempt
      end
  | _ => 2 ^ attempt
  end.

(** What the executor does while it receives [rs], from attempt number
    [attempt] on: a request, then the sleep, for each. *)
Fixpoint retry_trace (req : Effect) (attempt : Z) (rs : list Response)
  : list Effect :=
  match rs with
  | [] => []
  | r :: rs' =>
      req :: ESleep (backoff_ms attempt r) :: retry_trace req (attempt + 1) rs'
  end.

(** The value [retry_cnt] is bound to after [n] more iterations that started
    at index [a]. *)
Definition last_index (a n : nat) (last : option Z) : option Z :=
  match n with
  | O => last
  | S n' => Some (Z.of_nat (a + n'))
  end.

Definition advance (s : State) (inbox' : list Response) (es : list Effect)
  : State :=
  {| bot := bot s; inbox := inbox'; utcoffset := utcoffset s;
     trace := trace s ++ es |}.

(** The number of HTTP requests in a trace. *)
Definition attempts (es : list Effect) : nat :=
  List.length (filter (fun e => match e with EHttp _ _ _ _ => true
                                        | _ => false end) es).

(** ** Example data *)

(** A first state for examples: a bot without tokens or listeners. *)
Definition fresh_bot : MatrixBot :=
  {| user_id := "@bot:h.example"; access_token := None;
     access_token_expire := 0; refresh_token := None; listeners := [] |}.

Definition start (b : MatrixBot) (responses : list Response) : State :=
  {| bot := b; inbox := responses; utcoffset := 0; trace := [] |}.

Definition sync_url : string := "https://h.example/_matrix/client/v3/sync".

(** A 429 answered by a proxy in front of the homeserver: an HTML page. *)
Definition proxy_429 : Response := mkResponse 429 sync_url None.

Definition limit_429 (d : pydict) : Response :=
  mkResponse 429 sync_url (Some (PDict d)).

Definition ok_200 (v : pyval) : Response := mkResponse 200 sync_url (Some v).

Definition batch (b : string) : pyval := PDict [("next_batch", PStr b)].


(** ** Dispatch *)

(** The listener invocations of a trace, in order. *)
Definition calls (es : list Effect) : list (string * pyval * EventMetadata) :=
  flat_map (fun e => match e with
                     | ECall name content metadata => [(name, content, metadata)]
                     | _ => []
                     end) es.

Definition hi_content : pyval :=
  PDict [("body", PStr "hi"); ("msgtype", PStr "m.text")].

(** The envelope [{"type": "m.room.message", "content": {"body": "hi",
    "msgtype": "m.text"}, "event_id": "$1", "sender": "@a:x",
    "origin_server_ts": 1700000000000}]. *)
Definition hi_envelope : pyval :=
  PDict [("type", PStr "m.room.message");
         ("content", hi_content);
         ("event_id", PStr "$1");
         ("sender", PStr "@a:x");
         ("origin_server_ts", PInt 1700000000000)].

(** A joined room with the given timeline. *)
Definition timeline_of (events : list pyval) : pyval :=
  PDict [("timeline", PDict [("events", PList events)])].

(** A listener that returns normally, whatever it is given. *)
Definition quiet (name : string) : Listener :=
  {| l_name := name; l_run := fun _ _ => None |}.

(** [hi_envelope] without its [sender]. *)
Definition no_sender_envelope : pyval :=
  PDict [("type", PStr "m.room.message");
         ("content", hi_content);
         ("event_id", PStr "$0");
         ("origin_server_ts", PInt 1700000000000)].

(** A sync body with two joined rooms: the first timeline starts with the
    envelope that lacks [sender]. *)
Definition two_rooms_body : pyval :=
  PDict [("next_batch", PStr "b1");
         ("rooms",
          PDict [("join",
                  PDict [("!r1:h.example",
                          timeline_of [no_sender_envelope; hi_envelope]);
                         ("!r2:h.example", timeline_of [hi_envelope])])])].

Definition with_listeners (r : registry) : MatrixBot :=
  {| user_id := "@bot:h.example"; access_token := None;
     access_token_expire := 0; refresh_token := None; listeners := r |}.

(** ** The sync loop *)

(** The parameters of every cycle after the first. *)
Definition sync_params (cursor : pyval) : pyval :=
  PDict [("since", cursor); ("timeout", PInt 3000)].

(** The dispatch a cycle performs on a successful body [d]. *)
Definition dispatch_rooms (d : pydict) : M unit :=
  match dict_get d "rooms" with
  | Some rooms_dict => process_rooms rooms_dict
  | None => ret tt
  end.

(** [print(...)] and nothing else. *)
Definition printed (s : State) (m : Message) : State :=
  advance s (inbox s) [EPrint m].

(** The trace of successive cycles that each receive at once a 200 with
    body [{"next_batch": b}], for the [b] of [bs] in turn, starting from
    [cursor]. *)
Fixpoint chain_trace (self : MatrixBot) (cursor : pyval) (bs : list string)
  : list Effect :=
  match bs with
  | [] => []
  | b :: bs' =>
      EPrint (MsgSync (sync_params cursor))
      :: EHttp "GET" "client/v3/sync" (sync_params cursor) (get_auth self)
      :: EPrint MsgSyncing
      :: chain_trace self (PStr b) bs'
  end.

(** A body that is an object without [next_batch]. *)
Definition no_cursor_body : pyval := PDict [("rooms", PDict [])].

(** ** Resolution *)

Definition not_found_404 (u : string) : Response := mkResponse 404 u None.

(** A 200 whose body is an HTML page. *)
Definition html_200 (u : string) : Response := mkResponse 200 u None.

Definition well_known_doc (base_url : pyval) : pyval :=
  PDict [("m.homeserver", PDict [("base_url", base_url)])].

Definition versions_200 (u : string) : Response :=
  mkResponse 200 u (Some (PDict [("versions", PList [PStr "v1.11"])])).

Definition simple_resolve : string -> M SimpleURL.t :=
  get_homeserver SimpleURL.t SimpleURL.new SimpleURL.join
                 SimpleURL.scheme SimpleURL.str.

(** ** Budget of the retry loop *)

(** What a run [r] of the retry loop over the indices [idxs], started in
    [s], has kept: bot and zone untouched, the trace extended by [es], the
    responses [used] taken from the front of the inbox, one at most per
    request, one request at most per index; the loop variable is unbound
    only if there was no index; the retries-exhausted error counts every
    index. *)
Definition within_budget (idxs : list Z) (last : option Z) (s : State)
           (r : Outcome Result * State) : Prop :=
  bot (snd r) = bot s
  /\ utcoffset (snd r) = utcoffset s
  /\ exists es used,
      trace (snd r) = (trace s ++ es)%list
      /\ inbox s = (used ++ inbox (snd r))%list
      /\ (attempts es <= List.length idxs)%nat
      /\ (List.length used <= attempts es)%nat
      /\ (fst r = Raise UnboundLocalError -> idxs = [] /\ last = None)
      /\ (forall n, fst r = Ret (Err (ErrRetries n)) ->
                    attempts es = List.length idxs
                    /\ Some (n - 1) = List.last (map Some idxs) last).

(** The subject [(status, body)] matches
    [case 401 | 403, {"errcode": errcode, "error": error}]. *)
Definition unauthorized_shape (status : Z) (j : pyval) : bool :=
  ((status =? 401) || (status =? 403))
  && match j with
     | PDict d => dict_mem d "errcode" && dict_mem d "error"
     | _ => false
     end.

(** The value is no number: [None], a string, a list or a dict.  None of
    them divides by 1000. *)
Definition not_a_number (x : pyval) : bool :=
  match x with
  | PNone | PStr _ | PList _ | PDict _ => true
  | _ => false
  end.

(** The error [e] is, as a Python value, the exhaustion message for [n]:
    built as such after the loop, or an [errcode] received from the server
    that is this very string. *)
Definition is_retries_message (e : ErrMsg) (n : Z) : Prop :=
  e = ErrRetries n \/ e = ErrCode (PStr (retries_message n)).

(** The response is a 401 or 403 whose body is an object with the
    [errcode] [c]. *)
Definition carries_errcode (r : Response) (c : pyval) : Prop :=
  (status_code r = 401 \/ status_code r = 403)
  /\ exists d, body r = Some (PDict d) /\ dict_get d "errcode" = Some c.

Definition is_dict (j : pyval) : bool :=
  match j with
  | PDict _ => true
  | _ => false
  end.

(** The lifetime of a token result leaves the expiry a [datetime]: there
    is none, it is 0, or the clock reading plus the lifetime lies within
    the years 1 to 9999. *)
Definition lifetime_fits (now : Z) (tokens : TokenResponse) : Prop :=
  match tr_expires_in_ms tokens with
  | None => True
  | Some ms => ms = 0 \/ 0 <= now + ms * 1000 < DATETIME_END
  end.

(** ** Envelopes *)

(** The value has a [copy] method ([dict] and [list] do). *)
Definition copyable (c : pyval) : bool :=
  match c with
  | PDict _ | PList _ => true
  | _ => false
  end.

Definition or_default (o : option pyval) (v : pyval) : pyval :=
  match o with
  | Some x => x
  | None => v
  end.

(** The metadata the dispatcher builds for an envelope [d] of the room
    [rid] whose [origin_server_ts] converts to [ts]. *)
Definition metadata_of (rid : string) (d : pydict) (ts : pyval)
  : EventMetadata :=
  {| room_id := PStr rid;
     sender := or_default (dict_get d "sender") PNone;
     event_id := or_default (dict_get d "event_id") PNone;
     origin_server_ts := ts;
     unsigned := or_default (dict_get d "unsigned") (PDict []) |}.

(** [ts] is what [EventMetadata.from_dict] makes of the [origin_server_ts]
    entry [o] of an envelope in the zone [tz]: [None] when there is none,
    else its datetime. *)
Definition converts_to (tz : Z) (o : option pyval) (ts : pyval) : Prop :=
  match o with
  | None => ts = PNone
  | Some v => ts_to_datetime tz v = Ret ts
  end.

(** The dict [rest] the dispatcher hands to [EventMetadata.from_dict] for
    the envelope [d] of the room [rid]. *)
Definition rest_of (rid : string) (d : pydict) : pydict :=
  dict_set (dict_without ["type"; "content"] d) "room_id" (PStr rid).

(** No listener can be found for the type [t] of an envelope: [t] hashes
    and is not a key of the registry. *)
Definition unheard (r : registry) (t : pyval) : Prop :=
  match t with
  | PStr k => registry_get r k = None
  | PList _ | PDict _ => False
  | _ => True
  end.

(** The envelope is skipped by [parse_room_join], and this is the record
    it leaves: a warning for what is not an object with [type] and
    [content], an info line for a type nobody listens to. *)
Inductive skipped (r : registry) : pyval -> Effect -> Prop :=
| Skipped_no_object (event : pyval) :
    is_dict event = false ->
    skipped r event (EWarning (MsgSkipUnknown event))
| Skipped_no_type (d : pydict) :
    dict_get d "type" = None ->
    skipped r (PDict d) (EWarning (MsgSkipUnknown (PDict d)))
| Skipped_no_content (d : pydict) :
    dict_get d "content" = None ->
    skipped r (PDict d) (EWarning (MsgSkipUnknown (PDict d)))
| Skipped_unheard (d : pydict) (t c : pyval) :
    dict_get d "type" = Some t ->
    dict_get d "content" = Some c ->
    unheard r t ->
    skipped r (PDict d) (EInfo (MsgSkipNoListeners t)).

(** The joined rooms hold nothing that reaches a listener: a room has no
    timeline of events, or a timeline of envelopes that are all skipped.
    [log] is what skipping them records, room after room. *)
Inductive rooms_skipped (r : registry) : pydict -> list Effect -> Prop :=
| RS_nil : rooms_skipped r [] []
| RS_no_timeline (rid : string) (room : pyval) (rest : pydict)
                 (log : list Effect) :
    events_under "timeline" room = None ->
    rooms_skipped r rest log ->
    rooms_skipped r ((rid, room) :: rest) log
| RS_timeline (rid : string) (room : pyval) (events : list pyval)
              (es : list Effect) (rest : pydict) (log : list Effect) :
    events_under "timeline" room = Some events ->
    Forall2 (skipped r) events es ->
    rooms_skipped r rest log ->
    rooms_skipped r ((rid, room) :: rest) (es ++ log)%list.

(** The [rooms] object of a sync body holds the joined rooms [joined] and
    no invited room. *)
Definition joined_only (rooms : pyval) (joined : pydict) : Prop :=
  exists rd,
    rooms = PDict rd
    /\ or_default (dict_get rd "join") (PDict []) = PDict joined
    /\ or_default (dict_get rd "invite") (PDict []) = PDict [].

(** A sync body with one joined room whose timeline holds a string and a
    typing notice. *)
Definition skipped_only_body : pyval :=
  PDict [("next_batch", PStr "b2");
         ("rooms",
          PDict [("join",
                  PDict [("!r1:h.example",
                          timeline_of
                            [PStr "junk";
                             PDict [("type", PStr "m.typing");
                                    ("content", PDict [])]])])])].

(** ** What dispatch may touch *)

(** The effect is neither a request nor a sleep. *)
Definition local_effect (e : Effect) : bool :=
  match e with
  | EHttp _ _ _ _ | ESleep _ => false
  | _ => true
  end.

(** From [s] to [s'] only dispatch happened: no response was taken, the
    zone, the tokens and the user id are the same, the registry is the
    same under every key but the invite key ["???"], and the trace grew by
    effects that are neither requests nor sleeps. *)
Definition dispatch_only (s s' : State) : Prop :=
  inbox s' = inbox s
  /\ utcoffset s' = utcoffset s
  /\ access_token (bot s') = access_token (bot s)
  /\ access_token_expire (bot s') = access_token_expire (bot s)
  /\ refresh_token (bot s') = refresh_token (bot s)
  /\ user_id (bot s') = user_id (bot s)
  /\ (forall k, k <> "???" ->
                registry_get (listeners (bot s')) k
                = registry_get (listeners (bot s)) k)
  /\ exists es, trace s' = (trace s ++ es)%list
                /\ forallb local_effect es = true.

Definition frames {A} (m : M A) : Prop :=
  forall s, dispatch_only s (snd (m s)).

(** An invited room with the given stripped state events. *)
Definition invite_of (events : list pyval) : pyval :=
  PDict [("invite_state", PDict [("events", PList events)])].

(** ** Discovery *)

(** The value bound by [case {"m.homeserver": {"base_url": base_url}}]. *)
Definition discovery_base_url (j : pyval) : option pyval :=
  match j with
  | PDict d =>
      match dict_get d "m.homeserver" with
      | Some (PDict h) => dict_get h "base_url"
      | _ => None
      end
  | _ => None
  end.

(** The computation sends at most [n] requests, takes its responses from
    the front of the inbox, at most one per request, and leaves the bot
    alone. *)
Definition sends_at_most {A} (n : nat) (m : M A) : Prop :=
  forall s,
    bot (snd (m s)) = bot s
    /\ exists es used,
        trace (snd (m s)) = (trace s ++ es)%list
        /\ inbox s = (used ++ inbox (snd (m s)))%list
        /\ (attempts es <= n)%nat
        /\ (List.length used <= attempts es)%nat.

(** * Properties *)

(** ** The request executor *)

Section Executor.

Variables (method path : string) (payload : pyval).

Let func : M Response := client_request method path payload.
Let req (s : State) : Effect := EHttp method path payload (get_auth (bot s)).

(** Within the bound, [n / 1000] is a float and the sleep is made. *)
Lemma sleep_ms_in_range (n : Z) (s : State) :
  Z.abs n < 1000 * FLOAT_OVERFLOW ->
  sleep_ms (PInt n) s = emit (ESleep n) s.
Proof.
  intros H. unfold sleep_ms, int_truediv.
  destruct (Z.leb_spec (FLOAT_OVERFLOW * 1000) (Z.abs n)) as [Hle | _];
    [| reflexivity].
  exfalso. rewrite Z.mul_comm in Hle. apply (Z.lt_irrefl (Z.abs n)).
  eapply Z.lt_le_trans; eassumption.
Qed.

(** The default delays of the loop are far inside it. *)
Lemma backoff_default_in_range (i : Z) :
  0 <= i <= 1024 -> Z.abs (2 ^ i) < 1000 * FLOAT_OVERFLOW.
Proof.
  intros [Hlo Hhi].
  rewrite Z.abs_eq by (apply Z.pow_nonneg; lia).
  apply Z.le_lt_trans with (m := 2 ^ 1024).
  - apply Z.pow_le_mono_r; lia.
  - apply Z.ltb_lt. vm_compute. reflexivity.
Qed.

Lemma client_request_cons (s : State) (r : Response) (tail : list Response) :
  inbox s = r :: tail ->
  func s = (Ret r, advance s tail [req s]).
Proof.
  intros H. unfold func, client_request, advance, req. rewrite H. reflexivity.
Qed.

Lemma rate_limited_step (r : Response) (idxs : list Z) (i : Z)
      (last : option Z) (s : State) (tail : list Response) :
  rate_limited r ->
  0 <= i <= 1024 ->
  inbox s = r :: tail ->
  process_body_from func (i :: idxs) last s =
  process_body_from func idxs (Some i)
    (advance s tail [req s; ESleep (backoff_ms i r)]).
Proof.
  intros Hr Hi Hin. cbn [process_body_from]. unfold bind at 1.
  rewrite (client_request_cons _ _ _ Hin).
  destruct Hr as [u d Hd | u d n Hd Hn];
    cbn [response_json body status_code Z.eqb Pos.eqb];
    unfold bind at 1, ret at 1; cbn [Z.eqb Pos.eqb]; unfold bind at 1;
    rewrite Hd;
    [rewrite (sleep_ms_in_range _ _ (backoff_default_in_range i Hi))
    | rewrite (sleep_ms_in_range _ _ Hn)];
    unfold emit, backoff_ms; cbn [body]; rewrite Hd;
    unfold advance; cbn [bot inbox utcoffset trace];
    rewrite <- app_assoc; reflexivity.
Qed.

(** While the responses are rate-limited, each consumes one index of the
    loop, one response, and leaves a request and a sleep in the trace. *)
Lemma retry_prefix (rs : list Response) :
  forall (a k : nat) (last : option Z) (s : State) (tail : list Response),
    Forall rate_limited rs ->
    (a + List.length rs <= 1024)%nat ->
    inbox s = (rs ++ tail)%list ->
    process_body_from func (map Z.of_nat (seq a (List.length rs + k))) last s =
    process_body_from func (map Z.of_nat (seq (a + List.length rs) k))
      (last_index a (List.length rs) last)
      (advance s tail (retry_trace (req s) (Z.of_nat a) rs)).
Proof.
  induction rs as [| r rs IH]; intros a k last s tail Hrs Hbound Hin.
  - cbn. rewrite Nat.add_0_r. unfold advance. rewrite app_nil_r.
    cbn in Hin. rewrite <- Hin. destruct s; reflexivity.
  - inversion Hrs as [| ? ? Hr Hrs']; subst.
    cbn [List.length Nat.add seq map] in *.
    assert (Hi : 0 <= Z.of_nat a <= 1024) by lia.
    rewrite (rate_limited_step r _ (Z.of_nat a) _ s (rs ++ tail)%list Hr
               Hi Hin).
    rewrite (IH (S a) k _ _ tail Hrs' ltac:(lia)) by reflexivity.
    replace (S a + List.length rs)%nat with (a + S (List.length rs))%nat by lia.
    f_equal.
    + destruct rs; cbn; [f_equal; lia | f_equal; f_equal; lia].
    + unfold advance, req; cbn [bot inbox utcoffset trace].
      rewrite <- app_assoc. cbn [app retry_trace].
      rewrite Nat2Z.inj_succ. reflexivity.
Qed.

End Executor.

Lemma attempts_retry_trace (m p : string) (v : pyval)
      (h : list (string * string)) (rs : list Response) :
  forall a, attempts (retry_trace (EHttp m p v h) a rs) = List.length rs.
Proof.
  induction rs as [| r rs IH]; intros a; [reflexivity |].
  unfold attempts in *. cbn. f_equal. apply IH.
Qed.

Lemma advance_advance (s : State) (i1 i2 : list Response)
      (e1 e2 : list Effect) :
  advance (advance s i1 e1) i2 e2 = advance s i2 (e1 ++ e2).
Proof.
  unfold advance; cbn. rewrite app_assoc. reflexivity.
Qed.

(** A first response with status 200 and a decodable body ends the
    executor at once. *)
Lemma process_body_first_200 (method path : string) (payload : pyval)
      (r : Response) (v : pyval) (rest : list Response) (s : State) :
  inbox s = r :: rest ->
  status_code r = 200 ->
  body r = Some v ->
  process_body (client_request method path payload) s
  = (Ret (Ok v),
     advance s rest [EHttp method path payload (get_auth (bot s))]).
Proof.
  intros Hin H200 Hbody.
  unfold process_body, range, MAX_RETRIES.
  cbn [seq map process_body_from]. unfold bind at 1.
  rewrite (client_request_cons method path payload _ r rest Hin).
  unfold response_json. rewrite Hbody. unfold bind at 1, ret at 1.
  rewrite H200. reflexivity.
Qed.

(** X29: for every sequence of at most [MAX_RETRIES - 1] HTTP 429
    responses whose bodies decode to JSON objects in which
    [retry_after_ms], when present, is an integer of magnitude below
    [1000 * (2^1024 - 2^970)], followed by an HTTP 200 response whose body
    decodes, [process_body] returns [Ok] with the decoded 200 body; it has
    made one request per response and, after the request of attempt [i]
    (from 0) and before the next one, slept the [retry_after_ms] of that
    response when the key is present, else [2^i] milliseconds. *)
Theorem process_body_retries_then_ok
        (method path : string) (payload : pyval) (rs : list Response)
        (r200 : Response) (v : pyval) (rest : list Response) (s : State) :
  (List.length rs <= MAX_RETRIES - 1)%nat ->
  Forall rate_limited rs ->
  status_code r200 = 200 ->
  body r200 = Some v ->
  inbox s = (rs ++ r200 :: rest)%list ->
  let req := EHttp method path payload (get_auth (bot s)) in
  process_body (client_request method path payload) s =
  (Ret (Ok v), advance s rest (retry_trace req 0 rs ++ [req])).
Proof.
  intros Hlen Hrs H200 Hbody Hin req.
  unfold process_body, range.
  replace MAX_RETRIES with (List.length rs + S (MAX_RETRIES - 1 - List.length rs))%nat
    by (unfold MAX_RETRIES in *; lia).
  rewrite (retry_prefix method path payload rs 0 _ None s (r200 :: rest) Hrs
             ltac:(unfold MAX_RETRIES in *; lia) Hin).
  cbn [seq map process_body_from]. unfold bind at 1.
  rewrite (client_request_cons method path payload _ r200 rest) by reflexivity.
  unfold response_json. rewrite Hbody. unfold bind at 1, ret at 1.
  rewrite H200. cbn [Z.eqb Pos.eqb]. unfold ret.
  rewrite advance_advance. reflexivity.
Qed.

(** X30: for [MAX_RETRIES] (= 6) consecutive HTTP 429 responses whose
    bodies decode to JSON objects in which [retry_after_ms], when present,
    is an integer of magnitude below [1000 * (2^1024 - 2^970)],
    [process_body] returns the retries-exhausted error, has made exactly
    [MAX_RETRIES] requests (the six responses are consumed, what follows
    them is left), and the count reported in the error is
    [MAX_RETRIES]. *)
Theorem process_body_retries_exhausted
        (method path : string) (payload : pyval) (rs rest : list Response)
        (s : State) :
  List.length rs = MAX_RETRIES ->
  Forall rate_limited rs ->
  inbox s = (rs ++ rest)%list ->
  let req := EHttp method path payload (get_auth (bot s)) in
  process_body (client_request method path payload) s =
  (Ret (Err (ErrRetries 6)), advance s rest (retry_trace req 0 rs))
  /\ attempts (retry_trace req 0 rs) = MAX_RETRIES
  /\ Z.of_nat MAX_RETRIES = 6.
Proof.
  intros Hlen Hrs Hin req.
  split; [| split; [| reflexivity]].
  - unfold process_body, range. rewrite <- Hlen.
    replace (List.length rs) with (List.length rs + 0)%nat at 1 by lia.
    rewrite (retry_prefix method path payload rs 0 0 None s rest Hrs
               ltac:(unfold MAX_RETRIES in *; lia) Hin).
    cbn [seq map process_body_from].
    destruct rs as [| r rs]; [discriminate Hlen |].
    cbn [last_index List.length] in *. unfold ret. repeat f_equal.
    unfold MAX_RETRIES in Hlen. lia.
  - unfold req. rewrite attempts_retry_trace. exact Hlen.
Qed.

(** C10: [process_body] decodes the body before it looks at the status
    code, on every attempt: whatever the status of a response whose body
    is not valid JSON (200, 429, 401, 403 or any other), if it arrives at
    any of the [MAX_RETRIES] attempts, [process_body] raises and returns
    neither [Ok] nor [Err]. *)
Theorem process_body_raises_on_undecodable_body
        (method path : string) (payload : pyval) (rs : list Response)
        (r : Response) (rest : list Response) (s : State) :
  (List.length rs < MAX_RETRIES)%nat ->
  Forall rate_limited rs ->
  body r = None ->
  inbox s = (rs ++ r :: rest)%list ->
  let req := EHttp method path payload (get_auth (bot s)) in
  process_body (client_request method path payload) s =
  (Raise JSONDecodeError, advance s rest (retry_trace req 0 rs ++ [req])).
Proof.
  intros Hlen Hrs Hbody Hin req.
  unfold process_body, range.
  replace MAX_RETRIES with (List.length rs + S (MAX_RETRIES - 1 - List.length rs))%nat
    by (unfold MAX_RETRIES in *; lia).
  rewrite (retry_prefix method path payload rs 0 _ None s (r :: rest) Hrs
             ltac:(unfold MAX_RETRIES in *; lia) Hin).
  cbn [seq map process_body_from]. unfold bind at 1.
  rewrite (client_request_cons method path payload _ r rest) by reflexivity.
  unfold response_json. rewrite Hbody. unfold bind, raise.
  rewrite advance_advance. reflexivity.
Qed.

(** *** Concrete runs of the executor *)

Ltac solve_rate_limited :=
  unfold limit_429; cbn [repeat];
  repeat first [ apply Forall_nil
               | apply Forall_cons
               | solve [eapply RL_hint; [reflexivity | vm_compute; reflexivity]]
               | solve [eapply RL_default; reflexivity] ].

Lemma process_body_retries_then_ok_witness :
  process_body (client_request "GET" "client/v3/sync" (PDict []))
    (start fresh_bot
       [limit_429 [("errcode", PStr "M_LIMIT_EXCEEDED");
                   ("retry_after_ms", PInt 250)];
        limit_429 [("errcode", PStr "M_LIMIT_EXCEEDED")];
        ok_200 (batch "b1")])
  = (Ret (Ok (batch "b1")),
     {| bot := fresh_bot; inbox := []; utcoffset := 0;
        trace := [EHttp "GET" "client/v3/sync" (PDict []) [];
                  ESleep 250;
                  EHttp "GET" "client/v3/sync" (PDict []) [];
                  ESleep 2;
                  EHttp "GET" "client/v3/sync" (PDict []) []] |}).
Proof.
  apply (process_body_retries_then_ok
           "GET" "client/v3/sync" (PDict [])
           [limit_429 [("errcode", PStr "M_LIMIT_EXCEEDED");
                       ("retry_after_ms", PInt 250)];
            limit_429 [("errcode", PStr "M_LIMIT_EXCEEDED")]]
           (ok_200 (batch "b1")) (batch "b1") []).
  - unfold MAX_RETRIES; cbn; lia.
  - solve_rate_limited.
  - reflexivity.
  - reflexivity.
  - reflexivity.
Defined.

(** C1 (the code departs from it, and from the docstring of
    [process_body]: a 429 is re-called after some delay, the result is
    [Ok] or [Err]): one 429 whose body is not JSON, followed by a 200,
    makes [process_body] raise at the first attempt.  It has sent one
    request, has not slept, and the 200 is never requested. *)
Lemma process_body_proxy_429_then_200_raises :
  status_code proxy_429 = 429
  /\ status_code (ok_200 (batch "b1")) = 200
  /\ (List.length [proxy_429] <= MAX_RETRIES - 1)%nat
  /\ process_body (client_request "GET" "client/v3/sync" (PDict []))
       (start fresh_bot [proxy_429; ok_200 (batch "b1")])
     = (Raise JSONDecodeError,
        {| bot := fresh_bot; inbox := [ok_200 (batch "b1")]; utcoffset := 0;
           trace := [EHttp "GET" "client/v3/sync" (PDict []) []] |}).
Proof.
  repeat split. unfold MAX_RETRIES; cbn; lia.
Qed.

Lemma process_body_retries_exhausted_witness :
  let rs := repeat (limit_429 [("retry_after_ms", PInt 10)]) 6 in
  let req := EHttp "GET" "client/v3/sync" (PDict []) [] in
  process_body (client_request "GET" "client/v3/sync" (PDict []))
    (start fresh_bot (rs ++ [ok_200 (batch "b1")]))
  = (Ret (Err (ErrRetries 6)),
     advance (start fresh_bot (rs ++ [ok_200 (batch "b1")]))
             [ok_200 (batch "b1")] (retry_trace req 0 rs))
  /\ attempts (retry_trace req 0 rs) = MAX_RETRIES
  /\ Z.of_nat MAX_RETRIES = 6.
Proof.
  apply (process_body_retries_exhausted
           "GET" "client/v3/sync" (PDict [])
           (repeat (limit_429 [("retry_after_ms", PInt 10)]) 6)
           [ok_200 (batch "b1")]).
  - reflexivity.
  - solve_rate_limited.
  - reflexivity.
Defined.

(** C2 (the code departs from it, and from the docstring of
    [process_body]: a 429 is re-called after some delay, the result is
    [Ok] or [Err]): six consecutive 429 responses whose body is not JSON
    end in an exception at the first attempt, after one request, not in
    [Err] after six. *)
Lemma process_body_six_proxy_429_raises :
  Forall (fun r => status_code r = 429) (repeat proxy_429 6)
  /\ List.length (repeat proxy_429 6) = MAX_RETRIES
  /\ process_body (client_request "GET" "client/v3/sync" (PDict []))
       (start fresh_bot (repeat proxy_429 6))
     = (Raise JSONDecodeError,
        {| bot := fresh_bot; inbox := repeat proxy_429 5; utcoffset := 0;
           trace := [EHttp "GET" "client/v3/sync" (PDict []) []] |}).
Proof.
  repeat split. repeat constructor.
Qed.

Lemma process_body_raises_on_undecodable_body_witness :
  process_body (client_request "POST" "client/v3/refresh"
                               (PDict [("refresh_token", PStr "R")]))
    (start fresh_bot
       [limit_429 []; mkResponse 403 "https://h.example/" None])
  = (Raise JSONDecodeError,
     {| bot := fresh_bot; inbox := []; utcoffset := 0;
        trace := [EHttp "POST" "client/v3/refresh"
                        (PDict [("refresh_token", PStr "R")]) [];
                  ESleep 1;
                  EHttp "POST" "client/v3/refresh"
                        (PDict [("refresh_token", PStr "R")]) []] |}).
Proof.
  apply (process_body_raises_on_undecodable_body
           "POST" "client/v3/refresh" (PDict [("refresh_token", PStr "R")])
           [limit_429 []] (mkResponse 403 "https://h.example/" None) []).
  - unfold MAX_RETRIES; cbn; lia.
  - solve_rate_limited.
  - reflexivity.
  - reflexivity.
Defined.

(** ** The token store *)

Lemma datetime_add_in_range (d td : Z) :
  0 <= d + td < DATETIME_END -> datetime_add d td = Ret (d + td).
Proof.
  intros [Hlo Hhi]. unfold datetime_add.
  rewrite (proj2 (Z.leb_le _ _) Hlo), (proj2 (Z.ltb_lt _ _) Hhi).
  reflexivity.
Qed.

(** A field of the result that is absent leaves what it governs as it
    was; an access token or refresh token that is present and not empty
    is stored. *)
Lemma save_tokens_frame (now : Z) (tokens : TokenResponse)
      (self self' : MatrixBot) (o : Outcome unit) :
  _save_tokens now tokens self = (o, self') ->
  (tr_access_token tokens = None ->
   access_token self' = access_token self
   /\ access_token_expire self' = access_token_expire self
   /\ get_auth self' = get_auth self)
  /\ (tr_expires_in_ms tokens = None ->
      access_token_expire self' = access_token_expire self)
  /\ (tr_refresh_token tokens = None ->
      refresh_token self' = refresh_token self)
  /\ (forall a, tr_access_token tokens = Some a -> a <> "" ->
                access_token self' = Some a)
  /\ (forall r, o = Ret tt -> tr_refresh_token tokens = Some r -> r <> "" ->
                refresh_token self' = Some r)
  /\ user_id self' = user_id self
  /\ listeners self' = listeners self.
Proof.
  unfold _save_tokens, get_expiry.
  destruct tokens as [rt at_ ems].
  cbn [tr_access_token tr_refresh_token tr_expires_in_ms].
  assert (Hne : forall x : string, x <> "" -> str_truthy (Some x) = true).
  { intros x Hx. cbn. destruct (String.eqb_spec x ""); [contradiction | reflexivity]. }
  destruct at_ as [a |]; destruct rt as [r |]; destruct ems as [ms |];
    cbn [str_truthy int_truthy andb];
    repeat match goal with
           | |- context [negb (?x =? ?y)%string] =>
               destruct (String.eqb_spec x y); cbn [negb andb]
           | |- context [negb (?x =? ?y)] =>
               destruct (Z.eqb_spec x y); cbn [negb andb]
           | |- context [timedelta_ms ?m] => destruct (timedelta_ms m)
           | |- context [datetime_add ?x ?y] => destruct (datetime_add x y)
           end;
    intros [= <- <-]; cbn;
    repeat split; try discriminate; try reflexivity;
    try (intros ? [= <-] ?; try reflexivity; contradiction);
    try (intros ? ? [= <-] ?; try reflexivity; contradiction);
    try (intros ? [=]).
Qed.

(** C5: applying a token result changes a stored field only if the result
    carries it, each field on its own.  For every bot and every clock
    reading [now] at least a second before [datetime.max], applying
    [{access_token: "T", expires_in_ms: 1000}] makes the authorization
    header [Bearer T] and the expiry [now] + 1000 ms; applying then a
    result with only [{refresh_token: "R"}] (at any reading [now']) stores
    the refresh token and leaves the access token, its expiry and the
    header as they were.  In general an absent access token leaves access
    token, expiry and header unchanged, an absent lifetime leaves the
    expiry unchanged, an absent refresh token leaves the refresh token
    unchanged, and an access or refresh token that is present (and not
    empty) is stored. *)
Theorem save_tokens_updates_present_fields
        (self : MatrixBot) (now now' : Z) :
  0 <= now ->
  now + 1000 * 1000 < DATETIME_END ->
  (exists t1 t2 b1 b2,
      TokenResponse_from_dict
        [("access_token", PStr "T"); ("expires_in_ms", PInt 1000)] = Some t1
      /\ TokenResponse_from_dict [("refresh_token", PStr "R")] = Some t2
      /\ _save_tokens now t1 self = (Ret tt, b1)
      /\ get_auth b1 = [("Authorization", "Bearer T")]
      /\ access_token b1 = Some "T"
      /\ access_token_expire b1 = now + 1000 * 1000
      /\ _save_tokens now' t2 b1 = (Ret tt, b2)
      /\ refresh_token b2 = Some "R"
      /\ access_token b2 = Some "T"
      /\ access_token_expire b2 = now + 1000 * 1000
      /\ get_auth b2 = [("Authorization", "Bearer T")])
  /\ (forall (t : Z) (tokens : TokenResponse) (b b' : MatrixBot),
         _save_tokens t tokens b = (Ret tt, b') ->
         (tr_access_token tokens = None ->
          access_token b' = access_token b
          /\ access_token_expire b' = access_token_expire b
          /\ get_auth b' = get_auth b)
         /\ (tr_expires_in_ms tokens = None ->
             access_token_expire b' = access_token_expire b)
         /\ (tr_refresh_token tokens = None ->
             refresh_token b' = refresh_token b)
         /\ (forall a, tr_access_token tokens = Some a -> a <> "" ->
                       access_token b' = Some a)
         /\ (forall r, tr_refresh_token tokens = Some r -> r <> "" ->
                       refresh_token b' = Some r)).
Proof.
  intros Hlo Hhi. split.
  - assert (Hexp : get_expiry now (mkTokenResponse None (Some "T") (Some 1000))
                   = Ret (Some (now + 1000 * 1000))).
    { unfold get_expiry.
      cbn [tr_access_token tr_expires_in_ms str_truthy int_truthy].
      change (negb ("T" =? "")%string && negb (1000 =? 0)) with true.
      change (timedelta_ms 1000) with (Ret (A := Z) (1000 * 1000)).
      cbv iota beta.
      rewrite datetime_add_in_range by lia. reflexivity. }
    eexists. eexists. eexists. eexists.
    split; [reflexivity |]. split; [reflexivity |].
    split.
    { unfold _save_tokens. rewrite Hexp. cbn. reflexivity. }
    cbn. repeat split; reflexivity.
  - intros t tokens b b' H.
    destruct (save_tokens_frame t tokens b b' (Ret tt) H)
      as (Ha & He & Hr & Hsa & Hsr & _).
    repeat split; try (apply Ha; assumption); auto.
Qed.

Lemma save_tokens_updates_present_fields_witness :
  exists t1 t2 b1 b2,
    TokenResponse_from_dict
      [("access_token", PStr "T"); ("expires_in_ms", PInt 1000)] = Some t1
    /\ TokenResponse_from_dict [("refresh_token", PStr "R")] = Some t2
    /\ _save_tokens 63800000000000000 t1 fresh_bot = (Ret tt, b1)
    /\ get_auth b1 = [("Authorization", "Bearer T")]
    /\ access_token b1 = Some "T"
    /\ access_token_expire b1 = 63800000000000000 + 1000 * 1000
    /\ _save_tokens 63800000005000000 t2 b1 = (Ret tt, b2)
    /\ refresh_token b2 = Some "R"
    /\ access_token b2 = Some "T"
    /\ access_token_expire b2 = 63800000000000000 + 1000 * 1000
    /\ get_auth b2 = [("Authorization", "Bearer T")].
Proof.
  apply (save_tokens_updates_present_fields
           fresh_bot 63800000000000000 63800000005000000).
  - lia.
  - unfold DATETIME_END, US_PER_DAY. lia.
Defined.

(** ** Registry and dispatch *)

Lemma registry_get_append_same (r : registry) (k : string) (f : Listener) :
  registry_get (registry_append r k f) k =
  Some (match registry_get r k with
        | Some fs => (fs ++ [f])%list
        | None => [f]
        end).
Proof.
  induction r as [| [k' fs] r IH]; cbn.
  - rewrite String.eqb_refl. reflexivity.
  - destruct (k' =? k)%string eqn:E; cbn; rewrite E; [reflexivity | exact IH].
Qed.

(** A timestamp whose local time lies between 0001-01-02 and the end of
    year 9999 converts. *)
Lemma fromtimestamp_in_range (tz : Z) (d : float) (sec us : Z) :
  to_timeval d = Ret (sec, us) ->
  US_PER_DAY <= EPOCH_US + sec * 1000000 + tz < DATETIME_END ->
  fromtimestamp tz d = Ret (EPOCH_US + sec * 1000000 + tz + us).
Proof.
  intros Htv [Hlo Hhi]. unfold fromtimestamp. rewrite Htv.
  assert (Hb : LOCALTIME_BEGIN <= 0) by (apply Z.leb_le; vm_compute; reflexivity).
  assert (He : DATETIME_END <= LOCALTIME_END)
    by (apply Z.leb_le; vm_compute; reflexivity).
  assert (Hd : 0 < US_PER_DAY) by reflexivity.
  set (local := EPOCH_US + sec * 1000000 + tz) in *.
  destruct (Z.ltb_spec local LOCALTIME_BEGIN); [lia |].
  destruct (Z.leb_spec LOCALTIME_END local); [lia |].
  destruct (Z.ltb_spec (local - US_PER_DAY) 0); [lia |].
  destruct (Z.leb_spec DATETIME_END local); [lia |].
  reflexivity.
Qed.

(** 1700000000000 / 1000 is the double 1700000000.0, without fraction. *)
Lemma fromtimestamp_ms_1700000000000 (tz : Z) :
  Z.abs tz < US_PER_DAY ->
  fromtimestamp_ms tz 1700000000000
  = Ret (EPOCH_US + 1700000000000 * 1000 + tz).
Proof.
  intros Htz. unfold fromtimestamp_ms.
  assert (Hdiv : int_truediv 1700000000000 1000
                 = Some (float_round 1700000000000 1000))
    by (vm_compute; reflexivity).
  rewrite Hdiv.
  rewrite (fromtimestamp_in_range tz _ 1700000000 0).
  - f_equal. lia.
  - vm_compute. reflexivity.
  - unfold EPOCH_US, DATETIME_END, US_PER_DAY in *. lia.
Qed.

(** C6: for every caller-supplied room id and every bot whose only
    listener for [m.room.message] is [f], registered through
    [on_message], processing a joined room whose timeline is the single
    envelope [hi_envelope] invokes [f] exactly once, with content
    [{body: "hi", msgtype: "m.text"}] and a metadata tuple holding that
    room id, sender [@a:x], event id [$1] and the datetime of
    1700000000000 ms after the epoch (2023-11-14 in UTC). *)
Theorem parse_room_join_single_message
        (self : MatrixBot) (f : Listener) (rid : string) (s : State) :
  registry_get (listeners self) "m.room.message" = None ->
  bot s = snd (on_message f self) ->
  Z.abs (utcoffset s) < US_PER_DAY ->
  let metadata :=
    {| room_id := PStr rid;
       sender := PStr "@a:x";
       event_id := PStr "$1";
       origin_server_ts :=
         PDatetime (EPOCH_US + 1700000000000 * 1000 + utcoffset s);
       unsigned := PDict [] |} in
  exists s',
    parse_room_join rid (timeline_of [hi_envelope]) s
    = (match l_run f hi_content metadata with
       | None => Ret tt
       | Some e => Raise e
       end, s')
    /\ (exists es, trace s' = (trace s ++ es)%list
                   /\ calls es = [(l_name f, hi_content, metadata)])
    /\ date_of (EPOCH_US + 1700000000000 * 1000) = (2023, 11, 14).
Proof.
  intros Hnone Hbot Htz metadata.
  assert (Hts : fromtimestamp_ms (utcoffset s) 1700000000000
                = Ret (EPOCH_US + 1700000000000 * 1000 + utcoffset s)).
  { apply fromtimestamp_ms_1700000000000. exact Htz. }
  unfold parse_room_join, timeline_of, hi_envelope.
  cbn [events_under dict_get String.eqb Ascii.eqb Bool.eqb for_each].
  unfold join_event.
  cbn [dict_get String.eqb Ascii.eqb Bool.eqb dict_without filter existsb
       fst negb orb dict_set registry_contains].
  unfold bind at 1 2 3. unfold get_bot, lift.
  rewrite Hbot. cbn [snd on_message register listeners].
  rewrite registry_get_append_same, Hnone.
  cbn [call_listeners py_copy hi_content].
  unfold EventMetadata_from_dict, bind, ret, emit, lift, invoke.
  cbn [dict_get String.eqb Ascii.eqb Bool.eqb utcoffset ts_to_datetime].
  rewrite Hts.
  cbn [dict_set dict_get String.eqb Ascii.eqb Bool.eqb dict_restrict
       EVENT_KEYS filter existsb fst snd orb EventMetadata_new
       bot inbox utcoffset trace].
  fold metadata. fold hi_content.
  unfold bind, emit, raise, ret. cbn [bot inbox utcoffset trace].
  destruct (l_run f hi_content metadata) as [e |];
    (eexists; split; [reflexivity |]);
    (split; [| reflexivity]);
    cbn [trace]; rewrite <- app_assoc;
    (eexists; split; [reflexivity |]); reflexivity.
Qed.

Lemma parse_room_join_single_message_witness :
  let metadata :=
    {| room_id := PStr "!room:h.example";
       sender := PStr "@a:x";
       event_id := PStr "$1";
       origin_server_ts := PDatetime (EPOCH_US + 1700000000000 * 1000 + 0);
       unsigned := PDict [] |} in
  exists s',
    parse_room_join "!room:h.example" (timeline_of [hi_envelope])
      (start (snd (on_message (quiet "recv_msg") fresh_bot)) [])
    = (Ret tt, s')
    /\ (exists es, trace s' = ([] ++ es)%list
                   /\ calls es = [("recv_msg", hi_content, metadata)])
    /\ date_of (EPOCH_US + 1700000000000 * 1000) = (2023, 11, 14).
Proof.
  apply (parse_room_join_single_message
           fresh_bot (quiet "recv_msg") "!room:h.example"
           (start (snd (on_message (quiet "recv_msg") fresh_bot)) [])).
  - reflexivity.
  - reflexivity.
  - reflexivity.
Defined.

(** Without [origin_server_ts] in the envelope nothing is stored back into
    [rest]: every listener is invoked, in registration order, with the same
    content and metadata. *)
Lemma call_listeners_in_order (content : pyval) (rest : pydict)
      (metadata : EventMetadata) (fs : list Listener) :
  dict_get rest "origin_server_ts" = None ->
  EventMetadata_new (dict_restrict EVENT_KEYS rest) = Ret metadata ->
  py_copy content = ret content ->
  Forall (fun f => l_run f content metadata = None) fs ->
  forall s : State,
    call_listeners fs content rest s
    = (Ret tt,
       advance s (inbox s)
               (flat_map (fun f => [EPrint (MsgEvtMeta rest);
                                    ECall (l_name f) content metadata]) fs)).
Proof.
  intros Hts Hmd Hcopy Hfs.
  induction Hfs as [| f fs Hf _ IH]; intros s.
  - cbn. unfold ret, advance. rewrite app_nil_r. destruct s; reflexivity.
  - cbn [call_listeners flat_map]. rewrite Hcopy.
    unfold EventMetadata_from_dict. rewrite Hts.
    unfold bind, ret, emit, lift, invoke. rewrite Hmd.
    cbn [fst snd]. unfold bind, emit. rewrite Hf. unfold ret.
    rewrite IH. unfold advance. cbn [bot inbox utcoffset trace].
    rewrite <- !app_assoc. reflexivity.
Qed.

(** The sibling path: an envelope that is not an object with [type] and
    [content] is logged at warning level and skipped. *)
Lemma join_event_wrong_shape_skipped (rid : string) (event : pyval) (s : State) :
  match event with
  | PDict d =>
      match dict_get d "type", dict_get d "content" with
      | Some _, Some _ => False
      | _, _ => True
      end
  | _ => True
  end ->
  join_event rid event s
  = (Ret tt, advance s (inbox s) [EWarning (MsgSkipUnknown event)]).
Proof.
  intros H. unfold join_event.
  destruct event as [| | | | | d |]; try reflexivity.
  destruct (dict_get d "type"), (dict_get d "content");
    try reflexivity; contradiction.
Qed.

(** C3 (the code departs from it): one joined room's timeline starts with
    a message envelope that has no [sender]; a listener is registered for
    its type.  The cycle ends in a [TypeError]: nothing is skipped, and
    the well-formed events that follow, in this room and in the next, are
    never dispatched. *)
Theorem sync_missing_sender_aborts_cycle :
  let s := start (snd (on_message (quiet "recv_msg") fresh_bot))
                 [ok_200 two_rooms_body] in
  fst (sync (PDict [("timeout", PInt 3000)]) s) = Raise TypeError
  /\ calls (trace (snd (sync (PDict [("timeout", PInt 3000)]) s))) = []
  /\ trace (snd (sync (PDict [("timeout", PInt 3000)]) s))
     = [EPrint (MsgSync (PDict [("timeout", PInt 3000)]));
        EHttp "GET" "client/v3/sync" (PDict [("timeout", PInt 3000)]) [];
        EPrint (MsgEvtMeta [("event_id", PStr "$0");
                            ("origin_server_ts", PInt 1700000000000);
                            ("room_id", PStr "!r1:h.example")])].
Proof.
  vm_compute. repeat split.
Qed.

(** C4 (the code departs from it): with two listeners [f] and [g]
    registered for [m.room.message], dispatching [hi_envelope] invokes [f]
    and then raises before [g] is invoked: [EventMetadata.from_dict] has
    stored a datetime under [origin_server_ts] in the dict it is handed
    again for [g], and a datetime does not divide by 1000. *)
Theorem parse_room_join_second_listener_never_called
        (f g : Listener) (rid : string) :
  let s := start (with_listeners [("m.room.message", [f; g])]) [] in
  let metadata :=
    {| room_id := PStr rid; sender := PStr "@a:x"; event_id := PStr "$1";
       origin_server_ts := PDatetime (EPOCH_US + 1700000000000 * 1000);
       unsigned := PDict [] |} in
  exists e s',
    parse_room_join rid (timeline_of [hi_envelope]) s = (Raise e, s')
    /\ calls (trace s') = [(l_name f, hi_content, metadata)]
    /\ (l_run f hi_content metadata = None -> e = TypeError).
Proof.
  intros s metadata.
  unfold parse_room_join, timeline_of, hi_envelope, s, start, with_listeners.
  cbn [events_under dict_get String.eqb Ascii.eqb Bool.eqb for_each].
  unfold join_event.
  cbn [dict_get String.eqb Ascii.eqb Bool.eqb dict_without filter existsb
       fst negb orb dict_set registry_contains].
  unfold bind at 1 2 3. unfold get_bot, lift.
  cbn [bot listeners registry_get String.eqb Ascii.eqb Bool.eqb
       call_listeners py_copy hi_content].
  unfold EventMetadata_from_dict, bind, ret, emit, lift, invoke, raise.
  cbn [dict_get String.eqb Ascii.eqb Bool.eqb utcoffset ts_to_datetime].
  change (fromtimestamp_ms 0 1700000000000)
    with (Ret (A := Z) (EPOCH_US + 1700000000000 * 1000)).
  cbn -[Z.add Z.mul EPOCH_US].
  fold hi_content. fold metadata.
  destruct (l_run f hi_content metadata) as [e |] eqn:E.
  - exists e. eexists. split; [reflexivity |]. split; [reflexivity |].
    discriminate.
  - exists TypeError. eexists. split; [reflexivity |].
    split; [reflexivity |]. reflexivity.
Qed.

(** ** The sync cycle and the loop *)

Lemma sync_unfold (params : pyval) (s : State) :
  sync params s =
  match _GET "client/v3/sync" params (printed s (MsgSync params)) with
  | (Ret (Ok (PDict d)), s2) =>
      match dict_get d "next_batch" with
      | Some next_batch =>
          match dispatch_rooms d s2 with
          | (Ret _, s3) => (Ret next_batch, s3)
          | (Raise e, s3) => (Raise e, s3)
          end
      | None => (Ret PNone, printed s2 (MsgSyncWat (PDict d)))
      end
  | (Ret (Ok wat), s2) => (Ret PNone, printed s2 (MsgSyncWat wat))
  | (Ret (Err e), s2) => (Ret PNone, printed s2 (MsgErr e))
  | (Raise e, s2) => (Raise e, s2)
  end.
Proof.
  unfold sync, bind at 1 2. unfold emit at 1.
  change {| bot := bot s; inbox := inbox s; utcoffset := utcoffset s;
            trace := trace s ++ [EPrint (MsgSync params)] |}
    with (printed s (MsgSync params)).
  destruct (_GET "client/v3/sync" params (printed s (MsgSync params)))
    as [[[v | e] | e] s2]; try reflexivity.
  destruct v as [| | | | | d |]; try reflexivity.
  unfold dispatch_rooms.
  destruct (dict_get d "next_batch") as [nb |]; [| reflexivity].
  destruct (dict_get d "rooms") as [rooms |]; [| reflexivity].
  unfold bind. destruct (process_rooms rooms s2) as [[[] | e] s3]; reflexivity.
Qed.

(** A cycle answered at once by a 200 whose body is [{"next_batch": nb}]
    and nothing else. *)
Lemma sync_next_batch_only (params nb : pyval) (r : Response)
      (rest : list Response) (s : State) :
  inbox s = r :: rest ->
  status_code r = 200 ->
  body r = Some (PDict [("next_batch", nb)]) ->
  sync params s
  = (Ret nb,
     advance s rest [EPrint (MsgSync params);
                     EHttp "GET" "client/v3/sync" params (get_auth (bot s))]).
Proof.
  intros Hin H200 Hbody. rewrite sync_unfold. unfold _GET.
  rewrite (process_body_first_200 "GET" "client/v3/sync" params r _ rest
             (printed s (MsgSync params)) Hin H200 Hbody).
  cbn [dict_get String.eqb Ascii.eqb Bool.eqb dispatch_rooms ret].
  unfold printed. rewrite advance_advance. reflexivity.
Qed.

(** C7: the body [{"next_batch": "b1"}] has no [rooms] key.  Decoding it
    with [RoomsResponse.from_dict] yields an empty [invite] and an empty
    [join] mapping (both are injected), and a cycle that receives it with
    status 200 returns ["b1"], which the loop takes as the cursor of its
    next cycle. *)
Theorem sync_without_rooms_advances_cursor
        (params : pyval) (r : Response) (rest : list Response) (s : State) :
  inbox s = r :: rest ->
  status_code r = 200 ->
  body r = Some (batch "b1") ->
  RoomsResponse_from_dict (batch "b1")
  = Ret {| invite := PDict []; join := PDict [] |}
  /\ sync params s
     = (Ret (PStr "b1"),
        advance s rest
                [EPrint (MsgSync params);
                 EHttp "GET" "client/v3/sync" params (get_auth (bot s))])
  /\ (forall (fuel : nat) (cursor : pyval),
         run_loop (S fuel) cursor s
         = run_loop fuel (PStr "b1")
             (advance s rest
                [EPrint (MsgSync (sync_params cursor));
                 EHttp "GET" "client/v3/sync" (sync_params cursor)
                       (get_auth (bot s));
                 EPrint MsgSyncing])).
Proof.
  intros Hin H200 Hbody. split; [reflexivity |]. split.
  - apply (sync_next_batch_only params (PStr "b1") r rest s); assumption.
  - intros fuel cursor. cbn [run_loop]. unfold bind at 1.
    fold (sync_params cursor).
    rewrite (sync_next_batch_only (sync_params cursor) (PStr "b1") r rest s)
      by assumption.
    cbn [truthy negb String.eqb]. unfold bind, emit.
    cbn [bot inbox utcoffset trace advance].
    rewrite <- app_assoc. reflexivity.
Qed.

Lemma sync_without_rooms_advances_cursor_witness :
  RoomsResponse_from_dict (batch "b1")
  = Ret {| invite := PDict []; join := PDict [] |}
  /\ sync (PDict [("full_state", PBool false); ("timeout", PInt 5000)])
          (start fresh_bot [ok_200 (batch "b1")])
     = (Ret (PStr "b1"),
        advance (start fresh_bot [ok_200 (batch "b1")]) []
                [EPrint (MsgSync (PDict [("full_state", PBool false);
                                         ("timeout", PInt 5000)]));
                 EHttp "GET" "client/v3/sync"
                       (PDict [("full_state", PBool false);
                               ("timeout", PInt 5000)]) []]).
Proof.
  split.
  - apply (sync_without_rooms_advances_cursor
             (PDict [("full_state", PBool false); ("timeout", PInt 5000)])
             (ok_200 (batch "b1")) []
             (start fresh_bot [ok_200 (batch "b1")]));
      reflexivity.
  - apply (sync_without_rooms_advances_cursor
             (PDict [("full_state", PBool false); ("timeout", PInt 5000)])
             (ok_200 (batch "b1")) []
             (start fresh_bot [ok_200 (batch "b1")]));
      reflexivity.
Defined.

Lemma last_cons_default {A} (l : list A) :
  forall x d d', last (x :: l) d = last (x :: l) d'.
Proof.
  induction l as [| y l IH]; intros x d d'; [reflexivity |].
  change (last (y :: l) d = last (y :: l) d'). apply IH.
Qed.

(** Successive successful cycles: each [next_batch] received becomes the
    [since] of the next request. *)
Lemma run_loop_chain (bs : list string) :
  forall (cursor : pyval) (k : nat) (s : State) (rest : list Response),
    Forall (fun b => b <> "") bs ->
    inbox s = (map (fun b => ok_200 (batch b)) bs ++ rest)%list ->
    run_loop (List.length bs + k) cursor s
    = run_loop k (last (map PStr bs) cursor)
               (advance s rest (chain_trace (bot s) cursor bs)).
Proof.
  induction bs as [| b bs IH]; intros cursor k s rest Hbs Hin.
  - cbn in *. unfold advance. rewrite app_nil_r, <- Hin.
    destruct s; reflexivity.
  - inversion Hbs as [| ? ? Hb Hbs']; subst.
    cbn [List.length Nat.add run_loop]. unfold bind at 1.
    fold (sync_params cursor).
    rewrite (sync_next_batch_only (sync_params cursor) (PStr b)
               (ok_200 (batch b))
               (map (fun b => ok_200 (batch b)) bs ++ rest)%list s Hin)
      by reflexivity.
    assert (Ht : truthy (PStr b) = true).
    { cbn. destruct (String.eqb_spec b ""); [contradiction | reflexivity]. }
    rewrite Ht. unfold bind at 1, emit at 1.
    cbn [bot inbox utcoffset trace advance].
    rewrite (IH (PStr b) k _ rest Hbs') by reflexivity.
    f_equal.
    + destruct bs as [| b' bs]; [reflexivity |].
      cbn [map]. rewrite (last_cons_default _ (PStr b') (PStr b) cursor).
      reflexivity.
    + unfold advance. cbn [bot inbox utcoffset trace chain_trace].
      repeat rewrite <- app_assoc. reflexivity.
Qed.

(** ** Homeserver resolution *)

Section ResolverFacts.

Variable URL : Type.
Variable URL_new : string -> option URL.
Variable URL_join : URL -> string -> URL.
Variable URL_scheme : URL -> string.
Variable URL_str : URL -> string.

Let resolve := get_homeserver URL URL_new URL_join URL_scheme URL_str.
Let probe := _test_is_homeserver URL URL_join URL_scheme URL_str.
Let fetched (u : URL) : Effect := EHttp "GET" (URL_str u) PNone [].

Variables (server_name : string) (direct well_known : URL).
Hypothesis direct_parses :
  URL_new ("https://" ++ server_name ++ "/_matrix/") = Some direct.
Hypothesis direct_https : URL_scheme direct = "https".
Hypothesis well_known_parses :
  URL_new ("https://" ++ server_name ++ "/.well-known/matrix/client")
  = Some well_known.

(** A probe answered with another status than 200 fails. *)
Lemma probe_not_200 (u : URL) (r : Response) (rest : list Response)
      (s : State) :
  URL_scheme u = "https" ->
  inbox s = r :: rest ->
  status_code r <> 200 ->
  probe u s = (Ret false, advance s rest [fetched (URL_join u "client/versions")]).
Proof.
  intros Hs Hin Hne. unfold probe, _test_is_homeserver.
  rewrite Hs. cbn [String.eqb Ascii.eqb Bool.eqb negb].
  unfold bind, httpx_get. rewrite Hin.
  destruct (Z.eqb_spec (status_code r) 200); [contradiction | reflexivity].
Qed.

(** The steps of the resolver up to the answer of the well-known
    request, when the direct probe is answered with another status than
    200. *)
Lemma resolve_reaches_well_known (r1 r2 : Response) (rest : list Response)
      (s : State) :
  inbox s = r1 :: r2 :: rest ->
  status_code r1 <> 200 ->
  resolve server_name s =
  let s2 := advance s rest [fetched (URL_join direct "client/versions");
                            fetched well_known] in
  match (if status_code r2 =? 200
         then (j <- response_json r2 ;;
               from_well_known URL URL_new URL_join URL_scheme URL_str j)
         else ret None) s2 with
  | (Ret (Some u), s3) => (Ret u, s3)
  | (Ret None, s3) => (Raise (CouldNotFindHomeserver server_name), s3)
  | (Raise e, s3) => (Raise e, s3)
  end.
Proof.
  intros Hin Hne. unfold resolve, get_homeserver.
  unfold bind at 1. unfold URL_of_value at 1. rewrite direct_parses.
  unfold ret at 1. unfold bind at 1.
  fold probe. rewrite (probe_not_200 direct r1 (r2 :: rest) s direct_https Hin Hne).
  unfold bind at 1. unfold URL_of_value at 1. rewrite well_known_parses.
  unfold ret at 1. unfold bind at 1. unfold httpx_get at 1.
  cbn [inbox advance tl bot utcoffset trace].
  rewrite <- app_assoc. cbn [app].
  unfold bind at 1. cbv zeta. unfold advance, fetched.
  match goal with
  | |- match ?m ?st with _ => _ end = _ =>
      destruct (m st) as [[[u |] | e] s3]; reflexivity
  end.
Qed.

(** A missing discovery document (any status but 200) is the resolution
    error. *)
Lemma resolve_well_known_not_200 (r1 r2 : Response) (rest : list Response)
      (s : State) :
  inbox s = r1 :: r2 :: rest ->
  status_code r1 <> 200 ->
  status_code r2 <> 200 ->
  fst (resolve server_name s) = Raise (CouldNotFindHomeserver server_name).
Proof.
  intros Hin H1 H2. rewrite (resolve_reaches_well_known r1 r2 rest s Hin H1).
  cbv zeta.
  destruct (Z.eqb_spec (status_code r2) 200); [contradiction | reflexivity].
Qed.

(** C9 (the code departs from it): the direct probe fails and the
    well-known request is answered with status 200.  If its body does
    not decode, the resolver raises the decoder's [JSONDecodeError]; if
    it decodes to a document whose [base_url] is a number, the resolver
    raises [TypeError].  Neither is its resolution error. *)
Theorem resolve_malformed_well_known_raises_other_exception
        (r1 r2 : Response) (rest : list Response) (s : State) :
  inbox s = r1 :: r2 :: rest ->
  status_code r1 <> 200 ->
  status_code r2 = 200 ->
  (body r2 = None ->
   resolve server_name s
   = (Raise JSONDecodeError,
      advance s rest [fetched (URL_join direct "client/versions");
                      fetched well_known]))
  /\ (forall n : Z,
         body r2 = Some (well_known_doc (PInt n)) ->
         resolve server_name s
         = (Raise TypeError,
            advance s rest [fetched (URL_join direct "client/versions");
                            fetched well_known]))
  /\ JSONDecodeError <> CouldNotFindHomeserver server_name
  /\ TypeError <> CouldNotFindHomeserver server_name.
Proof.
  intros Hin H1 H2.
  rewrite (resolve_reaches_well_known r1 r2 rest s Hin H1).
  cbv zeta. rewrite H2. cbn [Z.eqb Pos.eqb].
  unfold bind, response_json.
  split; [| split; [| split; discriminate]].
  - intros Hbody. rewrite Hbody. reflexivity.
  - intros n Hbody. rewrite Hbody. reflexivity.
Qed.

End ResolverFacts.

Lemma resolve_malformed_well_known_raises_other_exception_witness :
  simple_resolve "h.example"
    (start fresh_bot
       [not_found_404 "https://h.example/_matrix/client/versions";
        html_200 "https://h.example/.well-known/matrix/client"])
  = (Raise JSONDecodeError,
     advance
       (start fresh_bot
          [not_found_404 "https://h.example/_matrix/client/versions";
           html_200 "https://h.example/.well-known/matrix/client"])
       []
       [EHttp "GET" "https://h.example/_matrix/client/versions" PNone [];
        EHttp "GET" "https://h.example/.well-known/matrix/client" PNone []]).
Proof.
  apply (proj1 (resolve_malformed_well_known_raises_other_exception
                  SimpleURL.t SimpleURL.new SimpleURL.join SimpleURL.scheme
                  SimpleURL.str "h.example"
                  (SimpleURL.mk "https" "h.example" "/_matrix/")
                  (SimpleURL.mk "https" "h.example"
                                "/.well-known/matrix/client")
                  eq_refl eq_refl eq_refl
                  (not_found_404 "https://h.example/_matrix/client/versions")
                  (html_200 "https://h.example/.well-known/matrix/client") []
                  (start fresh_bot
                     [not_found_404 "https://h.example/_matrix/client/versions";
                      html_200 "https://h.example/.well-known/matrix/client"])
                  eq_refl
                  ltac:(discriminate)
                  eq_refl)).
  reflexivity.
Defined.

(** The discovery document [{"m.homeserver": {"base_url":
    "https://h.example"}}] resolves to [https://h.example/_matrix/] when
    the probe of that base succeeds, and to the resolution error when it
    does not. *)
Example resolve_delegated :
  fst (simple_resolve "example.org"
         (start fresh_bot
            [not_found_404 "https://example.org/_matrix/client/versions";
             mkResponse 200 "https://example.org/.well-known/matrix/client"
                        (Some (well_known_doc (PStr "https://h.example")));
             versions_200 "https://h.example/_matrix/client/versions"]))
  = Ret (SimpleURL.mk "https" "h.example" "/_matrix/")
  /\ fst (simple_resolve "example.org"
            (start fresh_bot
               [not_found_404 "https://example.org/_matrix/client/versions";
                mkResponse 200 "https://example.org/.well-known/matrix/client"
                           (Some (well_known_doc (PStr "https://h.example")));
                not_found_404 "https://h.example/_matrix/client/versions"]))
     = Raise (CouldNotFindHomeserver "example.org").
Proof.
  split; reflexivity.
Qed.

(** * Further properties *)

(** ** The request executor *)

Lemma attempts_app (a b : list Effect) :
  attempts (a ++ b) = (attempts a + attempts b)%nat.
Proof.
  unfold attempts. rewrite filter_app, length_app. reflexivity.
Qed.

Section Budget.

Variables (m p : string) (v : pyval).
Variables (i : Z) (idxs : list Z) (last : option Z) (s : State).

Let req : Effect := EHttp m p v (get_auth (bot s)).
Let after (t : list Response) (ws : list Effect) : State :=
  {| bot := bot s; inbox := t; utcoffset := utcoffset s;
     trace := (trace s ++ [req]) ++ ws |}.

(** The iteration ends at once, having used the responses [used]. *)
Lemma within_budget_stop (o : Outcome Result) (used t : list Response)
      (ws : list Effect) :
  inbox s = (used ++ t)%list ->
  (List.length used <= 1)%nat ->
  attempts ws = 0%nat ->
  o <> Raise UnboundLocalError ->
  (forall n, o <> Ret (Err (ErrRetries n))) ->
  within_budget (i :: idxs) last s (o, after t ws).
Proof.
  intros Hin Hlen Hws Hubl Hret. unfold within_budget, after.
  cbn [fst snd bot inbox utcoffset trace].
  split; [reflexivity |]. split; [reflexivity |].
  exists (req :: ws), used. rewrite <- app_assoc.
  change (attempts (req :: ws)) with (S (attempts ws)). rewrite Hws.
  cbn [List.length app].
  split; [reflexivity |]. split; [exact Hin |].
  split; [lia |]. split; [lia |]. split.
  - intros H. contradiction.
  - intros n H. exfalso. exact (Hret n H).
Qed.

(** The iteration slept and the loop went on over the other indices. *)
Lemma within_budget_retry (r0 : Response) (t : list Response) (ms : Z)
      (r : Outcome Result * State) :
  inbox s = r0 :: t ->
  within_budget idxs (Some i) (after t [ESleep ms]) r ->
  within_budget (i :: idxs) last s r.
Proof.
  intros Hin (Hb & Hu & es & used & Htr & Hin' & Ha & Hl & Hubl & Hret).
  unfold after in *. cbn [bot inbox utcoffset trace] in *.
  unfold within_budget.
  split; [exact Hb |]. split; [exact Hu |].
  exists (req :: ESleep ms :: es), (r0 :: used).
  rewrite Htr, <- !app_assoc. cbn [app].
  change (attempts (req :: ESleep ms :: es)) with (S (attempts es)).
  cbn [List.length].
  split; [reflexivity |]. split; [rewrite Hin, Hin'; reflexivity |].
  split; [lia |]. split; [lia |]. split.
  - intros H. destruct (Hubl H) as [_ H']. discriminate H'.
  - intros n H. destruct (Hret n H) as [H1 H2]. split; [lia |].
    destruct idxs as [| z l]; [exact H2 |].
    cbn [map] in *. rewrite H2.
    change (List.last (Some i :: Some z :: map Some l) last)
      with (List.last (Some z :: map Some l) last).
    apply last_cons_default.
Qed.

End Budget.

Lemma process_body_from_within_budget (m p : string) (v : pyval)
      (idxs : list Z) :
  forall (last : option Z) (s : State),
    within_budget idxs last s
                  (process_body_from (client_request m p v) idxs last s).
Proof.
  induction idxs as [| i idxs IH]; intros last s.
  - cbn [process_body_from]. unfold within_budget.
    destruct last as [c |]; cbn [fst snd ret raise];
      (split; [reflexivity |]); (split; [reflexivity |]);
      exists [], []; rewrite app_nil_r; cbn [app List.length map List.last];
      (split; [reflexivity |]); (split; [reflexivity |]);
      (split; [unfold attempts; cbn; lia |]);
      (split; [unfold attempts; cbn; lia |]); split.
    + discriminate.
    + intros n [= <-]. split; [reflexivity |]. f_equal. lia.
    + intros _. split; reflexivity.
    + discriminate.
  - cbn [process_body_from]. unfold bind at 1. unfold client_request at 1.
    destruct (inbox s) as [| r0 t] eqn:Hin.
    { rewrite <- (app_nil_r (trace s ++ _)).
      apply (within_budget_stop m p v i idxs last s _ [] []);
        [exact Hin | cbn; lia | reflexivity | discriminate | discriminate]. }
    cbn [tl]. unfold bind at 1, response_json at 1.
    destruct (body r0) as [j |]; cbn [ret raise].
    2:{ rewrite <- (app_nil_r (trace s ++ _)).
        apply (within_budget_stop m p v i idxs last s _ [r0] t);
          [exact Hin | cbn; lia | reflexivity | discriminate | discriminate]. }
    unfold ret at 1.
    assert (Hstop : forall (o : Outcome Result) (ws : list Effect),
               attempts ws = 0%nat ->
               o <> Raise UnboundLocalError ->
               (forall n, o <> Ret (Err (ErrRetries n))) ->
               within_budget (i :: idxs) last s
                 (o, {| bot := bot s; inbox := t; utcoffset := utcoffset s;
                        trace := (trace s
                                  ++ [EHttp m p v (get_auth (bot s))]) ++ ws |})).
    { intros o ws. apply (within_budget_stop m p v i idxs last s o [r0] t ws).
      - exact Hin.
      - cbn; lia. }
    assert (Hstop0 : forall (o : Outcome Result),
               o <> Raise UnboundLocalError ->
               (forall n, o <> Ret (Err (ErrRetries n))) ->
               within_budget (i :: idxs) last s
                 (o, {| bot := bot s; inbox := t; utcoffset := utcoffset s;
                        trace := trace s
                                 ++ [EHttp m p v (get_auth (bot s))] |})).
    { intros o H1 H2. rewrite <- (app_nil_r (trace s ++ _)).
      apply Hstop; [reflexivity | exact H1 | exact H2]. }
    destruct (status_code r0 =? 200).
    { unfold ret. apply Hstop0; discriminate. }
    destruct (status_code r0 =? 429).
    + unfold bind at 1.
      destruct j as [| | | | | d |];
        try (unfold raise; apply Hstop0; discriminate).
      destruct (dict_get d "retry_after_ms") as [[| b | n | | | |] |];
        cbn [sleep_ms];
        try destruct (int_truediv _ 1000);
        try (unfold raise; apply Hstop0; discriminate);
        unfold emit; cbn [bot inbox utcoffset trace];
        (eapply within_budget_retry; [exact Hin | apply IH]).
    + destruct ((status_code r0 =? 401) || (status_code r0 =? 403));
        destruct j as [| | | | | d |];
        try (unfold ret; apply Hstop0; discriminate).
      destruct (dict_get d "errcode") as [ec |];
        [destruct (dict_get d "error") as [er |] |];
        try (unfold ret; apply Hstop0; discriminate).
      unfold bind, emit, ret. cbn [bot inbox utcoffset trace].
      apply Hstop; [reflexivity | discriminate | discriminate].
Qed.

(** The executor up to the attempt that receives [r], after the
    rate-limited responses [rs]. *)
Lemma process_body_reaches (m p : string) (v : pyval) (rs : list Response)
      (r : Response) (rest : list Response) (s : State) :
  (List.length rs < MAX_RETRIES)%nat ->
  Forall rate_limited rs ->
  inbox s = (rs ++ r :: rest)%list ->
  let req := EHttp m p v (get_auth (bot s)) in
  process_body (client_request m p v) s =
  process_body_from (client_request m p v)
    (map Z.of_nat (seq (List.length rs) (S (MAX_RETRIES - 1 - List.length rs))))
    (last_index 0 (List.length rs) None)
    (advance s (r :: rest) (retry_trace req 0 rs)).
Proof.
  intros Hlen Hrs Hin req.
  unfold process_body, range.
  replace MAX_RETRIES
    with (List.length rs + S (MAX_RETRIES - 1 - List.length rs))%nat at 1
    by (unfold MAX_RETRIES in *; lia).
  rewrite (retry_prefix m p v rs 0 _ None s (r :: rest) Hrs
             ltac:(unfold MAX_RETRIES in *; lia) Hin).
  reflexivity.
Qed.

(** An [Err(errcode)] is the [errcode] of the response received last, a
    401 or 403. *)
Lemma process_body_from_errcode (m p : string) (v : pyval) (idxs : list Z) :
  forall (last : option Z) (s s' : State) (c : pyval),
    process_body_from (client_request m p v) idxs last s
    = (Ret (Err (ErrCode c)), s') ->
    exists used r,
      inbox s = (used ++ r :: inbox s')%list /\ carries_errcode r c.
Proof.
  induction idxs as [| i idxs IH]; intros last s s' c Heq.
  - cbn in Heq. destruct last; discriminate Heq.
  - cbn [process_body_from] in Heq. unfold bind at 1 in Heq.
    unfold client_request at 1 in Heq.
    destruct (inbox s) as [| r0 t] eqn:Hin; [discriminate Heq |].
    cbn [tl] in Heq. unfold bind at 1, response_json at 1 in Heq.
    destruct (body r0) as [j |] eqn:Hb; cbn [ret raise] in Heq;
      [| discriminate Heq].
    unfold ret at 1 in Heq.
    destruct (status_code r0 =? 200); [discriminate Heq |].
    destruct (status_code r0 =? 429).
    + unfold bind at 1 in Heq.
      assert (Hgo : forall s1,
                 inbox s1 = t ->
                 process_body_from (client_request m p v) idxs (Some i) s1
                 = (Ret (Err (ErrCode c)), s') ->
                 exists used r,
                   (r0 :: t = used ++ r :: inbox s')%list
                   /\ carries_errcode r c).
      { intros s1 Hs1 H. destruct (IH _ _ _ _ H) as (used & r & Hu & Hc).
        exists (r0 :: used), r. split; [| exact Hc].
        cbn [app]. rewrite <- Hu, Hs1. reflexivity. }
      destruct j as [| | | | | d |]; try discriminate Heq.
      destruct (dict_get d "retry_after_ms") as [[| b | n | | | |] |];
        cbn [sleep_ms] in Heq;
        try destruct (int_truediv _ 1000);
        try discriminate Heq;
        unfold emit in Heq; (eapply Hgo; [| exact Heq]); reflexivity.
    + destruct ((status_code r0 =? 401) || (status_code r0 =? 403)) eqn:E;
        destruct j as [| | | | | d |]; try discriminate Heq.
      destruct (dict_get d "errcode") as [ec |] eqn:Hec;
        [destruct (dict_get d "error") as [er |] |];
        try discriminate Heq.
      unfold bind, emit, ret in Heq. injection Heq as <- <-.
      exists [], r0. cbn [app inbox]. split; [reflexivity |].
      split.
      * apply orb_true_iff in E. destruct E as [E | E];
          apply Z.eqb_eq in E; [left | right]; exact E.
      * exists d. split; [exact Hb | exact Hec].
Qed.

(** X1: a 401 or 403 whose body is an object with [errcode] and [error]
    ends the executor at once, also after rate-limited attempts: the
    result is [Err] of the [errcode], one warning names the URL and the
    [error], no sleep follows and the responses behind it are left. *)
Theorem process_body_unauthorized
        (m p : string) (v : pyval) (rs : list Response) (r : Response)
        (d : pydict) (errcode error : pyval) (rest : list Response)
        (s : State) :
  (List.length rs < MAX_RETRIES)%nat ->
  Forall rate_limited rs ->
  status_code r = 401 \/ status_code r = 403 ->
  body r = Some (PDict d) ->
  dict_get d "errcode" = Some errcode ->
  dict_get d "error" = Some error ->
  inbox s = (rs ++ r :: rest)%list ->
  let req := EHttp m p v (get_auth (bot s)) in
  process_body (client_request m p v) s
  = (Ret (Err (ErrCode errcode)),
     advance s rest
             (retry_trace req 0 rs
              ++ [req; EWarning (MsgUnauthorized (url r) error)])).
Proof.
  intros Hlen Hrs Hst Hbody Hec Her Hin req.
  rewrite (process_body_reaches m p v rs r rest s Hlen Hrs Hin).
  cbn [seq map process_body_from]. unfold bind at 1.
  rewrite (client_request_cons m p v _ r rest) by reflexivity.
  unfold response_json. rewrite Hbody. unfold bind at 1, ret at 1.
  assert (H200 : (status_code r =? 200) = false) by (destruct Hst as [-> | ->]; reflexivity).
  assert (H429 : (status_code r =? 429) = false) by (destruct Hst as [-> | ->]; reflexivity).
  assert (H40x : ((status_code r =? 401) || (status_code r =? 403)) = true)
    by (destruct Hst as [-> | ->]; reflexivity).
  rewrite H200, H429, H40x, Hec, Her.
  unfold bind, emit, ret. cbn [bot inbox utcoffset trace advance].
  unfold advance. cbn [bot inbox utcoffset trace].
  rewrite <- !app_assoc. reflexivity.
Qed.

Lemma process_body_unauthorized_witness :
  process_body (client_request "GET" "client/v3/sync" (PDict []))
    (start fresh_bot
       [limit_429 [];
        mkResponse 401 sync_url
          (Some (PDict [("errcode", PStr "M_UNKNOWN_TOKEN");
                        ("error", PStr "Invalid access token")]));
        ok_200 (batch "b1")])
  = (Ret (Err (ErrCode (PStr "M_UNKNOWN_TOKEN"))),
     {| bot := fresh_bot; inbox := [ok_200 (batch "b1")]; utcoffset := 0;
        trace := [EHttp "GET" "client/v3/sync" (PDict []) [];
                  ESleep 1;
                  EHttp "GET" "client/v3/sync" (PDict []) [];
                  EWarning (MsgUnauthorized sync_url
                                            (PStr "Invalid access token"))] |}).
Proof.
  apply (process_body_unauthorized
           "GET" "client/v3/sync" (PDict []) [limit_429 []]
           (mkResponse 401 sync_url
              (Some (PDict [("errcode", PStr "M_UNKNOWN_TOKEN");
                            ("error", PStr "Invalid access token")])))
           [("errcode", PStr "M_UNKNOWN_TOKEN");
            ("error", PStr "Invalid access token")]
           (PStr "M_UNKNOWN_TOKEN") (PStr "Invalid access token")
           [ok_200 (batch "b1")]).
  - unfold MAX_RETRIES; cbn; lia.
  - solve_rate_limited.
  - left; reflexivity.
  - reflexivity.
  - reflexivity.
  - reflexivity.
  - reflexivity.
Defined.

(** X2: a response whose status is neither 200 nor 429 and that is not a
    401 or 403 with an [errcode] and [error] object ends the executor at
    once with the unknown error, which carries the status and the decoded
    body; nothing is logged and nothing is retried. *)
Theorem process_body_unknown_status
        (m p : string) (v : pyval) (rs : list Response) (r : Response)
        (j : pyval) (rest : list Response) (s : State) :
  (List.length rs < MAX_RETRIES)%nat ->
  Forall rate_limited rs ->
  status_code r <> 200 ->
  status_code r <> 429 ->
  body r = Some j ->
  unauthorized_shape (status_code r) j = false ->
  inbox s = (rs ++ r :: rest)%list ->
  let req := EHttp m p v (get_auth (bot s)) in
  process_body (client_request m p v) s
  = (Ret (Err (ErrUnknown (status_code r) j)),
     advance s rest (retry_trace req 0 rs ++ [req])).
Proof.
  intros Hlen Hrs H200 H429 Hbody Hshape Hin req.
  rewrite (process_body_reaches m p v rs r rest s Hlen Hrs Hin).
  cbn [seq map process_body_from]. unfold bind at 1.
  rewrite (client_request_cons m p v _ r rest) by reflexivity.
  unfold response_json. rewrite Hbody. unfold bind at 1, ret at 1.
  destruct (Z.eqb_spec (status_code r) 200); [contradiction |].
  destruct (Z.eqb_spec (status_code r) 429); [contradiction |].
  rewrite advance_advance. unfold unauthorized_shape in Hshape.
  destruct ((status_code r =? 401) || (status_code r =? 403));
    [| destruct j; reflexivity].
  destruct j as [| | | | | d |]; try reflexivity.
  cbn [andb] in Hshape. unfold dict_mem in Hshape.
  destruct (dict_get d "errcode"); [| reflexivity].
  destruct (dict_get d "error"); [discriminate Hshape | reflexivity].
Qed.

Lemma process_body_unknown_status_witness :
  process_body (client_request "GET" "client/v3/sync" (PDict []))
    (start fresh_bot
       [mkResponse 401 sync_url (Some (PDict [("errcode", PStr "M_X")]))])
  = (Ret (Err (ErrUnknown 401 (PDict [("errcode", PStr "M_X")]))),
     advance (start fresh_bot
                [mkResponse 401 sync_url
                            (Some (PDict [("errcode", PStr "M_X")]))])
             [] [EHttp "GET" "client/v3/sync" (PDict []) []]).
Proof.
  apply (process_body_unknown_status
           "GET" "client/v3/sync" (PDict []) []
           (mkResponse 401 sync_url (Some (PDict [("errcode", PStr "M_X")])))
           (PDict [("errcode", PStr "M_X")]) []).
  - unfold MAX_RETRIES; cbn; lia.
  - constructor.
  - discriminate.
  - discriminate.
  - reflexivity.
  - reflexivity.
  - reflexivity.
Defined.

(** X3: a 429 is only retried if its body can be read as the retry branch
    reads it.  A 429 whose body decodes to something that is no object
    raises [AttributeError]; one whose [retry_after_ms] is [null], a
    string, an array or an object raises [TypeError]; one whose
    [retry_after_ms] is an integer of magnitude [1000 * (2^1024 - 2^970)]
    or more raises [OverflowError], its quotient by 1000 being no float.
    In each case no sleep is made and no further request is sent. *)
Theorem process_body_429_unreadable_hint
        (m p : string) (v : pyval) (rs : list Response) (r : Response)
        (j : pyval) (rest : list Response) (s : State) :
  (List.length rs < MAX_RETRIES)%nat ->
  Forall rate_limited rs ->
  status_code r = 429 ->
  body r = Some j ->
  inbox s = (rs ++ r :: rest)%list ->
  let req := EHttp m p v (get_auth (bot s)) in
  (is_dict j = false ->
   process_body (client_request m p v) s
   = (Raise AttributeError, advance s rest (retry_trace req 0 rs ++ [req])))
  /\ (forall d x,
         j = PDict d ->
         dict_get d "retry_after_ms" = Some x ->
         not_a_number x = true ->
         process_body (client_request m p v) s
         = (Raise TypeError, advance s rest (retry_trace req 0 rs ++ [req])))
  /\ (forall d n,
         j = PDict d ->
         dict_get d "retry_after_ms" = Some (PInt n) ->
         1000 * FLOAT_OVERFLOW <= Z.abs n ->
         process_body (client_request m p v) s
         = (Raise OverflowError,
            advance s rest (retry_trace req 0 rs ++ [req]))).
Proof.
  intros Hlen Hrs H429 Hbody Hin req.
  split; [intros Hj | split; [intros d x Hd Hx Hnan | intros d n Hd Hx Hn]];
    rewrite (process_body_reaches m p v rs r rest s Hlen Hrs Hin);
    cbn [seq map process_body_from]; unfold bind at 1;
    rewrite (client_request_cons m p v _ r rest) by reflexivity;
    unfold response_json; rewrite Hbody; unfold bind at 1, ret at 1;
    rewrite H429; cbn [Z.eqb Pos.eqb]; rewrite advance_advance.
  - destruct j; try reflexivity. discriminate Hj.
  - subst j. unfold bind at 1. cbv iota beta. rewrite Hx.
    destruct x; try reflexivity; discriminate Hnan.
  - subst j. unfold bind at 1. cbv iota beta. rewrite Hx.
    unfold sleep_ms, int_truediv.
    destruct (Z.leb_spec (FLOAT_OVERFLOW * 1000) (Z.abs n)) as [_ | Hlt];
      [reflexivity |].
    exfalso. rewrite Z.mul_comm in Hlt. apply (Z.lt_irrefl (Z.abs n)).
    eapply Z.lt_le_trans; eassumption.
Qed.

Lemma process_body_429_unreadable_hint_witness :
  process_body (client_request "GET" "client/v3/sync" (PDict []))
    (start fresh_bot
       [limit_429 [("retry_after_ms", PNone)]; ok_200 (batch "b1")])
  = (Raise TypeError,
     advance (start fresh_bot
                [limit_429 [("retry_after_ms", PNone)]; ok_200 (batch "b1")])
             [ok_200 (batch "b1")]
             [EHttp "GET" "client/v3/sync" (PDict []) []]).
Proof.
  apply (proj1 (proj2 (process_body_429_unreadable_hint
                  "GET" "client/v3/sync" (PDict []) []
                  (limit_429 [("retry_after_ms", PNone)])
                  (PDict [("retry_after_ms", PNone)])
                  [ok_200 (batch "b1")]
                  (start fresh_bot
                     [limit_429 [("retry_after_ms", PNone)];
                      ok_200 (batch "b1")])
                  ltac:(unfold MAX_RETRIES; cbn; lia)
                  (Forall_nil _) eq_refl eq_refl eq_refl))
          [("retry_after_ms", PNone)] PNone eq_refl eq_refl eq_refl).
Defined.

(** X4: whatever the server answers, one call of the executor sends at
    most [MAX_RETRIES] requests, takes the responses from the front of
    what arrives, at most one per request, only ever adds to the trace,
    and leaves the bot (tokens, listeners) as it was. *)
Theorem process_body_at_most_max_retries
        (m p : string) (v : pyval) (s : State) :
  let r := process_body (client_request m p v) s in
  bot (snd r) = bot s
  /\ exists es used,
      trace (snd r) = (trace s ++ es)%list
      /\ inbox s = (used ++ inbox (snd r))%list
      /\ (attempts es <= MAX_RETRIES)%nat
      /\ (List.length used <= attempts es)%nat.
Proof.
  intros r.
  destruct (process_body_from_within_budget m p v (range MAX_RETRIES) None s)
    as (Hb & _ & es & used & Htr & Hin & Ha & Hl & _).
  split; [exact Hb |]. exists es, used.
  repeat split; assumption.
Qed.

(** X5: the executor never fails on its loop variable.  When its result
    is [Err] of the message "Did not manage to make request after [n]
    retries", then either it has sent exactly [MAX_RETRIES] requests and
    [n] is 6, or that string is the [errcode] of the 401 or 403 response it
    received last and handed on. *)
Theorem process_body_exhaustion_is_exact
        (m p : string) (v : pyval) (s : State) :
  let r := process_body (client_request m p v) s in
  fst r <> Raise UnboundLocalError
  /\ (forall e n,
         fst r = Ret (Err e) ->
         is_retries_message e n ->
         (n = 6
          /\ exists es, trace (snd r) = (trace s ++ es)%list
                        /\ attempts es = MAX_RETRIES)
         \/ (exists used resp,
                inbox s = (used ++ resp :: inbox (snd r))%list
                /\ carries_errcode resp (PStr (retries_message n)))).
Proof.
  intros r.
  destruct (process_body_from_within_budget m p v (range MAX_RETRIES) None s)
    as (_ & _ & es & used & Htr & _ & _ & _ & Hubl & Hret).
  split.
  - intros H. destruct (Hubl H) as [H' _]. discriminate H'.
  - intros e n H [-> | ->].
    + left. destruct (Hret n H) as [Ha Hn]. split.
      * cbn in Hn. injection Hn as Hn. lia.
      * exists es. split; [exact Htr | exact Ha].
    + right. subst r. unfold process_body in *.
      destruct (process_body_from (client_request m p v)
                  (range MAX_RETRIES) None s) as [o s'] eqn:E.
      cbn [fst snd] in *. subst o.
      exact (process_body_from_errcode m p v _ _ _ _ _ E).
Qed.

(** ** The token store *)

Lemma str_truthy_nonempty (a : string) :
  a <> "" -> str_truthy (Some a) = true.
Proof.
  intros Ha. cbn. destruct (String.eqb_spec a ""); [contradiction | reflexivity].
Qed.

Lemma get_expiry_overflow (now ms : Z) (r : option string) (a : string) :
  a <> "" ->
  ms <> 0 ->
  ~ (0 <= now + ms * 1000 < DATETIME_END) ->
  get_expiry now (mkTokenResponse r (Some a) (Some ms)) = Raise OverflowError.
Proof.
  intros Ha Hms Hrange. unfold get_expiry.
  cbn [tr_access_token tr_expires_in_ms int_truthy].
  rewrite (str_truthy_nonempty a Ha).
  destruct (Z.eqb_spec ms 0); [contradiction |]. cbn [negb andb].
  unfold timedelta_ms.
  destruct ((- MAX_DELTA_DAYS <=? ms * 1000 / US_PER_DAY)
            && (ms * 1000 / US_PER_DAY <=? MAX_DELTA_DAYS)); [| reflexivity].
  unfold datetime_add.
  destruct (Z.leb_spec 0 (now + ms * 1000));
    destruct (Z.ltb_spec (now + ms * 1000) DATETIME_END);
    cbn [andb]; try reflexivity.
  exfalso. apply Hrange. split; assumption.
Qed.

(** X6: applying a token result never takes a stored token away and never
    stores an empty one.  Whatever the result and however the call ends,
    the authorization header afterwards is the one before or [Bearer a]
    for a non-empty access token [a] of the result, the refresh token is
    the one before or a non-empty refresh token of the result, and user id
    and listeners are as before. *)
Theorem save_tokens_never_clears
        (now : Z) (tokens : TokenResponse) (self : MatrixBot) :
  let self' := snd (_save_tokens now tokens self) in
  (get_auth self' = get_auth self
   \/ exists a, a <> "" /\ tr_access_token tokens = Some a
                /\ get_auth self' = [("Authorization", "Bearer " ++ a)])
  /\ (refresh_token self' = refresh_token self
      \/ exists r, r <> "" /\ tr_refresh_token tokens = Some r
                   /\ refresh_token self' = Some r)
  /\ user_id self' = user_id self
  /\ listeners self' = listeners self.
Proof.
  intros self'. subst self'. unfold _save_tokens.
  destruct tokens as [rt at_ ems].
  cbn [tr_access_token tr_refresh_token tr_expires_in_ms].
  assert (Hr : forall b : MatrixBot,
             refresh_token
               (if str_truthy rt then set_refresh_token rt b else b)
             = refresh_token b
             \/ exists r, r <> "" /\ rt = Some r
                          /\ refresh_token
                               (if str_truthy rt then set_refresh_token rt b
                                else b) = Some r).
  { intros b. destruct rt as [r |]; cbn; [| left; reflexivity].
    destruct (String.eqb_spec r ""); cbn; [left; reflexivity |].
    right. exists r. repeat split. assumption. }
  assert (Hkeep : forall b : MatrixBot,
             access_token (if str_truthy rt then set_refresh_token rt b else b)
             = access_token b
             /\ user_id (if str_truthy rt then set_refresh_token rt b else b)
                = user_id b
             /\ listeners (if str_truthy rt then set_refresh_token rt b else b)
                = listeners b).
  { intros b. destruct (str_truthy rt); repeat split. }
  destruct at_ as [a |]; cbn [str_truthy].
  2:{ cbn [snd]. destruct (Hkeep self) as (Ha & Hu & Hl).
      split; [left; unfold get_auth; rewrite Ha; reflexivity |].
      split; [apply Hr |]. split; assumption. }
  destruct (String.eqb_spec a ""); cbn [negb].
  { cbn [snd]. destruct (Hkeep self) as (Ha & Hu & Hl).
    split; [left; unfold get_auth; rewrite Ha; reflexivity |].
    split; [apply Hr |]. split; assumption. }
  assert (Hauth : forall b : MatrixBot,
             access_token b = Some a ->
             get_auth b = [("Authorization", "Bearer " ++ a)]).
  { intros b Hb. unfold get_auth. rewrite Hb.
    destruct (String.eqb_spec a ""); [contradiction | reflexivity]. }
  destruct (get_expiry now _) as [[d |] | e]; cbn [snd].
  - destruct (Hkeep (set_access_token_expire d (set_access_token (Some a) self)))
      as (Ha & Hu & Hl).
    split; [right; exists a; repeat split; try assumption;
            apply Hauth; rewrite Ha; reflexivity |].
    split; [apply (Hr (set_access_token_expire d (set_access_token (Some a) self))) |].
    split; assumption.
  - destruct (Hkeep (set_access_token (Some a) self)) as (Ha & Hu & Hl).
    split; [right; exists a; repeat split; try assumption;
            apply Hauth; rewrite Ha; reflexivity |].
    split; [apply (Hr (set_access_token (Some a) self)) |].
    split; assumption.
  - split; [right; exists a; repeat split; try assumption;
            apply Hauth; reflexivity |].
    split; [left; reflexivity |]. split; reflexivity.
Qed.

(** X7: for a non-empty access token and a clock reading and an expiry
    that are both datetimes, a lifetime other than 0 sets the expiry to the
    clock reading plus that many milliseconds (a negative lifetime gives an
    expiry in the past); the lifetime 0 counts as absent
    and leaves the previous expiry in place although the access token is
    replaced. *)
Theorem save_tokens_expiry
        (now ms : Z) (a : string) (self : MatrixBot) :
  a <> "" ->
  0 <= now < DATETIME_END ->
  0 <= now + ms * 1000 < DATETIME_END ->
  let r := _save_tokens now (mkTokenResponse None (Some a) (Some ms)) self in
  fst r = Ret tt
  /\ access_token (snd r) = Some a
  /\ access_token_expire (snd r)
     = if ms =? 0 then access_token_expire self else now + ms * 1000.
Proof.
  intros Ha Hnow Hrange r. subst r. unfold _save_tokens, get_expiry.
  cbn [tr_access_token tr_refresh_token tr_expires_in_ms int_truthy].
  rewrite (str_truthy_nonempty a Ha). cbn [str_truthy andb].
  destruct (Z.eqb_spec ms 0); cbn [negb].
  - repeat split.
  - unfold timedelta_ms.
    assert (Hd : (- MAX_DELTA_DAYS <=? ms * 1000 / US_PER_DAY)
                 && (ms * 1000 / US_PER_DAY <=? MAX_DELTA_DAYS) = true).
    { unfold DATETIME_END, MAX_DELTA_DAYS, US_PER_DAY in *.
      apply andb_true_intro. split; apply Z.leb_le.
      - apply Z.div_le_lower_bound; lia.
      - apply Z.div_le_upper_bound; lia. }
    rewrite Hd. rewrite datetime_add_in_range by assumption.
    repeat split.
Qed.

Lemma save_tokens_expiry_witness :
  let r := _save_tokens 63800000000000000
             (mkTokenResponse None (Some "T") (Some (-5000))) fresh_bot in
  fst r = Ret tt
  /\ access_token (snd r) = Some "T"
  /\ access_token_expire (snd r)
     = if -5000 =? 0 then access_token_expire fresh_bot
       else 63800000000000000 + -5000 * 1000.
Proof.
  apply (save_tokens_expiry 63800000000000000 (-5000) "T" fresh_bot).
  - discriminate.
  - unfold DATETIME_END, US_PER_DAY. lia.
  - unfold DATETIME_END, US_PER_DAY. lia.
Defined.

(** X8: when the expiry cannot be represented (the sum leaves the range of
    [datetime]), [_save_tokens] raises [OverflowError] after it has stored
    the access token: the new token is kept with the old expiry, and a
    refresh token carried by the same result is not stored. *)
Theorem save_tokens_overflow_keeps_half
        (now ms : Z) (a : string) (r : option string) (self : MatrixBot) :
  a <> "" ->
  ms <> 0 ->
  ~ (0 <= now + ms * 1000 < DATETIME_END) ->
  _save_tokens now (mkTokenResponse r (Some a) (Some ms)) self
  = (Raise OverflowError, set_access_token (Some a) self)
  /\ access_token_expire (set_access_token (Some a) self)
     = access_token_expire self
  /\ refresh_token (set_access_token (Some a) self) = refresh_token self.
Proof.
  intros Ha Hms Hrange. split; [| split; reflexivity].
  unfold _save_tokens. cbn [tr_access_token].
  rewrite (str_truthy_nonempty a Ha).
  rewrite (get_expiry_overflow now ms r a Ha Hms Hrange). reflexivity.
Qed.

Lemma save_tokens_overflow_keeps_half_witness :
  _save_tokens 63800000000000000
    (mkTokenResponse (Some "R") (Some "T") (Some 1000000000000000000))
    fresh_bot
  = (Raise OverflowError, set_access_token (Some "T") fresh_bot)
  /\ access_token_expire (set_access_token (Some "T") fresh_bot)
     = access_token_expire fresh_bot
  /\ refresh_token (set_access_token (Some "T") fresh_bot)
     = refresh_token fresh_bot.
Proof.
  apply (save_tokens_overflow_keeps_half
           63800000000000000 1000000000000000000 "T" (Some "R") fresh_bot).
  - discriminate.
  - discriminate.
  - unfold DATETIME_END, US_PER_DAY. lia.
Defined.

(** ** Refresh-token login *)

Lemma post_keeps_bot (path : string) (j : pyval) (s : State) :
  bot (snd (_POST path j s)) = bot s.
Proof.
  unfold _POST, process_body.
  destruct (process_body_from_within_budget
              "POST" path j (range MAX_RETRIES) None s) as (Hb & _).
  exact Hb.
Qed.

(** X9: [login_token] answers [False] exactly when the executor returns an
    error for the refresh request, and then the bot (access token, expiry,
    refresh token) is what it was before the call. *)
Theorem login_token_refused (now : Z) (refresh : string) (s : State) :
  let post := _POST "client/v3/refresh"
                    (PDict [("refresh_token", PStr refresh)]) s in
  (fst (login_token now refresh s) = Ret (Some false)
   <-> exists e, fst post = Ret (Err e))
  /\ (forall e, fst post = Ret (Err e) ->
                login_token now refresh s = (Ret (Some false), snd post)
                /\ bot (snd post) = bot s).
Proof.
  intros post. subst post.
  pose proof (post_keeps_bot "client/v3/refresh"
                (PDict [("refresh_token", PStr refresh)]) s) as Hbot.
  unfold login_token, bind at 1.
  destruct (_POST "client/v3/refresh"
              (PDict [("refresh_token", PStr refresh)]) s)
    as [[[v | e] | x] s1] eqn:Hpost; cbn [fst snd] in *.
  - split.
    + split; [| intros [e [=]]].
      intros H. exfalso.
      destruct v as [| | | | | d |]; try discriminate H.
      destruct (TokenResponse_from_dict d) as [t |]; [| discriminate H].
      unfold bind, get_bot, set_bot, lift, ret in H.
      destruct (fst (_save_tokens now t (bot s1))); discriminate H.
    + intros e [=].
  - split.
    + split; [intros _; exists e; reflexivity | reflexivity].
    + intros e' [= <-]. split; [| exact Hbot].
      unfold bind at 1. rewrite Hpost. reflexivity.
  - split.
    + split; [intros [=] | intros [e [=]]].
    + intros e [=].
Qed.

(** With a lifetime that fits, [_save_tokens] returns. *)
Lemma save_tokens_returns (now : Z) (tokens : TokenResponse)
      (self : MatrixBot) :
  0 <= now < DATETIME_END ->
  lifetime_fits now tokens ->
  fst (_save_tokens now tokens self) = Ret tt.
Proof.
  intros Hnow Hfit. unfold _save_tokens, get_expiry, lifetime_fits in *.
  destruct (str_truthy (tr_access_token tokens)); [| reflexivity].
  cbn [andb].
  destruct (tr_expires_in_ms tokens) as [ms |]; cbn [int_truthy];
    [| reflexivity].
  destruct (Z.eqb_spec ms 0); cbn [negb]; [reflexivity |].
  destruct Hfit as [H0 | Hrange]; [contradiction |].
  unfold timedelta_ms.
  assert (Hd : (- MAX_DELTA_DAYS <=? ms * 1000 / US_PER_DAY)
               && (ms * 1000 / US_PER_DAY <=? MAX_DELTA_DAYS) = true).
  { unfold DATETIME_END, MAX_DELTA_DAYS, US_PER_DAY in *.
    apply andb_true_intro. split; apply Z.leb_le.
    - apply Z.div_le_lower_bound; lia.
    - apply Z.div_le_upper_bound; lia. }
  rewrite Hd. rewrite datetime_add_in_range by assumption. reflexivity.
Qed.

(** X10: after a refresh answered at once by a 200 that carries a
    non-empty access token [a] (token values of the annotated types) and
    a lifetime that is absent, 0, or leaves the clock reading plus the
    lifetime within the years 1 to 9999, [login_token] answers [True] and
    the next request of the client goes out with the header
    [Authorization: Bearer a]; the refresh request itself is a POST of
    [{"refresh_token": refresh}] to [client/v3/refresh] under the header
    of the token held before. *)
Theorem login_token_then_request_uses_new_token
        (now : Z) (refresh a : string) (d : pydict) (tokens : TokenResponse)
        (r1 r2 : Response) (rest : list Response) (path : string)
        (params : pyval) (s : State) :
  inbox s = r1 :: r2 :: rest ->
  status_code r1 = 200 ->
  body r1 = Some (PDict d) ->
  TokenResponse_from_dict d = Some tokens ->
  tr_access_token tokens = Some a ->
  a <> "" ->
  0 <= now < DATETIME_END ->
  lifetime_fits now tokens ->
  exists s1 s2,
    login_token now refresh s = (Ret (Some true), s1)
    /\ bot s1 = snd (_save_tokens now tokens (bot s))
    /\ client_request "GET" path params s1 = (Ret r2, s2)
    /\ trace s2
       = (trace s
          ++ [EHttp "POST" "client/v3/refresh"
                    (PDict [("refresh_token", PStr refresh)])
                    (get_auth (bot s));
              EHttp "GET" path params
                    [("Authorization", ("Bearer " ++ a)%string)]])%list.
Proof.
  intros Hin H200 Hbody Htok Ha Hne Hnow Hfit.
  pose proof (save_tokens_returns now tokens (bot s) Hnow Hfit) as Hsave.
  unfold login_token, _POST, bind at 1.
  rewrite (process_body_first_200
             "POST" "client/v3/refresh"
             (PDict [("refresh_token", PStr refresh)]) r1 (PDict d)
             (r2 :: rest) s Hin H200 Hbody).
  rewrite Htok. unfold bind, get_bot, set_bot, lift, ret.
  cbn [bot inbox utcoffset trace advance]. rewrite Hsave.
  eexists. eexists. split; [reflexivity |].
  split; [reflexivity |].
  unfold client_request. cbn [bot inbox utcoffset trace tl].
  split; [reflexivity |]. rewrite <- app_assoc. cbn [app].
  repeat f_equal.
  assert (Hacc : access_token (snd (_save_tokens now tokens (bot s))) = Some a).
  { destruct (_save_tokens now tokens (bot s)) as [o b'] eqn:E.
    destruct (save_tokens_frame now tokens (bot s) b' o E)
      as (_ & _ & _ & Hsa & _).
    exact (Hsa a Ha Hne). }
  unfold get_auth. rewrite Hacc.
  destruct (String.eqb_spec a ""); [contradiction | reflexivity].
Qed.

Lemma login_token_then_request_uses_new_token_witness :
  exists s1 s2,
    login_token 63800000000000000 "R0"
      (start fresh_bot
         [ok_200 (PDict [("access_token", PStr "T1");
                         ("refresh_token", PStr "R1");
                         ("expires_in_ms", PInt 60000)]);
          ok_200 (batch "b1")])
    = (Ret (Some true), s1)
    /\ bot s1
       = snd (_save_tokens 63800000000000000
                (mkTokenResponse (Some "R1") (Some "T1") (Some 60000))
                (bot (start fresh_bot
                        [ok_200 (PDict [("access_token", PStr "T1");
                                        ("refresh_token", PStr "R1");
                                        ("expires_in_ms", PInt 60000)]);
                         ok_200 (batch "b1")])))
    /\ client_request "GET" "client/v3/sync" (PDict []) s1
       = (Ret (ok_200 (batch "b1")), s2)
    /\ trace s2
       = ([] ++ [EHttp "POST" "client/v3/refresh"
                       (PDict [("refresh_token", PStr "R0")]) [];
                 EHttp "GET" "client/v3/sync" (PDict [])
                       [("Authorization", ("Bearer " ++ "T1")%string)]])%list.
Proof.
  apply (login_token_then_request_uses_new_token
           63800000000000000 "R0" "T1"
           [("access_token", PStr "T1"); ("refresh_token", PStr "R1");
            ("expires_in_ms", PInt 60000)]
           (mkTokenResponse (Some "R1") (Some "T1") (Some 60000))
           (ok_200 (PDict [("access_token", PStr "T1");
                           ("refresh_token", PStr "R1");
                           ("expires_in_ms", PInt 60000)]))
           (ok_200 (batch "b1")) [] "client/v3/sync" (PDict [])
           (start fresh_bot
              [ok_200 (PDict [("access_token", PStr "T1");
                              ("refresh_token", PStr "R1");
                              ("expires_in_ms", PInt 60000)]);
               ok_200 (batch "b1")])).
  - reflexivity.
  - reflexivity.
  - reflexivity.
  - reflexivity.
  - reflexivity.
  - discriminate.
  - unfold DATETIME_END, US_PER_DAY. lia.
  - right. unfold DATETIME_END, US_PER_DAY. lia.
Defined.

(** ** Dicts, registry and dispatch *)

Lemma dict_get_set (d : pydict) (k k' : string) (v : pyval) :
  dict_get (dict_set d k v) k'
  = if (k =? k')%string then Some v else dict_get d k'.
Proof.
  induction d as [| [k0 v0] d IH]; cbn.
  - reflexivity.
  - destruct (String.eqb_spec k0 k) as [-> | Hne]; cbn.
    + destruct (k =? k')%string; reflexivity.
    + rewrite IH. destruct (String.eqb_spec k0 k') as [-> | Hne'].
      * destruct (String.eqb_spec k k'); [congruence | reflexivity].
      * reflexivity.
Qed.

Lemma dict_get_restrict (keys : list string) (d : pydict) (k : string) :
  dict_get (dict_restrict keys d) k
  = if existsb (String.eqb k) keys then dict_get d k else None.
Proof.
  unfold dict_restrict.
  induction d as [| [k0 v0] d IH]; cbn.
  - destruct (existsb _ keys); reflexivity.
  - destruct (existsb (String.eqb k0) keys) eqn:E0; cbn; rewrite IH.
    + destruct (String.eqb_spec k0 k) as [-> | Hne]; [rewrite E0 |]; reflexivity.
    + destruct (String.eqb_spec k0 k) as [-> | Hne]; [rewrite E0 |]; reflexivity.
Qed.

Lemma dict_get_without (keys : list string) (d : pydict) (k : string) :
  dict_get (dict_without keys d) k
  = if existsb (String.eqb k) keys then None else dict_get d k.
Proof.
  unfold dict_without.
  induction d as [| [k0 v0] d IH]; cbn.
  - destruct (existsb _ keys); reflexivity.
  - destruct (existsb (String.eqb k0) keys) eqn:E0; cbn; rewrite IH.
    + destruct (String.eqb_spec k0 k) as [-> | Hne]; [rewrite E0 |]; reflexivity.
    + destruct (String.eqb_spec k0 k) as [-> | Hne]; [rewrite E0 |]; reflexivity.
Qed.

Lemma registry_get_append_other (r : registry) (k k' : string) (f : Listener) :
  k <> k' ->
  registry_get (registry_append r k f) k' = registry_get r k'.
Proof.
  intros Hne. induction r as [| [k0 fs] r IH]; cbn.
  - destruct (String.eqb_spec k k'); [contradiction | reflexivity].
  - destruct (String.eqb_spec k0 k) as [-> | Hk]; cbn.
    + destruct (String.eqb_spec k k'); [contradiction | reflexivity].
    + rewrite IH. reflexivity.
Qed.

(** X11: registration appends.  After [register k f] the listeners of
    [k] are those registered before followed by [f] (nothing is replaced
    or deduplicated, a key without listeners is created), the listeners
    of every other key are as before, the tokens and the user id are
    untouched, and the listener is returned as it was given. *)
Theorem register_appends (k : string) (f : Listener) (self : MatrixBot) :
  let self' := snd (register k f self) in
  fst (register k f self) = f
  /\ registry_get (listeners self') k
     = Some (match registry_get (listeners self) k with
             | Some fs => fs ++ [f]
             | None => [f]
             end)%list
  /\ (forall k', k <> k' ->
                 registry_get (listeners self') k'
                 = registry_get (listeners self) k')
  /\ get_auth self' = get_auth self
  /\ access_token_expire self' = access_token_expire self
  /\ refresh_token self' = refresh_token self
  /\ user_id self' = user_id self.
Proof.
  cbn. split; [reflexivity |].
  split; [apply registry_get_append_same |].
  split; [intros k' Hne; apply registry_get_append_other; exact Hne |].
  repeat split.
Qed.

Lemma rest_of_get (rid : string) (d : pydict) (k : string) :
  dict_get (rest_of rid d) k
  = if ("room_id" =? k)%string then Some (PStr rid)
    else if existsb (String.eqb k) ["type"; "content"] then None
         else dict_get d k.
Proof.
  unfold rest_of. rewrite dict_get_set, dict_get_without. reflexivity.
Qed.

(** What [EventMetadata.from_dict] returns for a dict with [room_id] and
    [sender], and what it leaves in the dict. *)
Lemma from_dict_spec (dict : pydict) (s : State) (r sd ts : pyval) :
  dict_get dict "room_id" = Some r ->
  dict_get dict "sender" = Some sd ->
  converts_to (utcoffset s) (dict_get dict "origin_server_ts") ts ->
  EventMetadata_from_dict dict s
  = (Ret ({| room_id := r; sender := sd;
             event_id := or_default (dict_get dict "event_id") PNone;
             origin_server_ts := ts;
             unsigned := or_default (dict_get dict "unsigned") (PDict []) |},
          match dict_get dict "origin_server_ts" with
          | Some _ => dict_set dict "origin_server_ts" ts
          | None => dict
          end),
     printed s (MsgEvtMeta dict)).
Proof.
  intros Hr Hs Hts. unfold EventMetadata_from_dict, converts_to in *.
  unfold bind at 1, emit at 1. unfold bind at 1.
  destruct (dict_get dict "origin_server_ts") as [v |] eqn:Ev.
  - cbn [utcoffset]. rewrite Hts. unfold bind, lift, ret.
    unfold EventMetadata_new.
    rewrite !dict_get_restrict, !dict_get_set.
    cbn [EVENT_KEYS existsb String.eqb Ascii.eqb Bool.eqb orb].
    rewrite Hr, Hs. reflexivity.
  - subst ts. unfold ret at 1. unfold bind, lift, ret.
    unfold EventMetadata_new. rewrite !dict_get_restrict.
    cbn [EVENT_KEYS existsb String.eqb Ascii.eqb Bool.eqb orb].
    rewrite Hr, Hs, Ev. reflexivity.
Qed.

(** X12: for every envelope of a joined room that is an object with a
    string [type], a [content] that can be copied and a [sender], whose
    [origin_server_ts] is absent or converts (to the datetime
    [datetime.fromtimestamp] makes of its quotient by 1000, a float), and
    for a bot with exactly
    one listener [f] for that type: the listener is invoked exactly once,
    with the content and with a metadata tuple whose [room_id] is the id
    of the room being processed (also when the envelope has a [room_id]
    of its own), whose [sender], [event_id] and [unsigned] are the
    envelope's (defaults [None] and [{}]), and no other key of the
    envelope reaches it.  [is_not_from_this_bot] on that tuple is false
    exactly when the envelope's sender is the bot's user id. *)
Theorem parse_room_join_delivers
        (rid k : string) (d : pydict) (c sd ts : pyval) (f : Listener)
        (s : State) :
  dict_get d "type" = Some (PStr k) ->
  dict_get d "content" = Some c ->
  copyable c = true ->
  dict_get d "sender" = Some sd ->
  converts_to (utcoffset s) (dict_get d "origin_server_ts") ts ->
  registry_get (listeners (bot s)) k = Some [f] ->
  let metadata := metadata_of rid d ts in
  exists s',
    parse_room_join rid (timeline_of [PDict d]) s
    = (match l_run f c metadata with
       | None => Ret tt
       | Some e => Raise e
       end, s')
    /\ (exists es, trace s' = (trace s ++ es)%list
                   /\ calls es = [(l_name f, c, metadata)])
    /\ (is_not_from_this_bot (bot s) metadata = false
        <-> sd = PStr (user_id (bot s))).
Proof.
  intros Htype Hcontent Hcopy Hsender Hts Hreg metadata.
  assert (Hfrom : EventMetadata_from_dict (rest_of rid d) s
                  = (Ret (metadata,
                          match dict_get (rest_of rid d) "origin_server_ts" with
                          | Some _ => dict_set (rest_of rid d)
                                               "origin_server_ts" ts
                          | None => rest_of rid d
                          end),
                     printed s (MsgEvtMeta (rest_of rid d)))).
  { rewrite (from_dict_spec (rest_of rid d) s (PStr rid) sd ts).
    - rewrite !rest_of_get.
      cbn [existsb String.eqb Ascii.eqb Bool.eqb orb].
      unfold metadata, metadata_of. rewrite Hsender. reflexivity.
    - rewrite rest_of_get. reflexivity.
    - rewrite rest_of_get. cbn [existsb String.eqb Ascii.eqb Bool.eqb orb].
      exact Hsender.
    - rewrite rest_of_get. cbn [existsb String.eqb Ascii.eqb Bool.eqb orb].
      exact Hts. }
  assert (Hc : py_copy c = ret c).
  { destruct c; try discriminate Hcopy; reflexivity. }
  unfold parse_room_join, timeline_of.
  cbn [events_under dict_get String.eqb Ascii.eqb Bool.eqb for_each].
  unfold join_event. rewrite Htype, Hcontent.
  fold (rest_of rid d).
  unfold bind at 1 2 3. unfold get_bot, lift. cbn [registry_contains].
  rewrite Hreg. cbn [call_listeners]. rewrite Hc.
  unfold bind at 1 2. unfold ret at 1. rewrite Hfrom.
  cbn [fst snd]. unfold invoke, bind, emit, printed, advance, ret, raise.
  cbn [bot inbox utcoffset trace].
  destruct (l_run f c metadata) as [e |];
    (eexists; split; [reflexivity |]); cbn [trace];
    rewrite <- app_assoc;
    (split; [eexists; split; [reflexivity | reflexivity] |]).
  all: unfold is_not_from_this_bot, metadata, metadata_of; cbn [sender];
    rewrite Hsender; cbn [or_default];
    destruct sd as [| | | x | | |]; cbn [is_str negb];
    try (split; [discriminate | intros [=]]).
  all: rewrite Bool.negb_false_iff, String.eqb_eq;
    (split; [intros ->; reflexivity | intros [= ->]; reflexivity]).
Qed.

(** The envelope of the example below carries the timestamp
    9999999999999: the quotient 9999999999.999 is no double, the nearest
    one lies above it, and its fraction rounds to 999001 microseconds
    (2286-11-20T17:46:39.999001 in UTC). *)
Lemma parse_room_join_delivers_witness :
  let d := [("type", PStr "m.room.message");
            ("content", hi_content);
            ("room_id", PStr "!other:h.example");
            ("sender", PStr "@bot:h.example");
            ("origin_server_ts", PInt 9999999999999);
            ("age", PInt 5)] in
  let s := start (snd (on_message (quiet "recv_msg") fresh_bot)) [] in
  let metadata :=
    metadata_of "!room:h.example" d (PDatetime 72135596799999001) in
  exists s',
    parse_room_join "!room:h.example" (timeline_of [PDict d]) s
    = (match l_run (quiet "recv_msg") hi_content metadata with
       | None => Ret tt
       | Some e => Raise e
       end, s')
    /\ (exists es, trace s' = (trace s ++ es)%list
                   /\ calls es = [(l_name (quiet "recv_msg"), hi_content,
                                   metadata)])
    /\ (is_not_from_this_bot (bot s) metadata = false
        <-> PStr "@bot:h.example" = PStr (user_id (bot s))).
Proof.
  apply (parse_room_join_delivers
           "!room:h.example" "m.room.message"
           [("type", PStr "m.room.message");
            ("content", hi_content);
            ("room_id", PStr "!other:h.example");
            ("sender", PStr "@bot:h.example");
            ("origin_server_ts", PInt 9999999999999);
            ("age", PInt 5)]
           hi_content (PStr "@bot:h.example")
           (PDatetime 72135596799999001) (quiet "recv_msg")
           (start (snd (on_message (quiet "recv_msg") fresh_bot)) [])).
  - reflexivity.
  - reflexivity.
  - reflexivity.
  - reflexivity.
  - vm_compute. reflexivity.
  - reflexivity.
Defined.





Lemma join_event_skipped (rid : string) (event : pyval) (e : Effect)
      (s : State) :
  skipped (listeners (bot s)) event e ->
  join_event rid event s = (Ret tt, advance s (inbox s) [e]).
Proof.
  intros H. destruct H as [event Hd | d Ht | d Hc | d t c Ht Hc Hu].
  - apply join_event_wrong_shape_skipped.
    destruct event; try exact I. discriminate Hd.
  - apply join_event_wrong_shape_skipped. cbn. rewrite Ht. exact I.
  - apply join_event_wrong_shape_skipped. cbn. rewrite Hc.
    destruct (dict_get d "type"); exact I.
  - unfold join_event. rewrite Ht, Hc.
    unfold bind at 1 2. unfold get_bot, lift.
    destruct t as [| b | n | k | l | d' | x]; cbn in Hu; try contradiction;
      cbn [registry_contains]; try reflexivity.
    rewrite Hu. reflexivity.
Qed.

(** X14: a timeline in which every envelope is either no object with
    [type] and [content], or has a type nobody listens to, is processed to
    its end without an exception and without invoking any listener; each
    envelope leaves one record, in timeline order: a warning for the
    first kind, an info line for the second.  Nothing else of the state
    changes. *)
Theorem parse_room_join_skips
        (rid : string) (events : list pyval) (log : list Effect) (s : State) :
  Forall2 (skipped (listeners (bot s))) events log ->
  parse_room_join rid (timeline_of events) s
  = (Ret tt, advance s (inbox s) log)
  /\ calls log = [].
Proof.
  intros H. unfold parse_room_join, timeline_of.
  cbn [events_under dict_get String.eqb Ascii.eqb Bool.eqb].
  revert log s H. induction events as [| ev events IH]; intros log s H.
  - inversion H; subst. split; [| reflexivity].
    cbn. unfold ret, advance. rewrite app_nil_r. destruct s; reflexivity.
  - inversion H as [| ? e ? log' Hev Hrest]; subst.
    cbn [for_each]. unfold bind at 1.
    rewrite (join_event_skipped rid ev e s Hev).
    destruct (IH log' (advance s (inbox s) [e])) as [Hrun Hcalls].
    { exact Hrest. }
    rewrite Hrun. split.
    + cbn [inbox advance]. rewrite advance_advance. reflexivity.
    + destruct Hev; exact Hcalls.
Qed.

Lemma parse_room_join_skips_witness :
  parse_room_join "!room:h.example"
    (timeline_of [PStr "junk";
                  PDict [("type", PStr "m.typing"); ("content", PDict [])];
                  PDict [("type", PStr "m.room.message")]])
    (start (snd (on_message (quiet "recv_msg") fresh_bot)) [])
  = (Ret tt,
     advance (start (snd (on_message (quiet "recv_msg") fresh_bot)) []) []
       [EWarning (MsgSkipUnknown (PStr "junk"));
        EInfo (MsgSkipNoListeners (PStr "m.typing"));
        EWarning (MsgSkipUnknown (PDict [("type", PStr "m.room.message")]))])
  /\ calls
       [EWarning (MsgSkipUnknown (PStr "junk"));
        EInfo (MsgSkipNoListeners (PStr "m.typing"));
        EWarning (MsgSkipUnknown (PDict [("type", PStr "m.room.message")]))]
     = [].
Proof.
  apply (parse_room_join_skips
           "!room:h.example"
           [PStr "junk";
            PDict [("type", PStr "m.typing"); ("content", PDict [])];
            PDict [("type", PStr "m.room.message")]]
           [EWarning (MsgSkipUnknown (PStr "junk"));
            EInfo (MsgSkipNoListeners (PStr "m.typing"));
            EWarning (MsgSkipUnknown (PDict [("type", PStr "m.room.message")]))]
           (start (snd (on_message (quiet "recv_msg") fresh_bot)) [])).
  constructor.
  - apply Skipped_no_object. reflexivity.
  - constructor.
    + apply (Skipped_unheard _ _ (PStr "m.typing") (PDict []));
        reflexivity.
    + constructor.
      * apply Skipped_no_content. reflexivity.
      * constructor.
Defined.

(** X15: an envelope whose [type] is a JSON array or object, with a
    [content], makes [parse_room_join] raise [TypeError] at the lookup in
    the registry (such a value does not hash), whether or not any listener
    is registered; nothing is logged and the envelopes behind it are not
    processed. *)
Theorem parse_room_join_unhashable_type
        (rid : string) (d : pydict) (t c : pyval) (more : list pyval)
        (s : State) :
  dict_get d "type" = Some t ->
  dict_get d "content" = Some c ->
  (exists l, t = PList l) \/ (exists d', t = PDict d') ->
  parse_room_join rid (timeline_of (PDict d :: more)) s = (Raise TypeError, s).
Proof.
  intros Ht Hc Hshape. unfold parse_room_join, timeline_of.
  cbn [events_under dict_get String.eqb Ascii.eqb Bool.eqb for_each].
  unfold bind at 1. unfold join_event. rewrite Ht, Hc.
  unfold bind at 1 2. unfold get_bot, lift.
  destruct Hshape as [[l ->] | [d' ->]]; reflexivity.
Qed.

Lemma parse_room_join_unhashable_type_witness :
  parse_room_join "!room:h.example"
    (timeline_of [PDict [("type", PList []); ("content", PDict [])];
                  hi_envelope])
    (start fresh_bot [])
  = (Raise TypeError, start fresh_bot []).
Proof.
  apply (parse_room_join_unhashable_type
           "!room:h.example" [("type", PList []); ("content", PDict [])]
           (PList []) (PDict []) [hi_envelope] (start fresh_bot [])).
  - reflexivity.
  - reflexivity.
  - left. exists []. reflexivity.
Defined.

(** ** What dispatch leaves alone *)

Lemma dispatch_only_refl (s : State) : dispatch_only s s.
Proof.
  unfold dispatch_only. repeat split; try reflexivity.
  exists []. rewrite app_nil_r. split; reflexivity.
Qed.

Lemma dispatch_only_trans (s1 s2 s3 : State) :
  dispatch_only s1 s2 -> dispatch_only s2 s3 -> dispatch_only s1 s3.
Proof.
  intros (Hi & Hu & Ha & He & Hr & Hid & Hl & es & Ht & Hes)
         (Hi' & Hu' & Ha' & He' & Hr' & Hid' & Hl' & es' & Ht' & Hes').
  unfold dispatch_only.
  repeat split; try congruence.
  - intros k Hk. rewrite (Hl' k Hk). apply Hl. exact Hk.
  - exists (es ++ es')%list. split.
    + rewrite Ht', Ht, app_assoc. reflexivity.
    + rewrite forallb_app, Hes, Hes'. reflexivity.
Qed.

Lemma frames_ret {A} (a : A) : frames (ret a).
Proof. intros s. apply dispatch_only_refl. Qed.

Lemma frames_raise {A} (e : exn) : frames (@raise A e).
Proof. intros s. apply dispatch_only_refl. Qed.

Lemma frames_lift {A} (o : Outcome A) : frames (lift o).
Proof. intros s. apply dispatch_only_refl. Qed.

Lemma frames_bind {A B} (m : M A) (k : A -> M B) :
  frames m -> (forall a, frames (k a)) -> frames (bind m k).
Proof.
  intros Hm Hk s. unfold bind. specialize (Hm s).
  destruct (m s) as [[a | e] s1]; cbn [snd] in *.
  - eapply dispatch_only_trans; [exact Hm | apply Hk].
  - exact Hm.
Qed.

Lemma frames_emit (e : Effect) : local_effect e = true -> frames (emit e).
Proof.
  intros He s. unfold emit, dispatch_only. cbn.
  repeat split; try reflexivity.
  exists [e]. split; [reflexivity |]. cbn. rewrite He. reflexivity.
Qed.

Lemma frames_for_each {A} (body : A -> M unit) (l : list A) :
  (forall x, frames (body x)) -> frames (for_each body l).
Proof.
  intros Hb. induction l as [| x l IH]; cbn [for_each].
  - apply frames_ret.
  - apply frames_bind; [apply Hb | intros _; exact IH].
Qed.

Lemma frames_from_dict (dict : pydict) : frames (EventMetadata_from_dict dict).
Proof.
  unfold EventMetadata_from_dict.
  apply frames_bind; [apply frames_emit; reflexivity | intros _].
  apply frames_bind.
  - destruct (dict_get dict "origin_server_ts") as [v |]; [| apply frames_ret].
    intros s. destruct (ts_to_datetime (utcoffset s) v);
      apply dispatch_only_refl.
  - intros d'. apply frames_bind; [apply frames_lift | intros md].
    apply frames_ret.
Qed.

Lemma frames_call_listeners (fs : list Listener) (c : pyval) :
  forall rest, frames (call_listeners fs c rest).
Proof.
  induction fs as [| f fs IH]; intros rest; cbn [call_listeners].
  - apply frames_ret.
  - apply frames_bind.
    + unfold py_copy. destruct c; first [apply frames_ret | apply frames_raise].
    + intros c'. apply frames_bind; [apply frames_from_dict | intros mr].
      apply frames_bind; [| intros _; apply IH].
      unfold invoke.
      apply frames_bind; [apply frames_emit; reflexivity | intros _].
      destruct (l_run f c' (fst mr)); [apply frames_raise | apply frames_ret].
Qed.

Lemma frames_join_event (rid : string) (event : pyval) :
  frames (join_event rid event).
Proof.
  unfold join_event.
  destruct event as [| | | | | d |]; try (apply frames_emit; reflexivity).
  destruct (dict_get d "type") as [t |]; [| apply frames_emit; reflexivity].
  destruct (dict_get d "content") as [c |]; [| apply frames_emit; reflexivity].
  apply frames_bind; [intros s; apply dispatch_only_refl | intros self].
  apply frames_bind; [apply frames_lift | intros known].
  destruct known; [apply frames_call_listeners | apply frames_emit; reflexivity].
Qed.

Lemma registry_get_app_other (r : registry) (k0 k : string)
      (fs : list Listener) :
  k <> k0 ->
  registry_get (r ++ [(k0, fs)])%list k = registry_get r k.
Proof.
  intros Hne. induction r as [| [k1 fs1] r IH]; cbn.
  - destruct (String.eqb_spec k0 k); [congruence | reflexivity].
  - rewrite IH. reflexivity.
Qed.

Lemma frames_invite_event (rid : string) (event : pyval) :
  frames (invite_event rid event).
Proof.
  unfold invite_event.
  destruct event as [| | | | | d |]; try apply frames_ret.
  destruct (dict_get d "type") as [t |]; [| apply frames_ret].
  destruct (dict_get d "content") as [c |]; [| apply frames_ret].
  destruct (is_str "m.room.member" t); [| apply frames_ret].
  intros s. unfold bind at 1. unfold get_bot. unfold bind at 1.
  unfold set_listeners at 1.
  eapply dispatch_only_trans; [| apply frames_call_listeners].
  unfold dispatch_only. cbn [bot inbox utcoffset trace access_token
                             access_token_expire refresh_token user_id
                             listeners].
  repeat split; try reflexivity.
  - intros k Hk. unfold registry_touch.
    destruct (registry_get (listeners (bot s)) "???"); [reflexivity |].
    apply registry_get_app_other. exact Hk.
  - exists []. rewrite app_nil_r. split; reflexivity.
Qed.

Lemma frames_process_rooms (rooms : pyval) : frames (process_rooms rooms).
Proof.
  unfold process_rooms.
  apply frames_bind; [apply frames_lift | intros rr].
  apply frames_bind.
  { unfold py_items. destruct (join rr);
      first [apply frames_ret | apply frames_raise]. }
  intros joined. apply frames_bind.
  { apply frames_for_each. intros kv. unfold parse_room_join.
    destruct (events_under "timeline" (snd kv)); [| apply frames_ret].
    apply frames_for_each. intros ev. apply frames_join_event. }
  intros _. apply frames_bind.
  { unfold py_items. destruct (invite rr);
      first [apply frames_ret | apply frames_raise]. }
  intros invited. apply frames_for_each. intros kv. unfold parse_room_invite.
  destruct (events_under "invite_state" (snd kv)); [| apply frames_ret].
  apply frames_for_each. intros ev. apply frames_invite_event.
Qed.

(** X16: dispatching the rooms of a sync response, however it ends, sends
    no request and sleeps never, takes no response, and leaves the tokens,
    the user id, the zone and the listeners of every key but the invite
    key as they were; it only adds prints, log records and listener calls
    to the trace. *)
Theorem process_rooms_is_dispatch_only (rooms : pyval) (s : State) :
  let s' := snd (process_rooms rooms s) in
  inbox s' = inbox s
  /\ get_auth (bot s') = get_auth (bot s)
  /\ access_token_expire (bot s') = access_token_expire (bot s)
  /\ refresh_token (bot s') = refresh_token (bot s)
  /\ user_id (bot s') = user_id (bot s)
  /\ (forall k, k <> "???" ->
                registry_get (listeners (bot s')) k
                = registry_get (listeners (bot s)) k)
  /\ exists es, trace s' = (trace s ++ es)%list
                /\ forallb local_effect es = true
                /\ attempts es = 0%nat.
Proof.
  intros s'. subst s'.
  destruct (frames_process_rooms rooms s)
    as (Hi & Hu & Ha & He & Hr & Hid & Hl & es & Ht & Hes).
  repeat split; try assumption.
  - unfold get_auth. rewrite Ha. reflexivity.
  - exists es. repeat split; try assumption.
    clear Ht. induction es as [| e es IH]; [reflexivity |].
    cbn in Hes. apply andb_prop in Hes. destruct Hes as [He1 He2].
    specialize (IH He2). unfold attempts in *. cbn.
    destruct e; try discriminate He1; exact IH.
Qed.

(** ** Invited rooms *)

Lemma metadata_new_rest_of (rid : string) (d : pydict) (sd : pyval) :
  dict_get d "sender" = Some sd ->
  dict_get d "origin_server_ts" = None ->
  EventMetadata_new (dict_restrict EVENT_KEYS (rest_of rid d))
  = Ret (metadata_of rid d PNone).
Proof.
  intros Hs Hts. unfold EventMetadata_new, metadata_of.
  rewrite !dict_get_restrict, !rest_of_get.
  cbn [EVENT_KEYS existsb String.eqb Ascii.eqb Bool.eqb orb].
  rewrite Hs, Hts. reflexivity.
Qed.

Lemma calls_of_listener_round (rest : pydict) (c : pyval)
      (metadata : EventMetadata) (fs : list Listener) :
  calls (flat_map (fun f => [EPrint (MsgEvtMeta rest);
                             ECall (l_name f) c metadata]) fs)
  = map (fun f => (l_name f, c, metadata)) fs.
Proof.
  induction fs as [| f fs IH]; [reflexivity |].
  cbn [flat_map map]. unfold calls in *. cbn. rewrite IH. reflexivity.
Qed.

(** X17: a stripped state event of an invited room that is an object of
    type [m.room.member] with a [content] that can be copied and a
    [sender], and without [origin_server_ts], is delivered to every
    listener registered through [on_invite], in registration order, each
    with the content and with the same metadata: the room id of the
    invited room, the event's sender, no event id and no timestamp. *)
Theorem parse_room_invite_delivers_in_order
        (rid : string) (d : pydict) (c sd : pyval) (fs : list Listener)
        (s : State) :
  dict_get d "type" = Some (PStr "m.room.member") ->
  dict_get d "content" = Some c ->
  copyable c = true ->
  dict_get d "sender" = Some sd ->
  dict_get d "origin_server_ts" = None ->
  registry_get (listeners (bot s)) "???" = Some fs ->
  Forall (fun f => l_run f c (metadata_of rid d PNone) = None) fs ->
  exists s' es,
    parse_room_invite rid (invite_of [PDict d]) s = (Ret tt, s')
    /\ trace s' = (trace s ++ es)%list
    /\ calls es = map (fun f => (l_name f, c, metadata_of rid d PNone)) fs.
Proof.
  intros Htype Hcontent Hcopy Hsender Hts Hreg Hfs.
  assert (Hc : py_copy c = ret c).
  { destruct c; try discriminate Hcopy; reflexivity. }
  unfold parse_room_invite, invite_of.
  cbn [events_under dict_get String.eqb Ascii.eqb Bool.eqb for_each].
  unfold invite_event. rewrite Htype, Hcontent.
  cbn [is_str String.eqb Ascii.eqb Bool.eqb].
  fold (rest_of rid d).
  unfold bind at 1 2. unfold get_bot. unfold bind at 1.
  unfold set_listeners at 1. rewrite Hreg.
  rewrite (call_listeners_in_order c (rest_of rid d) (metadata_of rid d PNone) fs).
  - unfold ret, advance. cbn [bot inbox utcoffset trace].
    eexists. eexists. split; [reflexivity |]. split; [reflexivity |].
    apply calls_of_listener_round.
  - rewrite rest_of_get. cbn [existsb String.eqb Ascii.eqb Bool.eqb orb].
    exact Hts.
  - apply (metadata_new_rest_of rid d sd Hsender Hts).
  - exact Hc.
  - exact Hfs.
Qed.

Lemma parse_room_invite_delivers_in_order_witness :
  let d := [("type", PStr "m.room.member");
            ("content", PDict [("membership", PStr "invite")]);
            ("sender", PStr "@a:x");
            ("state_key", PStr "@bot:h.example")] in
  let bot2 := snd (on_invite (quiet "second")
                             (snd (on_invite (quiet "first") fresh_bot))) in
  exists s' es,
    parse_room_invite "!room:h.example" (invite_of [PDict d]) (start bot2 [])
    = (Ret tt, s')
    /\ trace s' = (trace (start bot2 []) ++ es)%list
    /\ calls es
       = map (fun f => (l_name f, PDict [("membership", PStr "invite")],
                        metadata_of "!room:h.example" d PNone))
             [quiet "first"; quiet "second"].
Proof.
  apply (parse_room_invite_delivers_in_order
           "!room:h.example"
           [("type", PStr "m.room.member");
            ("content", PDict [("membership", PStr "invite")]);
            ("sender", PStr "@a:x");
            ("state_key", PStr "@bot:h.example")]
           (PDict [("membership", PStr "invite")]) (PStr "@a:x")
           [quiet "first"; quiet "second"]
           (start (snd (on_invite (quiet "second")
                                  (snd (on_invite (quiet "first") fresh_bot))))
                  [])).
  - reflexivity.
  - reflexivity.
  - reflexivity.
  - reflexivity.
  - reflexivity.
  - reflexivity.
  - repeat constructor.
Defined.

(** ** Decoding the rooms, the cycle, the loop *)

(** X18: [RoomsResponse.from_dict] succeeds on every dict: [invite] and
    [join] are the dict's entries under these keys, an empty mapping for
    each one the dict lacks, and every other key is ignored.  On a value
    that is no dict it always raises. *)
Theorem rooms_from_dict_defaults (d : pydict) :
  RoomsResponse_from_dict (PDict d)
  = Ret {| invite := or_default (dict_get d "invite") (PDict []);
           join := or_default (dict_get d "join") (PDict []) |}
  /\ (forall v, is_dict v = false ->
                exists e, RoomsResponse_from_dict v = Raise e).
Proof.
  split.
  - unfold RoomsResponse_from_dict, inject_missing, ROOM_KEYS, dict_mem.
    cbn [filter].
    destruct (dict_get d "invite") as [i |] eqn:Ei;
      destruct (dict_get d "join") as [j |] eqn:Ej;
      cbn [negb fold_left or_default];
      rewrite !dict_get_restrict;
      cbn [existsb String.eqb Ascii.eqb Bool.eqb orb];
      rewrite ?dict_get_set;
      cbn [String.eqb Ascii.eqb Bool.eqb];
      rewrite ?dict_get_set;
      cbn [String.eqb Ascii.eqb Bool.eqb];
      rewrite ?Ei, ?Ej; reflexivity.
  - intros v Hv. unfold RoomsResponse_from_dict.
    destruct v as [| | | x | l | d' |]; try discriminate Hv;
      try (exists TypeError; reflexivity).
    + destruct (forallb _ ROOM_KEYS);
        [exists AttributeError | exists TypeError]; reflexivity.
    + destruct (forallb _ ROOM_KEYS);
        [exists AttributeError | exists TypeError]; reflexivity.
Qed.

(** X19: [sync] returns a cursor only from a successful response that
    carries it: whenever it returns something else than [None], the
    executor has returned [Ok] of an object whose [next_batch] is the
    value returned, and the dispatch of its rooms has returned. *)
Theorem sync_cursor_comes_from_response
        (params nb : pyval) (s s' : State) :
  sync params s = (Ret nb, s') ->
  nb <> PNone ->
  exists d s2,
    _GET "client/v3/sync" params (printed s (MsgSync params))
    = (Ret (Ok (PDict d)), s2)
    /\ dict_get d "next_batch" = Some nb
    /\ dispatch_rooms d s2 = (Ret tt, s').
Proof.
  intros Hsync Hnb. rewrite sync_unfold in Hsync.
  destruct (_GET "client/v3/sync" params (printed s (MsgSync params)))
    as [[[v | e] | e] s2]; try discriminate Hsync.
  - destruct v as [| | | | | d |];
      try (injection Hsync as <- _; contradiction).
    destruct (dict_get d "next_batch") as [nb' |] eqn:Enb;
      [| injection Hsync as <- _; contradiction].
    destruct (dispatch_rooms d s2) as [[[] | e] s3] eqn:Ed;
      [| discriminate Hsync].
    injection Hsync as <- <-. exists d, s2.
    split; [reflexivity |]. split; [exact Enb | exact Ed].
  - injection Hsync as <- _. contradiction.
Qed.

Lemma sync_cursor_comes_from_response_witness :
  exists d s2,
    _GET "client/v3/sync" (sync_params (PStr "b0"))
         (printed (start fresh_bot [ok_200 (batch "b1")])
                  (MsgSync (sync_params (PStr "b0"))))
    = (Ret (Ok (PDict d)), s2)
    /\ dict_get d "next_batch" = Some (PStr "b1")
    /\ dispatch_rooms d s2
       = (Ret tt,
          advance (start fresh_bot []) []
                  [EPrint (MsgSync (sync_params (PStr "b0")));
                   EHttp "GET" "client/v3/sync" (sync_params (PStr "b0")) []]).
Proof.
  apply (sync_cursor_comes_from_response
           (sync_params (PStr "b0")) (PStr "b1")
           (start fresh_bot [ok_200 (batch "b1")])).
  - reflexivity.
  - discriminate.
Defined.

Lemma process_body_from_no_longer (m p : string) (v : pyval) (idxs : list Z)
      (last : option Z) (s : State) :
  (List.length
     (inbox (snd (process_body_from (client_request m p v) idxs last s)))
   <= List.length (inbox s))%nat.
Proof.
  destruct (process_body_from_within_budget m p v idxs last s)
    as (_ & _ & es & used & _ & Hin & _).
  apply (f_equal (@List.length _)) in Hin. rewrite length_app in Hin. lia.
Qed.

(** A run of the retry loop that returns a result has taken at least one
    response. *)
Lemma process_body_from_consumes (m p : string) (v : pyval) (i : Z)
      (idxs : list Z) (last : option Z) (s : State) (res : Result)
      (s' : State) :
  process_body_from (client_request m p v) (i :: idxs) last s = (Ret res, s') ->
  (List.length (inbox s') < List.length (inbox s))%nat.
Proof.
  cbn [process_body_from]. unfold bind at 1. unfold client_request at 1.
  destruct (inbox s) as [| r0 t] eqn:Hin; [discriminate |].
  cbn [tl]. unfold bind at 1, response_json at 1.
  destruct (body r0) as [j |]; cbn [ret raise]; [| discriminate].
  unfold ret at 1.
  destruct (status_code r0 =? 200).
  { intros [= _ <-]. cbn. lia. }
  destruct (status_code r0 =? 429).
  - unfold bind at 1.
    destruct j as [| | | | | d |]; try discriminate.
    destruct (dict_get d "retry_after_ms") as [[| b | n | | | |] |];
      cbn [sleep_ms]; try destruct (int_truediv _ 1000); try discriminate;
      unfold emit; cbn [bot inbox utcoffset trace];
      intros H;
      match type of H with
      | process_body_from ?f ?l ?la ?st = _ =>
          pose proof (process_body_from_no_longer m p v l la st) as Hle;
          rewrite H in Hle; cbn [snd inbox] in Hle
      end; cbn [List.length]; lia.
  - destruct ((status_code r0 =? 401) || (status_code r0 =? 403));
      destruct j as [| | | | | d |];
      try (intros [= _ <-]; cbn; lia).
    destruct (dict_get d "errcode") as [ec |];
      [destruct (dict_get d "error") as [er |] |];
      intros [= _ <-]; cbn; lia.
Qed.

(** A cycle that returns has taken at least one response. *)
Lemma sync_consumes (params nb : pyval) (s s' : State) :
  sync params s = (Ret nb, s') ->
  (List.length (inbox s') < List.length (inbox s))%nat.
Proof.
  rewrite sync_unfold. unfold _GET, process_body, range, MAX_RETRIES.
  cbn [seq map].
  destruct (process_body_from _ _ None (printed s (MsgSync params)))
    as [[[v | e] | e] s2] eqn:Hpb; try discriminate;
    apply process_body_from_consumes in Hpb; cbn [printed advance inbox] in Hpb.
  - destruct v as [| | | | | d |];
      try (intros [= _ <-]; cbn; exact Hpb).
    destruct (dict_get d "next_batch") as [nb' |];
      [| intros [= _ <-]; cbn; exact Hpb].
    destruct (dispatch_rooms d s2) as [[[] | e] s3] eqn:Ed; [| discriminate].
    intros [= _ <-].
    assert (Hs3 : inbox s3 = inbox s2).
    { unfold dispatch_rooms in Ed.
      destruct (dict_get d "rooms") as [rooms |].
      - destruct (frames_process_rooms rooms s2) as [Hi _].
        rewrite Ed in Hi. exact Hi.
      - injection Ed as <-. reflexivity. }
    rewrite Hs3. exact Hpb.
  - intros [= _ <-]. cbn. exact Hpb.
Qed.

Lemma run_loop_step (fuel : nat) (cursor : pyval) (s : State) :
  run_loop (S fuel) cursor s =
  match sync (sync_params cursor) s with
  | (Ret nb, s') =>
      if truthy nb then run_loop fuel nb (printed s' MsgSyncing)
      else (Ret Returned, s')
  | (Raise e, s') => (Raise e, s')
  end.
Proof.
  cbn [run_loop]. unfold bind at 1. fold (sync_params cursor).
  destruct (sync (sync_params cursor) s) as [[nb | e] s']; [| reflexivity].
  destruct (truthy nb); reflexivity.
Qed.

Lemma run_loop_fuel (fuel : nat) :
  forall (fuel' : nat) (nb : pyval) (s : State),
    (List.length (inbox s) < fuel)%nat ->
    (List.length (inbox s) < fuel')%nat ->
    run_loop fuel nb s = run_loop fuel' nb s
    /\ fst (run_loop fuel nb s) <> Ret StillSyncing.
Proof.
  induction fuel as [| fuel IH]; intros fuel' nb s Hf Hf'; [lia |].
  destruct fuel' as [| fuel']; [lia |].
  rewrite !run_loop_step.
  destruct (sync _ s) as [[nb' | e] s1] eqn:Hsync.
  - apply sync_consumes in Hsync.
    destruct (truthy nb').
    + apply IH; cbn [printed advance inbox]; lia.
    + split; [reflexivity | discriminate].
  - split; [reflexivity | discriminate].
Qed.

(** X20: on every finite sequence of responses [run] ends, by returning
    or by an exception, after at most as many cycles as there are
    responses: once the bound of the model is at least the number of
    responses, the loop is never cut short and the result no longer
    depends on the bound. *)
Theorem run_ends_on_finite_input
        (fuel fuel' : nat) (full_sync : bool) (s : State) :
  (List.length (inbox s) <= fuel)%nat ->
  (List.length (inbox s) <= fuel')%nat ->
  run fuel full_sync s = run fuel' full_sync s
  /\ fst (run fuel full_sync s) <> Ret StillSyncing.
Proof.
  intros Hf Hf'. unfold run, bind.
  destruct (sync _ s) as [[nb | e] s1] eqn:Hsync.
  - apply sync_consumes in Hsync.
    destruct (truthy nb).
    + apply run_loop_fuel; lia.
    + split; [reflexivity | discriminate].
  - split; [reflexivity | discriminate].
Qed.

Lemma run_ends_on_finite_input_witness :
  run 2 false (start fresh_bot [ok_200 (batch "b1"); ok_200 (batch "b2")])
  = run 7 false (start fresh_bot [ok_200 (batch "b1"); ok_200 (batch "b2")])
  /\ fst (run 2 false
              (start fresh_bot [ok_200 (batch "b1"); ok_200 (batch "b2")]))
     <> Ret StillSyncing.
Proof.
  apply (run_ends_on_finite_input
           2 7 false
           (start fresh_bot [ok_200 (batch "b1"); ok_200 (batch "b2")])).
  - cbn. lia.
  - cbn. lia.
Defined.

(** A first response that the executor classifies as unknown. *)
Lemma process_body_first_unknown (m p : string) (v : pyval) (r : Response)
      (j : pyval) (rest : list Response) (s : State) :
  inbox s = r :: rest ->
  status_code r <> 200 ->
  status_code r <> 429 ->
  body r = Some j ->
  unauthorized_shape (status_code r) j = false ->
  process_body (client_request m p v) s
  = (Ret (Err (ErrUnknown (status_code r) j)),
     advance s rest [EHttp m p v (get_auth (bot s))]).
Proof.
  intros Hin H200 H429 Hbody Hshape.
  unfold process_body, range, MAX_RETRIES.
  cbn [seq map process_body_from]. unfold bind at 1.
  rewrite (client_request_cons m p v _ r rest Hin).
  unfold response_json. rewrite Hbody. unfold bind at 1, ret at 1.
  destruct (Z.eqb_spec (status_code r) 200); [contradiction |].
  destruct (Z.eqb_spec (status_code r) 429); [contradiction |].
  unfold unauthorized_shape in Hshape.
  destruct ((status_code r =? 401) || (status_code r =? 403));
    [| destruct j; reflexivity].
  destruct j as [| | | | | d |]; try reflexivity.
  cbn [andb] in Hshape. unfold dict_mem in Hshape.
  destruct (dict_get d "errcode"); [| reflexivity].
  destruct (dict_get d "error"); [discriminate Hshape | reflexivity].
Qed.

(** X21: [run] from the first request to its return.  When the server
    answers a run of requests each at once with a 200 whose body is
    [{"next_batch": b}] for the non-empty cursors [b0], [bs] in turn and
    then with a response the executor classifies as unknown, [run] sends
    the first request with [full_state] and the timeout 5000, then one
    request per cursor with [since] set to the cursor received just before
    and the timeout 3000, prints the error of the last one and returns;
    the responses behind the failing one are left. *)
Theorem run_follows_cursors
        (b0 : string) (bs : list string) (r : Response) (j : pyval)
        (rest : list Response) (k : nat) (full_sync : bool) (s : State) :
  Forall (fun b => b <> "") (b0 :: bs) ->
  inbox s = (map (fun b => ok_200 (batch b)) (b0 :: bs) ++ r :: rest)%list ->
  status_code r <> 200 ->
  status_code r <> 429 ->
  body r = Some j ->
  unauthorized_shape (status_code r) j = false ->
  let first := PDict [("full_state", PBool full_sync);
                      ("timeout", PInt 5000)] in
  let cursor := List.last (map PStr bs) (PStr b0) in
  run (List.length bs + S k) full_sync s
  = (Ret Returned,
     advance s rest
       ([EPrint (MsgSync first);
         EHttp "GET" "client/v3/sync" first (get_auth (bot s))]
        ++ chain_trace (bot s) (PStr b0) bs
        ++ [EPrint (MsgSync (sync_params cursor));
            EHttp "GET" "client/v3/sync" (sync_params cursor)
                  (get_auth (bot s));
            EPrint (MsgErr (ErrUnknown (status_code r) j))])).
Proof.
  intros Hbs Hin H200 H429 Hbody Hshape first cursor.
  inversion Hbs as [| ? ? Hb0 Hbs']; subst.
  unfold run. unfold bind at 1. fold first.
  cbn [map app] in Hin.
  rewrite (sync_next_batch_only first (PStr b0) (ok_200 (batch b0)) _ s Hin)
    by reflexivity.
  assert (Ht : truthy (PStr b0) = true).
  { cbn. destruct (String.eqb_spec b0 ""); [contradiction | reflexivity]. }
  rewrite Ht.
  rewrite (run_loop_chain bs (PStr b0) (S k) _ (r :: rest) Hbs')
    by reflexivity.
  fold cursor. rewrite run_loop_step, sync_unfold. unfold _GET.
  rewrite (process_body_first_unknown
             "GET" "client/v3/sync" (sync_params cursor) r j rest);
    [| reflexivity | assumption | assumption | assumption | assumption].
  cbn [truthy]. unfold printed, advance. cbn [bot inbox utcoffset trace].
  rewrite <- !app_assoc. reflexivity.
Qed.

Lemma run_follows_cursors_witness :
  let first := PDict [("full_state", PBool true); ("timeout", PInt 5000)] in
  let cursor := List.last (map PStr ["b1"]) (PStr "b0") in
  let r := mkResponse 500 sync_url (Some (PStr "oops")) in
  let s := start fresh_bot [ok_200 (batch "b0"); ok_200 (batch "b1"); r] in
  run (List.length ["b1"] + 1) true s
  = (Ret Returned,
     advance s []
       ([EPrint (MsgSync first);
         EHttp "GET" "client/v3/sync" first (get_auth (bot s))]
        ++ chain_trace (bot s) (PStr "b0") ["b1"]
        ++ [EPrint (MsgSync (sync_params cursor));
            EHttp "GET" "client/v3/sync" (sync_params cursor)
                  (get_auth (bot s));
            EPrint (MsgErr (ErrUnknown (status_code r) (PStr "oops")))])).
Proof.
  apply (run_follows_cursors
           "b0" ["b1"] (mkResponse 500 sync_url (Some (PStr "oops")))
           (PStr "oops") [] 0 true
           (start fresh_bot
              [ok_200 (batch "b0"); ok_200 (batch "b1");
               mkResponse 500 sync_url (Some (PStr "oops"))])).
  - repeat constructor; discriminate.
  - reflexivity.
  - discriminate.
  - discriminate.
  - reflexivity.
  - reflexivity.
Defined.

(** ** Homeserver resolution *)

Lemma sends_at_most_weaken {A} (n n' : nat) (m : M A) :
  (n <= n')%nat -> sends_at_most n m -> sends_at_most n' m.
Proof.
  intros Hle H s. destruct (H s) as (Hb & es & used & Ht & Hi & Ha & Hl).
  split; [exact Hb |]. exists es, used. repeat split; try assumption. lia.
Qed.

Lemma sends_nothing (A : Type) (o : Outcome A) : sends_at_most 0 (lift o).
Proof.
  intros s. split; [reflexivity |]. exists [], []. cbn.
  rewrite app_nil_r. repeat split; lia.
Qed.

Lemma sends_at_most_emit (e : Effect) :
  local_effect e = true -> sends_at_most 0 (emit e).
Proof.
  intros He s. split; [reflexivity |]. exists [e], []. cbn.
  repeat split; try lia.
  unfold attempts. cbn. destruct e; try discriminate He; cbn; lia.
Qed.

Lemma sends_at_most_bind {A B} (n1 n2 : nat) (m : M A) (k : A -> M B) :
  sends_at_most n1 m -> (forall a, sends_at_most n2 (k a)) ->
  sends_at_most (n1 + n2) (bind m k).
Proof.
  intros Hm Hk s. unfold bind.
  destruct (Hm s) as (Hb & es & used & Ht & Hi & Ha & Hl).
  destruct (m s) as [[a | e] s1]; cbn [snd] in *.
  - destruct (Hk a s1) as (Hb' & es' & used' & Ht' & Hi' & Ha' & Hl').
    split; [congruence |].
    exists (es ++ es')%list, (used ++ used')%list.
    rewrite Ht', Ht, Hi, Hi' at 1.
    rewrite attempts_app, !length_app, <- !app_assoc.
    repeat split; lia.
  - split; [exact Hb |]. exists es, used. repeat split; try assumption. lia.
Qed.

Section ResolverMore.

Variable URL : Type.
Variable URL_new : string -> option URL.
Variable URL_join : URL -> string -> URL.
Variable URL_scheme : URL -> string.
Variable URL_str : URL -> string.

Let resolve := get_homeserver URL URL_new URL_join URL_scheme URL_str.
Let probe := _test_is_homeserver URL URL_join URL_scheme URL_str.
Let discover := from_well_known URL URL_new URL_join URL_scheme URL_str.
Let fetched (u : URL) : Effect := EHttp "GET" (URL_str u) PNone [].

Lemma sends_at_most_httpx_get (u : URL) :
  sends_at_most 1 (httpx_get URL URL_str u).
Proof.
  intros s. unfold httpx_get. split; [destruct (inbox s); reflexivity |].
  destruct (inbox s) as [| r t] eqn:Hin; cbn [snd trace inbox tl].
  - exists [fetched u], []. repeat split; cbn; lia.
  - exists [fetched u], [r]. repeat split; cbn; lia.
Qed.

Lemma sends_at_most_url (v : pyval) :
  sends_at_most 0 (URL_of_value URL URL_new v).
Proof.
  unfold URL_of_value.
  destruct v; try apply (sends_nothing URL (Raise TypeError)).
  destruct (URL_new s);
    [apply (sends_nothing URL (Ret u)) | apply (sends_nothing URL (Raise InvalidURL))].
Qed.

Lemma sends_at_most_probe (u : URL) : sends_at_most 1 (probe u).
Proof.
  unfold probe, _test_is_homeserver.
  destruct (negb (URL_scheme u =? "https")%string).
  - apply (sends_at_most_weaken 0 1); [lia |].
    apply (sends_at_most_bind 0 0);
      [apply sends_at_most_emit; reflexivity | intros _].
    apply (sends_nothing bool (Ret false)).
  - apply (sends_at_most_bind 1 0); [apply sends_at_most_httpx_get | intros r].
    destruct (status_code r =? 200); [| apply (sends_nothing bool (Ret false))].
    apply (sends_at_most_bind 0 0).
    + unfold response_json. destruct (body r);
        [apply (sends_nothing pyval (Ret p))
        | apply (sends_nothing pyval (Raise JSONDecodeError))].
    + intros j. apply sends_nothing.
Qed.

Lemma sends_at_most_discover (j : pyval) : sends_at_most 1 (discover j).
Proof.
  unfold discover, from_well_known.
  assert (Hnone : sends_at_most 1 (@ret (option URL) None)).
  { apply (sends_at_most_weaken 0 1); [lia |].
    apply (sends_nothing (option URL) (Ret None)). }
  destruct j as [| | | | | d |]; try exact Hnone.
  destruct (dict_get d "m.homeserver") as [[| | | | | h |] |]; try exact Hnone.
  destruct (dict_get h "base_url") as [b |]; [| exact Hnone].
  apply (sends_at_most_bind 0 1); [apply sends_at_most_url | intros u].
  apply (sends_at_most_bind 1 0); [apply sends_at_most_probe | intros ok].
  destruct ok.
  - apply (sends_nothing (option URL) (Ret (Some (URL_join u "/_matrix/")))).
  - apply (sends_at_most_bind 0 0);
      [apply sends_at_most_emit; reflexivity | intros _].
    apply (sends_nothing (option URL) (Ret None)).
Qed.

(** X22: whatever the servers answer and whatever the URL library makes
    of the names, one resolution sends at most three requests (the direct
    probe, the well-known document, the probe of the delegated base),
    takes at most one response for each, and never touches the bot. *)
Theorem get_homeserver_at_most_three_requests (server_name : string) :
  sends_at_most 3 (resolve server_name).
Proof.
  unfold resolve, get_homeserver.
  apply (sends_at_most_bind 0 3); [apply sends_at_most_url | intros u].
  apply (sends_at_most_bind 1 2); [apply sends_at_most_probe | intros ok].
  destruct ok.
  { apply (sends_at_most_weaken 0 2); [lia |].
    apply (sends_nothing URL (Ret u)). }
  apply (sends_at_most_bind 0 2); [apply sends_at_most_url | intros wk].
  apply (sends_at_most_bind 1 1); [apply sends_at_most_httpx_get | intros r].
  apply (sends_at_most_bind 1 0).
  - destruct (status_code r =? 200).
    + apply (sends_at_most_bind 0 1); [| intros j; apply sends_at_most_discover].
      unfold response_json. destruct (body r);
        [apply (sends_nothing pyval (Ret p))
        | apply (sends_nothing pyval (Raise JSONDecodeError))].
    + apply (sends_at_most_weaken 0 1); [lia |].
      apply (sends_nothing (option URL) (Ret None)).
  - intros found. destruct found as [x |];
      [apply (sends_nothing URL (Ret x))
      | apply (sends_nothing URL (Raise (CouldNotFindHomeserver server_name)))].
Qed.

End ResolverMore.

Section ResolverPaths.

Variable URL : Type.
Variable URL_new : string -> option URL.
Variable URL_join : URL -> string -> URL.
Variable URL_scheme : URL -> string.
Variable URL_str : URL -> string.

Let resolve := get_homeserver URL URL_new URL_join URL_scheme URL_str.
Let probe := _test_is_homeserver URL URL_join URL_scheme URL_str.
Let fetched (u : URL) : Effect := EHttp "GET" (URL_str u) PNone [].

Variables (server_name : string) (direct well_known : URL).
Hypothesis direct_parses :
  URL_new ("https://" ++ server_name ++ "/_matrix/") = Some direct.
Hypothesis direct_https : URL_scheme direct = "https".
Hypothesis well_known_parses :
  URL_new ("https://" ++ server_name ++ "/.well-known/matrix/client")
  = Some well_known.

(** A probe answered with 200 and a decodable body. *)
Lemma probe_200 (u : URL) (r : Response) (j : pyval) (b : bool)
      (rest : list Response) (s : State) :
  URL_scheme u = "https" ->
  inbox s = r :: rest ->
  status_code r = 200 ->
  body r = Some j ->
  py_contains j "versions" = Ret b ->
  probe u s = (Ret b, advance s rest [fetched (URL_join u "client/versions")]).
Proof.
  intros Hs Hin H200 Hbody Hj. unfold probe, _test_is_homeserver.
  rewrite Hs. cbn [String.eqb Ascii.eqb Bool.eqb negb].
  unfold bind at 1. unfold httpx_get. rewrite Hin, H200.
  cbn [Z.eqb Pos.eqb]. unfold bind, response_json. rewrite Hbody.
  unfold ret, lift. rewrite Hj. reflexivity.
Qed.

(** X23: when the probe of [https://{server_name}/_matrix/] is answered
    with 200 and a body in which ["versions"] is found (a key of an
    object; also an element of an array or a part of a string), that URL
    is the homeserver: one request is sent and the well-known document is
    not asked for. *)
Theorem get_homeserver_direct
        (r : Response) (j : pyval) (rest : list Response) (s : State) :
  inbox s = r :: rest ->
  status_code r = 200 ->
  body r = Some j ->
  py_contains j "versions" = Ret true ->
  resolve server_name s
  = (Ret direct, advance s rest [fetched (URL_join direct "client/versions")]).
Proof.
  intros Hin H200 Hbody Hj. unfold resolve, get_homeserver.
  unfold bind at 1. unfold URL_of_value at 1. rewrite direct_parses.
  unfold ret at 1. unfold bind at 1. fold probe.
  rewrite (probe_200 direct r j true rest s direct_https Hin H200 Hbody Hj).
  reflexivity.
Qed.

(** X24: when the direct probe fails and the well-known request is
    answered with another status than 200, or with 200 and a body that
    decodes to anything but a document with [m.homeserver.base_url], the
    resolver raises its own error after these two requests. *)
Theorem get_homeserver_no_discovery
        (r1 r2 : Response) (rest : list Response) (s : State) :
  inbox s = r1 :: r2 :: rest ->
  status_code r1 <> 200 ->
  status_code r2 <> 200
  \/ (exists j, body r2 = Some j /\ discovery_base_url j = None) ->
  resolve server_name s
  = (Raise (CouldNotFindHomeserver server_name),
     advance s rest [fetched (URL_join direct "client/versions");
                     fetched well_known]).
Proof.
  intros Hin H1 H2. unfold resolve.
  rewrite (resolve_reaches_well_known
             URL URL_new URL_join URL_scheme URL_str server_name direct
             well_known direct_parses direct_https well_known_parses
             r1 r2 rest s Hin H1).
  cbv zeta.
  destruct (Z.eqb_spec (status_code r2) 200) as [E | E]; [| reflexivity].
  destruct H2 as [H2 | [j [Hbody Hj]]]; [contradiction |].
  unfold bind, response_json. rewrite Hbody. unfold ret at 1.
  unfold from_well_known, discovery_base_url in *.
  destruct j as [| | | | | d |]; try reflexivity.
  destruct (dict_get d "m.homeserver") as [[| | | | | h |] |]; try reflexivity.
  rewrite Hj. reflexivity.
Qed.

(** X25: a delegated base whose scheme is not [https] is never probed:
    when the well-known document names such a base, the resolver logs the
    unknown scheme and the bad base and raises its own error, having sent
    the two requests to the server name and none to the base. *)
Theorem get_homeserver_refuses_non_https
        (r1 r2 : Response) (j : pyval) (b : string) (u : URL)
        (rest : list Response) (s : State) :
  inbox s = r1 :: r2 :: rest ->
  status_code r1 <> 200 ->
  status_code r2 = 200 ->
  body r2 = Some j ->
  discovery_base_url j = Some (PStr b) ->
  URL_new b = Some u ->
  URL_scheme (URL_join u "/_matrix/") <> "https" ->
  resolve server_name s
  = (Raise (CouldNotFindHomeserver server_name),
     advance s rest
       [fetched (URL_join direct "client/versions");
        fetched well_known;
        EWarning (MsgUnknownScheme (URL_str (URL_join u "/_matrix/")));
        EWarning (MsgBadBaseUrl (URL_str (URL_join u "/_matrix/")))]).
Proof.
  intros Hin H1 H2 Hbody Hj Hu Hscheme. unfold resolve.
  rewrite (resolve_reaches_well_known
             URL URL_new URL_join URL_scheme URL_str server_name direct
             well_known direct_parses direct_https well_known_parses
             r1 r2 rest s Hin H1).
  cbv zeta. rewrite H2. cbn [Z.eqb Pos.eqb].
  unfold bind at 1, response_json. rewrite Hbody. unfold ret at 1.
  unfold from_well_known, discovery_base_url in *.
  destruct j as [| | | | | d |]; try discriminate Hj.
  destruct (dict_get d "m.homeserver") as [[| | | | | h |] |];
    try discriminate Hj.
  rewrite Hj. unfold bind at 1. unfold URL_of_value. rewrite Hu.
  unfold ret at 1. unfold bind at 1. unfold _test_is_homeserver.
  destruct (String.eqb_spec (URL_scheme (URL_join u "/_matrix/")) "https");
    [contradiction |].
  cbn [negb]. unfold bind, emit, ret, advance.
  cbn [bot inbox utcoffset trace]. rewrite <- !app_assoc. reflexivity.
Qed.

(** X26: when the direct probe fails and the well-known document names a
    base URL with scheme [https], the resolver probes
    [base.join("/_matrix/")] and nothing else: it returns that URL when
    the probe is answered with 200 and a body in which ["versions"] is
    found, and raises its own error, after a warning, when the probe is
    answered with another status. *)
Theorem get_homeserver_delegated
        (r1 r2 r3 : Response) (j : pyval) (b : string) (u : URL)
        (rest : list Response) (s : State) :
  inbox s = r1 :: r2 :: r3 :: rest ->
  status_code r1 <> 200 ->
  status_code r2 = 200 ->
  body r2 = Some j ->
  discovery_base_url j = Some (PStr b) ->
  URL_new b = Some u ->
  URL_scheme (URL_join u "/_matrix/") = "https" ->
  let base := URL_join u "/_matrix/" in
  let requests := [fetched (URL_join direct "client/versions");
                   fetched well_known;
                   fetched (URL_join base "client/versions")] in
  (forall j3, status_code r3 = 200 -> body r3 = Some j3 ->
              py_contains j3 "versions" = Ret true ->
              resolve server_name s = (Ret base, advance s rest requests))
  /\ (status_code r3 <> 200 ->
      resolve server_name s
      = (Raise (CouldNotFindHomeserver server_name),
         advance s rest
                 (requests ++ [EWarning (MsgBadBaseUrl (URL_str base))]))).
Proof.
  intros Hin H1 H2 Hbody Hj Hu Hscheme base requests.
  assert (Hstart :
            resolve server_name s
            = match probe base
                      (advance s (r3 :: rest)
                               [fetched (URL_join direct "client/versions");
                                fetched well_known]) with
              | (Ret true, s3) => (Ret base, s3)
              | (Ret false, s3) =>
                  (Raise (CouldNotFindHomeserver server_name),
                   advance s3 (inbox s3)
                           [EWarning (MsgBadBaseUrl (URL_str base))])
              | (Raise e, s3) => (Raise e, s3)
              end).
  { unfold resolve.
    rewrite (resolve_reaches_well_known
               URL URL_new URL_join URL_scheme URL_str server_name direct
               well_known direct_parses direct_https well_known_parses
               r1 r2 (r3 :: rest) s Hin H1).
    cbv zeta. rewrite H2. cbn [Z.eqb Pos.eqb].
    unfold bind at 1, response_json. rewrite Hbody. unfold ret at 1.
    unfold from_well_known, discovery_base_url in *.
    destruct j as [| | | | | d |]; try discriminate Hj.
    destruct (dict_get d "m.homeserver") as [[| | | | | h |] |];
      try discriminate Hj.
    rewrite Hj. unfold bind at 1. unfold URL_of_value. rewrite Hu.
    unfold ret at 1. unfold bind at 1. fold base. fold probe.
    destruct (probe base _) as [[[|] | e] s3]; reflexivity. }
  split.
  - intros j3 H3 Hbody3 Hj3. rewrite Hstart.
    rewrite (probe_200 base r3 j3 true rest
               (advance s (r3 :: rest)
                        [fetched (URL_join direct "client/versions");
                         fetched well_known])
               Hscheme eq_refl H3 Hbody3 Hj3).
    rewrite advance_advance. reflexivity.
  - intros H3. rewrite Hstart. fold probe.
    unfold probe.
    rewrite (probe_not_200 URL URL_join URL_scheme URL_str base r3 rest
               (advance s (r3 :: rest)
                        [fetched (URL_join direct "client/versions");
                         fetched well_known])
               Hscheme eq_refl H3).
    cbn [inbox advance]. rewrite !advance_advance. reflexivity.
Qed.

End ResolverPaths.

Lemma get_homeserver_direct_witness :
  simple_resolve "h.example"
    (start fresh_bot
       [versions_200 "https://h.example/_matrix/client/versions"])
  = (Ret (SimpleURL.mk "https" "h.example" "/_matrix/"),
     advance
       (start fresh_bot
          [versions_200 "https://h.example/_matrix/client/versions"])
       []
       [EHttp "GET" "https://h.example/_matrix/client/versions" PNone []]).
Proof.
  apply (get_homeserver_direct
           SimpleURL.t SimpleURL.new SimpleURL.join SimpleURL.scheme
           SimpleURL.str "h.example"
           (SimpleURL.mk "https" "h.example" "/_matrix/")
           eq_refl eq_refl
           (versions_200 "https://h.example/_matrix/client/versions")
           (PDict [("versions", PList [PStr "v1.11"])]) []
           (start fresh_bot
              [versions_200 "https://h.example/_matrix/client/versions"])).
  - reflexivity.
  - reflexivity.
  - reflexivity.
  - reflexivity.
Defined.

Lemma get_homeserver_no_discovery_witness :
  simple_resolve "h.example"
    (start fresh_bot
       [not_found_404 "https://h.example/_matrix/client/versions";
        mkResponse 200 "https://h.example/.well-known/matrix/client"
                   (Some (PDict [("m.homeserver", PDict [])]))])
  = (Raise (CouldNotFindHomeserver "h.example"),
     advance
       (start fresh_bot
          [not_found_404 "https://h.example/_matrix/client/versions";
           mkResponse 200 "https://h.example/.well-known/matrix/client"
                      (Some (PDict [("m.homeserver", PDict [])]))])
       []
       [EHttp "GET" "https://h.example/_matrix/client/versions" PNone [];
        EHttp "GET" "https://h.example/.well-known/matrix/client" PNone []]).
Proof.
  apply (get_homeserver_no_discovery
           SimpleURL.t SimpleURL.new SimpleURL.join SimpleURL.scheme
           SimpleURL.str "h.example"
           (SimpleURL.mk "https" "h.example" "/_matrix/")
           (SimpleURL.mk "https" "h.example" "/.well-known/matrix/client")
           eq_refl eq_refl eq_refl
           (not_found_404 "https://h.example/_matrix/client/versions")
           (mkResponse 200 "https://h.example/.well-known/matrix/client"
                       (Some (PDict [("m.homeserver", PDict [])])))
           []
           (start fresh_bot
              [not_found_404 "https://h.example/_matrix/client/versions";
               mkResponse 200 "https://h.example/.well-known/matrix/client"
                          (Some (PDict [("m.homeserver", PDict [])]))])).
  - reflexivity.
  - discriminate.
  - right. exists (PDict [("m.homeserver", PDict [])]). split; reflexivity.
Defined.

Lemma get_homeserver_refuses_non_https_witness :
  simple_resolve "example.org"
    (start fresh_bot
       [not_found_404 "https://example.org/_matrix/client/versions";
        mkResponse 200 "https://example.org/.well-known/matrix/client"
                   (Some (well_known_doc (PStr "http://h.example:8008")));
        versions_200 "http://h.example:8008/_matrix/client/versions"])
  = (Raise (CouldNotFindHomeserver "example.org"),
     advance
       (start fresh_bot
          [not_found_404 "https://example.org/_matrix/client/versions";
           mkResponse 200 "https://example.org/.well-known/matrix/client"
                      (Some (well_known_doc (PStr "http://h.example:8008")));
           versions_200 "http://h.example:8008/_matrix/client/versions"])
       [versions_200 "http://h.example:8008/_matrix/client/versions"]
       [EHttp "GET" "https://example.org/_matrix/client/versions" PNone [];
        EHttp "GET" "https://example.org/.well-known/matrix/client" PNone [];
        EWarning (MsgUnknownScheme "http://h.example:8008/_matrix/");
        EWarning (MsgBadBaseUrl "http://h.example:8008/_matrix/")]).
Proof.
  apply (get_homeserver_refuses_non_https
           SimpleURL.t SimpleURL.new SimpleURL.join SimpleURL.scheme
           SimpleURL.str "example.org"
           (SimpleURL.mk "https" "example.org" "/_matrix/")
           (SimpleURL.mk "https" "example.org" "/.well-known/matrix/client")
           eq_refl eq_refl eq_refl
           (not_found_404 "https://example.org/_matrix/client/versions")
           (mkResponse 200 "https://example.org/.well-known/matrix/client"
                       (Some (well_known_doc (PStr "http://h.example:8008"))))
           (well_known_doc (PStr "http://h.example:8008"))
           "http://h.example:8008"
           (SimpleURL.mk "http" "h.example:8008" "/")
           [versions_200 "http://h.example:8008/_matrix/client/versions"]
           (start fresh_bot
              [not_found_404 "https://example.org/_matrix/client/versions";
               mkResponse 200 "https://example.org/.well-known/matrix/client"
                          (Some (well_known_doc (PStr "http://h.example:8008")));
               versions_200 "http://h.example:8008/_matrix/client/versions"])).
  - reflexivity.
  - discriminate.
  - reflexivity.
  - reflexivity.
  - reflexivity.
  - reflexivity.
  - discriminate.
Defined.

Lemma get_homeserver_delegated_witness :
  simple_resolve "example.org"
    (start fresh_bot
       [not_found_404 "https://example.org/_matrix/client/versions";
        mkResponse 200 "https://example.org/.well-known/matrix/client"
                   (Some (well_known_doc (PStr "https://h.example/ignored")));
        versions_200 "https://h.example/_matrix/client/versions"])
  = (Ret (SimpleURL.mk "https" "h.example" "/_matrix/"),
     advance
       (start fresh_bot
          [not_found_404 "https://example.org/_matrix/client/versions";
           mkResponse 200 "https://example.org/.well-known/matrix/client"
                      (Some (well_known_doc (PStr "https://h.example/ignored")));
           versions_200 "https://h.example/_matrix/client/versions"])
       []
       [EHttp "GET" "https://example.org/_matrix/client/versions" PNone [];
        EHttp "GET" "https://example.org/.well-known/matrix/client" PNone [];
        EHttp "GET" "https://h.example/_matrix/client/versions" PNone []]).
Proof.
  apply (proj1
           (get_homeserver_delegated
              SimpleURL.t SimpleURL.new SimpleURL.join SimpleURL.scheme
              SimpleURL.str "example.org"
              (SimpleURL.mk "https" "example.org" "/_matrix/")
              (SimpleURL.mk "https" "example.org" "/.well-known/matrix/client")
              eq_refl eq_refl eq_refl
              (not_found_404 "https://example.org/_matrix/client/versions")
              (mkResponse 200 "https://example.org/.well-known/matrix/client"
                          (Some (well_known_doc
                                   (PStr "https://h.example/ignored"))))
              (versions_200 "https://h.example/_matrix/client/versions")
              (well_known_doc (PStr "https://h.example/ignored"))
              "https://h.example/ignored"
              (SimpleURL.mk "https" "h.example" "/ignored")
              []
              (start fresh_bot
                 [not_found_404 "https://example.org/_matrix/client/versions";
                  mkResponse 200
                    "https://example.org/.well-known/matrix/client"
                    (Some (well_known_doc (PStr "https://h.example/ignored")));
                  versions_200 "https://h.example/_matrix/client/versions"])
              eq_refl ltac:(discriminate) eq_refl eq_refl eq_refl eq_refl
              eq_refl)
           (PDict [("versions", PList [PStr "v1.11"])])).
  - reflexivity.
  - reflexivity.
  - reflexivity.
Defined.

(** ** Construction of the bot *)

Lemma string_length_app (a b : string) :
  String.length (a ++ b) = (String.length a + String.length b)%nat.
Proof.
  induction a as [| c a IH]; cbn; [reflexivity | rewrite IH; reflexivity].
Qed.

Lemma substring_whole (b : string) : String.substring 0 (String.length b) b = b.
Proof.
  induction b as [| c b IH]; cbn; [reflexivity | rewrite IH; reflexivity].
Qed.

Lemma substring_front (a b : string) :
  String.substring 0 (String.length a) (a ++ b) = a.
Proof.
  induction a as [| c a IH]; cbn.
  - destruct b; reflexivity.
  - rewrite IH. reflexivity.
Qed.

Lemma substring_back (a b : string) (c : ascii) (m : nat) :
  String.substring (String.length a + 1) m (a ++ String c b)
  = String.substring 0 m b.
Proof.
  induction a as [| x a IH]; cbn; [reflexivity | exact IH].
Qed.

Lemma index_first_colon (a b : string) :
  substring_of ":" a = false ->
  String.index 0 ":" (a ++ String ":" b) = Some (String.length a).
Proof.
  unfold substring_of.
  induction a as [| c a IH]; intros H.
  - cbn. destruct b; reflexivity.
  - cbn [append String.index String.length] in *.
    cbn [String.prefix] in *.
    destruct (Ascii.ascii_dec ":" c) as [E | E].
    + destruct a; discriminate H.
    + destruct (String.index 0 ":" a) eqn:Ea; [discriminate H |].
      rewrite IH by reflexivity. reflexivity.
Qed.

Lemma prefix_at (x : string) : String.prefix "@" (String "@" x) = true.
Proof.
  cbn. destruct (Ascii.ascii_dec "@" "@") as [_ | H]; [| contradiction].
  destruct x; reflexivity.
Qed.

(** [s.split(":", 1)] cuts at the first colon. *)
Lemma split_first_colon_app (a b : string) :
  substring_of ":" a = false ->
  split_first_colon (a ++ ":" ++ b) = Some (a, b).
Proof.
  intros H. unfold split_first_colon, SimpleURL.split_at.
  change (a ++ ":" ++ b) with (a ++ String ":" b).
  rewrite (index_first_colon a b H).
  rewrite substring_front.
  change (String.length ":") with 1%nat.
  rewrite substring_back, string_length_app. cbn [String.length].
  replace (String.length a + S (String.length b) - String.length a - 1)%nat
    with (String.length b) by lia.
  rewrite substring_whole. reflexivity.
Qed.

Section InitFacts.

Variable URL : Type.
Variable URL_new : string -> option URL.
Variable URL_join : URL -> string -> URL.
Variable URL_scheme : URL -> string.
Variable URL_str : URL -> string.

Let init := MatrixBot_init URL URL_new URL_join URL_scheme URL_str.
Let resolve := get_homeserver URL URL_new URL_join URL_scheme URL_str.

(** X27: for a user id [@localpart:server] whose localpart has no colon,
    the constructor resolves exactly [server], which is all that follows
    the first colon (a port stays part of it).  A failure of the
    resolution is the failure of the constructor; otherwise the bot
    starts with the whole id as [user_id], without access or refresh
    token (so without authorization header), with an expiry 9999 weeks
    after the clock reading and with no listener. *)
Theorem init_resolves_server_of_user_id
        (now : Z) (localpart server : string) (s : State) :
  substring_of ":" localpart = false ->
  let bot_user := "@" ++ localpart ++ ":" ++ server in
  init now bot_user s
  = match resolve server s with
    | (Ret base_url, s') =>
        match datetime_add now WEEKS_9999 with
        | Ret expire =>
            (Ret (Passed ({| user_id := bot_user;
                             access_token := None;
                             access_token_expire := expire;
                             refresh_token := None;
                             listeners := [] |}, base_url)), s')
        | Raise e => (Raise e, s')
        end
    | (Raise e, s') => (Raise e, s')
    end.
Proof.
  intros Hlocal bot_user. unfold init, MatrixBot_init. subst bot_user.
  change ("@" ++ localpart ++ ":" ++ server)
    with (String "@" (localpart ++ ":" ++ server)).
  rewrite prefix_at. cbn [negb].
  change (String "@" (localpart ++ ":" ++ server))
    with (("@" ++ localpart) ++ ":" ++ server).
  rewrite (split_first_colon_app ("@" ++ localpart) server).
  - unfold bind at 1. fold resolve.
    destruct (resolve server s) as [[base | e] s']; [| reflexivity].
    unfold bind, lift, ret.
    destruct (datetime_add now WEEKS_9999); reflexivity.
  - unfold substring_of in *. cbn [append String.index String.prefix].
    destruct (Ascii.ascii_dec ":" "@") as [E | E]; [discriminate E |].
    destruct (String.index 0 ":" localpart); [discriminate Hlocal | reflexivity].
Qed.

(** X28: a user id that does not start with [@], or that contains no
    colon, fails the constructor's assertion with its message before
    anything else happens: no request is sent and the state is as
    before. *)
Theorem init_rejects_malformed_user_id
        (now : Z) (bot_user : string) (s : State) :
  (String.prefix "@" bot_user = false ->
   init now bot_user s
   = (Ret (AssertionError
             ("Invalid userid: " ++ bot_user ++ " should start with @")), s))
  /\ (String.prefix "@" bot_user = true ->
      substring_of ":" bot_user = false ->
      init now bot_user s
      = (Ret (AssertionError
                ("Invalid userid: " ++ bot_user ++ " should contain a :")), s)).
Proof.
  unfold init, MatrixBot_init. split.
  - intros ->. reflexivity.
  - intros -> Hcolon. cbn [negb].
    unfold split_first_colon, SimpleURL.split_at, substring_of in *.
    destruct (String.index 0 ":" bot_user); [discriminate Hcolon | reflexivity].
Qed.

End InitFacts.

Lemma init_resolves_server_of_user_id_witness :
  let bot_user := "@" ++ "bot" ++ ":" ++ "h.example:8448" in
  let s := start fresh_bot
                 [versions_200 "https://h.example:8448/_matrix/client/versions"] in
  MatrixBot_init SimpleURL.t SimpleURL.new SimpleURL.join SimpleURL.scheme
                 SimpleURL.str 63800000000000000 bot_user s
  = match simple_resolve "h.example:8448" s with
    | (Ret base_url, s') =>
        match datetime_add 63800000000000000 WEEKS_9999 with
        | Ret expire =>
            (Ret (Passed ({| user_id := bot_user;
                             access_token := None;
                             access_token_expire := expire;
                             refresh_token := None;
                             listeners := [] |}, base_url)), s')
        | Raise e => (Raise e, s')
        end
    | (Raise e, s') => (Raise e, s')
    end.
Proof.
  apply (init_resolves_server_of_user_id
           SimpleURL.t SimpleURL.new SimpleURL.join SimpleURL.scheme
           SimpleURL.str 63800000000000000 "bot" "h.example:8448"
           (start fresh_bot
              [versions_200 "https://h.example:8448/_matrix/client/versions"])).
  reflexivity.
Defined.

Lemma init_rejects_malformed_user_id_witness :
  MatrixBot_init SimpleURL.t SimpleURL.new SimpleURL.join SimpleURL.scheme
                 SimpleURL.str 63800000000000000 "bot:h.example"
                 (start fresh_bot [])
  = (Ret (AssertionError
            ("Invalid userid: " ++ "bot:h.example" ++ " should start with @")),
     start fresh_bot []).
Proof.
  apply (proj1 (init_rejects_malformed_user_id
                  SimpleURL.t SimpleURL.new SimpleURL.join SimpleURL.scheme
                  SimpleURL.str 63800000000000000 "bot:h.example"
                  (start fresh_bot []))).
  reflexivity.
Defined.
(** ** The loop, cycle by cycle *)

Lemma rooms_from_dict_dict (d : pydict) :
  RoomsResponse_from_dict (PDict d)
  = Ret {| invite := or_default (dict_get d "invite") (PDict []);
           join := or_default (dict_get d "join") (PDict []) |}.
Proof.
  unfold RoomsResponse_from_dict, inject_missing, ROOM_KEYS, dict_mem.
  cbn [filter].
  destruct (dict_get d "invite") as [i |] eqn:Ei;
    destruct (dict_get d "join") as [j |] eqn:Ej;
    cbn [negb fold_left or_default];
    rewrite !dict_get_restrict;
    cbn [existsb String.eqb Ascii.eqb Bool.eqb orb];
    rewrite ?dict_get_set;
    cbn [String.eqb Ascii.eqb Bool.eqb];
    rewrite ?dict_get_set;
    cbn [String.eqb Ascii.eqb Bool.eqb];
    rewrite ?Ei, ?Ej; reflexivity.
Qed.

Lemma advance_nil (s : State) : advance s (inbox s) [] = s.
Proof.
  unfold advance. rewrite app_nil_r. destruct s; reflexivity.
Qed.

(** Envelopes that are skipped leave their records and nothing else. *)
Lemma for_each_skipped (rid : string) (events : list pyval) :
  forall (log : list Effect) (s : State),
    Forall2 (skipped (listeners (bot s))) events log ->
    for_each (join_event rid) events s = (Ret tt, advance s (inbox s) log).
Proof.
  induction events as [| ev events IH]; intros log s H.
  - inversion H; subst. cbn [for_each]. unfold ret.
    rewrite advance_nil. reflexivity.
  - inversion H as [| ? e ? log' Hev Hrest]; subst.
    cbn [for_each]. unfold bind at 1.
    rewrite (join_event_skipped rid ev e s Hev).
    rewrite (IH log' (advance s (inbox s) [e]) Hrest).
    cbn [inbox advance]. rewrite advance_advance. reflexivity.
Qed.

Lemma joined_rooms_skipped (joined : pydict) :
  forall (log : list Effect) (s : State),
    rooms_skipped (listeners (bot s)) joined log ->
    for_each (fun kv => parse_room_join (fst kv) (snd kv)) joined s
    = (Ret tt, advance s (inbox s) log).
Proof.
  induction joined as [| [rid room] joined IH]; intros log s H.
  - inversion H; subst. cbn [for_each]. unfold ret.
    rewrite advance_nil. reflexivity.
  - inversion H as [| ? ? ? ? Hno Hrest | ? ? events es ? log' Hev Hes Hrest];
      subst; cbn [for_each fst snd]; unfold bind at 1, parse_room_join at 1.
    + rewrite Hno. unfold ret at 1. apply IH. exact Hrest.
    + rewrite Hev. rewrite (for_each_skipped rid events es s Hes).
      rewrite (IH log' (advance s (inbox s) es) Hrest).
      cbn [inbox advance]. rewrite advance_advance. reflexivity.
Qed.

(** The dispatch of a body whose rooms hold only skipped envelopes
    returns. *)
Lemma dispatch_rooms_skipped (d : pydict) (rooms : pyval) (joined : pydict)
      (log : list Effect) (s : State) :
  dict_get d "rooms" = Some rooms ->
  joined_only rooms joined ->
  rooms_skipped (listeners (bot s)) joined log ->
  dispatch_rooms d s = (Ret tt, advance s (inbox s) log).
Proof.
  intros Hrooms (rd & -> & Hj & Hi) Hskip.
  unfold dispatch_rooms. rewrite Hrooms. unfold process_rooms.
  rewrite rooms_from_dict_dict. unfold bind at 1, lift at 1.
  cbn [join invite]. rewrite Hj, Hi.
  unfold bind at 1, py_items at 1, ret at 1.
  unfold bind at 1.
  rewrite (joined_rooms_skipped joined log s Hskip).
  reflexivity.
Qed.

(** C8, as amended: in every cycle of the loop in which the executor
    returns a result,
    - if the result is [Ok] of an object whose [next_batch] is truthy and
      the dispatch of its rooms returns, the loop goes on, with that
      [next_batch] as the cursor of the next cycle;
    - skipped events do not end it: if the result is [Ok] of an object
      whose [next_batch] is truthy and whose rooms are joined rooms that
      hold only envelopes [parse_room_join] skips (no object with [type]
      and [content], or a type nobody listens to), the dispatch returns,
      having logged one record per envelope, and the loop goes on with
      that [next_batch];
    - if the result is [Err], the loop ends and [run] returns;
    - if the result is [Ok] of a body that is no object or has no
      [next_batch], the loop ends and [run] returns;
    - if the result is [Ok] of an object whose [next_batch] is falsy (as
      the empty string is) and the dispatch of its rooms returns, the loop
      ends and [run] returns. *)
Theorem run_loop_cycle
        (fuel : nat) (cursor : pyval) (s : State) (res : Result) (s2 : State) :
  _GET "client/v3/sync" (sync_params cursor)
       (printed s (MsgSync (sync_params cursor))) = (Ret res, s2) ->
  (forall (d : pydict) (nb : pyval) (s3 : State),
      res = Ok (PDict d) ->
      dict_get d "next_batch" = Some nb ->
      truthy nb = true ->
      dispatch_rooms d s2 = (Ret tt, s3) ->
      run_loop (S fuel) cursor s = run_loop fuel nb (printed s3 MsgSyncing))
  /\ (forall (d : pydict) (nb rooms : pyval) (joined : pydict)
             (log : list Effect),
         res = Ok (PDict d) ->
         dict_get d "next_batch" = Some nb ->
         truthy nb = true ->
         dict_get d "rooms" = Some rooms ->
         joined_only rooms joined ->
         rooms_skipped (listeners (bot s2)) joined log ->
         run_loop (S fuel) cursor s
         = run_loop fuel nb
                    (printed (advance s2 (inbox s2) log) MsgSyncing))
  /\ (forall e : ErrMsg,
         res = Err e ->
         run_loop (S fuel) cursor s = (Ret Returned, printed s2 (MsgErr e)))
  /\ (forall v : pyval,
         res = Ok v ->
         (forall d, v = PDict d -> dict_get d "next_batch" = None) ->
         run_loop (S fuel) cursor s
         = (Ret Returned, printed s2 (MsgSyncWat v)))
  /\ (forall (d : pydict) (nb : pyval) (s3 : State),
         res = Ok (PDict d) ->
         dict_get d "next_batch" = Some nb ->
         truthy nb = false ->
         dispatch_rooms d s2 = (Ret tt, s3) ->
         run_loop (S fuel) cursor s = (Ret Returned, s3)).
Proof.
  intros Hget.
  assert (Hstep : run_loop (S fuel) cursor s =
                  match sync (sync_params cursor) s with
                  | (Ret nb, s') =>
                      if truthy nb
                      then run_loop fuel nb (printed s' MsgSyncing)
                      else (Ret Returned, s')
                  | (Raise e, s') => (Raise e, s')
                  end).
  { cbn [run_loop]. unfold bind at 1. fold (sync_params cursor).
    destruct (sync (sync_params cursor) s) as [[nb | e] s']; [| reflexivity].
    destruct (truthy nb); reflexivity. }
  rewrite Hstep, sync_unfold, Hget. clear Hstep.
  repeat split.
  - intros d nb s3 -> Hnb Htruthy Hrooms.
    rewrite Hnb, Hrooms, Htruthy. reflexivity.
  - intros d nb rooms joined log -> Hnb Htruthy Hrooms Hjoined Hskip.
    rewrite Hnb, (dispatch_rooms_skipped d rooms joined log s2
                    Hrooms Hjoined Hskip), Htruthy.
    reflexivity.
  - intros e ->. reflexivity.
  - intros v -> Hnone.
    destruct v as [| | | | | d |]; try reflexivity.
    rewrite (Hnone d eq_refl). reflexivity.
  - intros d nb s3 -> Hnb Hfalsy Hrooms.
    rewrite Hnb, Hrooms, Hfalsy. reflexivity.
Qed.

Lemma run_loop_cycle_witness :
  let s := start (snd (on_message (quiet "recv_msg") fresh_bot))
                 [ok_200 skipped_only_body] in
  let s2 := advance s []
              [EPrint (MsgSync (sync_params (PStr "b1")));
               EHttp "GET" "client/v3/sync" (sync_params (PStr "b1")) []] in
  run_loop 1 (PStr "b1") s
  = run_loop 0 (PStr "b2")
      (printed
         (advance s2 []
            [EWarning (MsgSkipUnknown (PStr "junk"));
             EInfo (MsgSkipNoListeners (PStr "m.typing"))])
         MsgSyncing).
Proof.
  intros s s2.
  apply (proj1 (proj2 (run_loop_cycle
                         0 (PStr "b1") s (Ok skipped_only_body) s2 eq_refl))
          [("next_batch", PStr "b2");
           ("rooms",
            PDict [("join",
                    PDict [("!r1:h.example",
                            timeline_of
                              [PStr "junk";
                               PDict [("type", PStr "m.typing");
                                      ("content", PDict [])]])])])]
          (PStr "b2")
          (PDict [("join",
                   PDict [("!r1:h.example",
                           timeline_of
                             [PStr "junk";
                              PDict [("type", PStr "m.typing");
                                     ("content", PDict [])]])])])
          [("!r1:h.example",
            timeline_of
              [PStr "junk";
               PDict [("type", PStr "m.typing"); ("content", PDict [])]])]
          [EWarning (MsgSkipUnknown (PStr "junk"));
           EInfo (MsgSkipNoListeners (PStr "m.typing"))]).
  - reflexivity.
  - reflexivity.
  - reflexivity.
  - reflexivity.
  - eexists. split; [reflexivity |]. split; reflexivity.
  - apply (RS_timeline _ _ _
             [PStr "junk";
              PDict [("type", PStr "m.typing"); ("content", PDict [])]]
             [EWarning (MsgSkipUnknown (PStr "junk"));
              EInfo (MsgSkipNoListeners (PStr "m.typing"))] [] []).
    + reflexivity.
    + constructor.
      * apply Skipped_no_object. reflexivity.
      * constructor; [| constructor].
        apply (Skipped_unheard _ _ (PStr "m.typing") (PDict []));
          reflexivity.
    + constructor.
Defined.

(** C8 as stated fails: the second cycle receives a 200, the executor
    returns [Ok], and the loop ends there because the body carries no
    [next_batch]; the third response is never requested. *)
Lemma run_returns_after_successful_cycle :
  fst (_GET "client/v3/sync" (sync_params (PStr "b1"))
            (start fresh_bot [ok_200 no_cursor_body; ok_200 (batch "b3")]))
  = Ret (Ok no_cursor_body)
  /\ run 10 false
         (start fresh_bot
            [ok_200 (batch "b1"); ok_200 no_cursor_body; ok_200 (batch "b3")])
     = (Ret Returned,
        {| bot := fresh_bot;
           inbox := [ok_200 (batch "b3")];
           utcoffset := 0;
           trace :=
             [EPrint (MsgSync (PDict [("full_state", PBool false);
                                      ("timeout", PInt 5000)]));
              EHttp "GET" "client/v3/sync"
                    (PDict [("full_state", PBool false);
                            ("timeout", PInt 5000)]) [];
              EPrint (MsgSync (sync_params (PStr "b1")));
              EHttp "GET" "client/v3/sync" (sync_params (PStr "b1")) [];
              EPrint (MsgSyncWat no_cursor_body)] |}).
Proof.
  split; reflexivity.
Qed.

